(** * Pizza-Backend-Service: inventory-consistent order composition

    A shallow embedding of the order endpoints
    ([app/api/v1/endpoints/order/router.py], [order/crud.py] and
    [order/stock_logic/stock_ingredients_crud.py]) over an explicit model of
    the relational store, followed by the properties the specification
    states about them: the availability check, the guarded beverage stock,
    beverage lines, pricing, filtering by status, and the conservation of
    stock along sequences of requests, with the two places where the
    handlers break it.

    A second part covers what those statements leave out: the status of an
    order and the queries by status and by user ([user/crud.py]), the
    answers of each handler case by case, round trips (a pizza or a beverage
    line added and removed again), how the price follows the lines, the
    topping rows of a pizza type ([pizza_type/router.py], [pizza_type/crud.py])
    and what no order request ever changes.

    Conventions of the embedding.
    - A SQLAlchemy session is the record [DB]; every function that receives
      [db: Session] (or an ORM object attached to it) runs in the monad [M],
      which threads the store.  [db.commit()] and [db.refresh(_)] have no
      counterpart: each request is run alone, so a write is visible as soon
      as it is made.
    - [raise HTTPException(status_code=c)] is the outcome [Raise c]; it keeps
      the store as it is at that point.  [return Response(status_code=c)] is
      an ordinary return of the value [Status c].
    - Following a relationship whose target row is absent
      ([pizza_type.dough] being [None], say) raises [AttributeError] in the
      source; the run is then [None] and nothing is said about the store.
    - Catalog tables are finite maps keyed by primary key; orders, pizzas
      and beverage lines are lists of rows, [.first()] is [find] and [.all()]
      is [filter].
    - Money ([Decimal]) is counted exactly, as an integer number of the
      smallest unit; stock counts are Python [int]s, hence [Z]. *)

From Stdlib Require Import ZArith List Lia Bool.
From stdpp Require Import base option list gmap.

Local Open Scope Z_scope.

(** ** The data model (app/database/models.py, as the endpoints use it) *)

Abbreviation uuid := N.

(** Modelled from the spec: the enum is declared in [app/database/models.py],
    which is not among the sources.  The spec names "TRANSMITTED, PREPARING,
    … COMPLETED"; [IN_DELIVERY] stands for the labels in between. *)
Inductive OrderStatus := TRANSMITTED | PREPARING | IN_DELIVERY | COMPLETED.

#[global] Instance OrderStatus_eq_dec : EqDecision OrderStatus.
Proof. solve_decision. Defined.

Record Dough := mkDough { dough_price : Z; dough_stock : Z }.
Record Topping := mkTopping { topping_price : Z; topping_stock : Z }.
Record Beverage := mkBeverage { beverage_price : Z; beverage_stock : Z }.

(** One row of the pizza-type/topping association: [topping_quantity.topping]
    is followed through [tq_topping_id]. *)
Record PizzaTypeToppingQuantity := mkToppingQuantity {
  tq_topping_id : uuid;
  tq_quantity : Z
}.

Record PizzaType := mkPizzaType {
  pizza_type_id : uuid;
  pizza_type_price : Z;
  pizza_type_dough_id : uuid;
  pizza_type_toppings : list PizzaTypeToppingQuantity
}.

Record Pizza := mkPizza {
  pizza_id : uuid;
  pizza_order_id : option uuid;
  pizza_pizza_type_id : option uuid
}.

Record OrderBeverageQuantity := mkOrderBeverageQuantity {
  obq_order_id : uuid;
  obq_beverage_id : uuid;
  obq_quantity : Z
}.

Record Order := mkOrder {
  order_id : uuid;
  order_user_id : uuid;
  order_status : OrderStatus
}.

Record DB := mkDB {
  users : gset N;
  doughs : gmap N Dough;
  toppings : gmap N Topping;
  beverages : gmap N Beverage;
  pizza_types : gmap N PizzaType;
  orders : list Order;
  pizzas : list Pizza;
  order_beverages : list OrderBeverageQuantity;
  (** the next identifier [uuid.uuid4] hands out *)
  next_uuid : uuid
}.

Definition set_doughs (f : gmap N Dough → gmap N Dough) (db : DB) : DB :=
  mkDB (users db) (f (doughs db)) (toppings db) (beverages db) (pizza_types db)
       (orders db) (pizzas db) (order_beverages db) (next_uuid db).

Definition set_toppings (f : gmap N Topping → gmap N Topping) (db : DB) : DB :=
  mkDB (users db) (doughs db) (f (toppings db)) (beverages db) (pizza_types db)
       (orders db) (pizzas db) (order_beverages db) (next_uuid db).

Definition set_beverages (f : gmap N Beverage → gmap N Beverage) (db : DB) : DB :=
  mkDB (users db) (doughs db) (toppings db) (f (beverages db)) (pizza_types db)
       (orders db) (pizzas db) (order_beverages db) (next_uuid db).

Definition set_orders (f : list Order → list Order) (db : DB) : DB :=
  mkDB (users db) (doughs db) (toppings db) (beverages db) (pizza_types db)
       (f (orders db)) (pizzas db) (order_beverages db) (next_uuid db).

Definition set_pizzas (f : list Pizza → list Pizza) (db : DB) : DB :=
  mkDB (users db) (doughs db) (toppings db) (beverages db) (pizza_types db)
       (orders db) (f (pizzas db)) (order_beverages db) (next_uuid db).

Definition set_order_beverages
    (f : list OrderBeverageQuantity → list OrderBeverageQuantity) (db : DB) : DB :=
  mkDB (users db) (doughs db) (toppings db) (beverages db) (pizza_types db)
       (orders db) (pizzas db) (f (order_beverages db)) (next_uuid db).

Definition set_next_uuid (f : uuid → uuid) (db : DB) : DB :=
  mkDB (users db) (doughs db) (toppings db) (beverages db) (pizza_types db)
       (orders db) (pizzas db) (order_beverages db) (f (next_uuid db)).

(** The three stock ledgers of a store. *)
Definition dough_stock_of (db : DB) (i : uuid) : option Z :=
  dough_stock <$> doughs db !! i.
Definition topping_stock_of (db : DB) (i : uuid) : option Z :=
  topping_stock <$> toppings db !! i.
Definition beverage_stock_of (db : DB) (i : uuid) : option Z :=
  beverage_stock <$> beverages db !! i.

(** ** The session monad *)

Inductive outcome (A : Type) : Type :=
| Return (a : A)
| Raise (status_code : Z).
Arguments Return {A} a.
Arguments Raise {A} status_code.

Definition M (A : Type) : Type := DB → option (outcome A * DB).

Definition ret {A} (a : A) : M A := λ db, Some (Return a, db).

Definition bind {A B} (m : M A) (k : A → M B) : M B :=
  λ db, match m db with
        | Some (Return a, db') => k a db'
        | Some (Raise c, db') => Some (Raise c, db')
        | None => None
        end.

Notation "'let*' x ':=' m 'in' k" := (bind m (λ x, k))
  (at level 10, x pattern, m at level 100, k at level 200).
Notation "m ';;' k" := (bind m (λ _, k))
  (at level 100, k at level 200, right associativity).

(** [raise HTTPException(status_code=c)] *)
Definition raise_http {A} (c : Z) : M A := λ db, Some (Raise c, db).
(** an uncaught [AttributeError] *)
Definition attribute_error {A} : M A := λ _, None.

Definition gets {A} (f : DB → A) : M A := λ db, Some (Return (f db), db).
Definition modify (f : DB → DB) : M unit := λ db, Some (Return tt, f db).

(** [uuid.uuid4()], the column default of every [id] *)
Definition uuid4 : M uuid :=
  λ db, Some (Return (next_uuid db), set_next_uuid N.succ db).

(** [for x in xs: body(x)] *)
Fixpoint for_each {A} (xs : list A) (body : A → M unit) : M unit :=
  match xs with
  | [] => ret tt
  | x :: xs' => body x ;; for_each xs' body
  end.

(** A handler's return value. *)
Inductive Response (A : Type) : Type :=
| Body (a : A)
| Status (status_code : Z)
| RedirectResponse (url_order_id : uuid) (status_code : Z).
Arguments Body {A} a.
Arguments Status {A} status_code.
Arguments RedirectResponse {A} url_order_id status_code.

(** ** order/stock_logic/stock_ingredients_crud.py *)

(** [pizza_type.dough] *)
Definition dough_of (pizza_type : PizzaType) : M Dough :=
  let* d := gets (λ db, doughs db !! pizza_type_dough_id pizza_type) in
  match d with Some d => ret d | None => attribute_error end.

(** [topping_quantity.topping] *)
Definition topping_of (tq : PizzaTypeToppingQuantity) : M Topping :=
  let* t := gets (λ db, toppings db !! tq_topping_id tq) in
  match t with Some t => ret t | None => attribute_error end.

(** The loop of [ingredients_are_available], which leaves at the first
    topping that is short. *)
Fixpoint toppings_are_available (tqs : list PizzaTypeToppingQuantity) : M bool :=
  match tqs with
  | [] => ret true
  | tq :: rest =>
      let* t := topping_of tq in
      if topping_stock t <? tq_quantity tq then ret false
      else toppings_are_available rest
  end.

Definition ingredients_are_available (pizza_type : PizzaType) : M bool :=
  let* d := dough_of pizza_type in
  if dough_stock d =? 0 then ret false
  else toppings_are_available (pizza_type_toppings pizza_type).

(** [x.stock += delta] on a dough and on a topping row *)
Definition add_dough_stock (i : uuid) (delta : Z) : M unit :=
  let* d := gets (λ db, doughs db !! i) in
  match d with
  | Some d => modify (set_doughs <[i := mkDough (dough_price d) (dough_stock d + delta)]>)
  | None => attribute_error
  end.

Definition add_topping_stock (i : uuid) (delta : Z) : M unit :=
  let* t := gets (λ db, toppings db !! i) in
  match t with
  | Some t => modify (set_toppings <[i := mkTopping (topping_price t) (topping_stock t + delta)]>)
  | None => attribute_error
  end.

Definition reduce_stock_of_ingredients (pizza_type : PizzaType) : M unit :=
  add_dough_stock (pizza_type_dough_id pizza_type) (-1) ;;
  for_each (pizza_type_toppings pizza_type)
    (λ tq, add_topping_stock (tq_topping_id tq) (- tq_quantity tq)).

Definition increase_stock_of_ingredients (pizza_type : PizzaType) : M unit :=
  add_dough_stock (pizza_type_dough_id pizza_type) 1 ;;
  for_each (pizza_type_toppings pizza_type)
    (λ tq, add_topping_stock (tq_topping_id tq) (tq_quantity tq)).

(** ** order/stock_logic/stock_beverage_crud.py *)

(** Modelled from the spec: [stock_beverage_crud.py] is imported by the
    router and exercised by [test_stock_logic.py] but is not among the
    sources.  "[beverageAvailable(beverageId, quantity) -> bool]: true iff
    beverage.stock ≥ quantity."  The spec does not say what happens for an
    unknown beverage; it is reported as unavailable here. *)
Definition beverage_is_available (beverage_id : uuid) (quantity : Z) : M bool :=
  let* b := gets (λ db, beverages db !! beverage_id) in
  match b with
  | Some b => ret (quantity <=? beverage_stock b)
  | None => ret false
  end.

(** Modelled from the spec: [stock_beverage_crud.py] is not among the
    sources.  "[changeStock(beverageId, delta)]: applies [stock += delta];
    delta may be negative (consumption) or positive (restoration).  Returns
    failure (no mutation) if the resulting stock would go below zero;
    otherwise commits and returns success."  An unknown beverage is reported
    as a failure, without mutation. *)
Definition change_stock_of_beverage (beverage_id : uuid) (change_amount : Z) : M bool :=
  let* b := gets (λ db, beverages db !! beverage_id) in
  match b with
  | Some b =>
      if beverage_stock b + change_amount <? 0 then ret false
      else
        modify (set_beverages
                  <[beverage_id := mkBeverage (beverage_price b)
                                              (beverage_stock b + change_amount)]>) ;;
        ret true
  | None => ret false
  end.

(** ** order/crud.py *)

Module order_crud.

(** [create_address] and the address columns play no part in stock, lines
    or price and are left out. *)
Definition create_order (user_id : uuid) : M Order :=
  let* i := uuid4 in
  let order := mkOrder i user_id TRANSMITTED in
  modify (set_orders (λ os, os ++ [order])) ;;
  ret order.

Definition get_order_by_id (order_id' : uuid) : M (option Order) :=
  gets (λ db, find (λ o, bool_decide (order_id o = order_id')) (orders db)).

Definition get_all_orders : M (list Order) := gets orders.

(** Modelled from the spec: the relationships of [Order] are declared in
    [app/database/models.py], which is not among the sources.  "Order —
    ... owned collection of Pizza, owned collection of
    OrderBeverageQuantity"; a pizza is "destroyed when removed from the order
    or when the order is destroyed".  [db.delete(entity)] therefore takes the
    order's pizzas and beverage lines with it. *)
Definition db_delete_order (order_id' : uuid) : M unit :=
  modify (λ db,
    set_orders (filter (λ o, order_id o ≠ order_id'))
      (set_pizzas (filter (λ p, pizza_order_id p ≠ Some order_id'))
        (set_order_beverages (filter (λ l, obq_order_id l ≠ order_id')) db))).

Definition delete_order_by_id (order_id' : uuid) : M unit :=
  let* entity := get_order_by_id order_id' in
  match entity with
  | Some entity => db_delete_order (order_id entity)
  | None => ret tt
  end.

Definition update_order_status (order : Order) (changed_order : OrderStatus) : M Order :=
  let order' := mkOrder (order_id order) (order_user_id order) changed_order in
  modify (set_orders
            (map (λ o, if bool_decide (order_id o = order_id order) then order' else o))) ;;
  ret order'.

Definition create_pizza (pizza_type : option PizzaType) : M Pizza :=
  let* i := uuid4 in
  let entity := mkPizza i None (pizza_type_id <$> pizza_type) in
  modify (set_pizzas (λ ps, ps ++ [entity])) ;;
  ret entity.

(** [order.pizzas.append(pizza)] sets the pizza's [order_id]. *)
Definition add_pizza_to_order (order : Order) (pizza_type : option PizzaType) : M Pizza :=
  let* pizza := create_pizza pizza_type in
  let pizza' := mkPizza (pizza_id pizza) (Some (order_id order)) (pizza_pizza_type_id pizza) in
  modify (set_pizzas
            (map (λ p, if bool_decide (pizza_id p = pizza_id pizza) then pizza' else p))) ;;
  ret pizza'.

Definition get_pizza_by_id (pizza_id' : uuid) : M (option Pizza) :=
  gets (λ db, find (λ p, bool_decide (pizza_id p = pizza_id')) (pizzas db)).

Definition delete_pizza_from_order (order : Order) (pizza_id' : uuid) : M bool :=
  let* entity :=
    gets (λ db, find (λ p, bool_decide (pizza_order_id p = Some (order_id order))
                           && bool_decide (pizza_id p = pizza_id')) (pizzas db)) in
  match entity with
  | Some entity =>
      modify (set_pizzas (filter (λ p, pizza_id p ≠ pizza_id entity))) ;;
      ret true
  | None => ret false
  end.

(** A new [OrderBeverageQuantity] row built from the schema and appended to
    [order.beverages]. *)
Definition create_beverage_quantity (order : Order) (beverage_id : uuid) (quantity : Z)
  : M OrderBeverageQuantity :=
  let entity := mkOrderBeverageQuantity (order_id order) beverage_id quantity in
  modify (set_order_beverages (λ ls, ls ++ [entity])) ;;
  ret entity.

Definition is_line (order_id' beverage_id : uuid) (l : OrderBeverageQuantity) : bool :=
  bool_decide (obq_beverage_id l = beverage_id) && bool_decide (obq_order_id l = order_id').

Definition get_beverage_quantity_by_id (order_id' beverage_id : uuid)
  : M (option OrderBeverageQuantity) :=
  gets (λ db, find (is_line order_id' beverage_id) (order_beverages db)).

Definition get_joined_beverage_quantities_by_order (order_id' : uuid)
  : M (list OrderBeverageQuantity) :=
  gets (λ db, filter (λ l, obq_order_id l = order_id') (order_beverages db)).

(** [setattr(order_beverage, 'quantity', new_quantity)] on the row [.first()]
    found: the first row of the pair is rewritten in place. *)
Fixpoint set_quantity_of_first (order_id' beverage_id : uuid) (new_quantity : Z)
    (ls : list OrderBeverageQuantity) : list OrderBeverageQuantity :=
  match ls with
  | [] => []
  | l :: ls' =>
      if is_line order_id' beverage_id l
      then mkOrderBeverageQuantity (obq_order_id l) (obq_beverage_id l) new_quantity :: ls'
      else l :: set_quantity_of_first order_id' beverage_id new_quantity ls'
  end.

Definition update_beverage_quantity_of_order (order_id' beverage_id : uuid) (new_quantity : Z)
  : M (option OrderBeverageQuantity) :=
  let* order_beverage := get_beverage_quantity_by_id order_id' beverage_id in
  match order_beverage with
  | Some l =>
      modify (set_order_beverages (set_quantity_of_first order_id' beverage_id new_quantity)) ;;
      ret (Some (mkOrderBeverageQuantity (obq_order_id l) (obq_beverage_id l) new_quantity))
  | None => ret None
  end.

(** [db.delete(entity)] removes the row with the entity's key. *)
Definition delete_beverage_from_order (order_id' beverage_id : uuid) : M bool :=
  let* entity := get_beverage_quantity_by_id order_id' beverage_id in
  match entity with
  | Some _ =>
      modify (set_order_beverages (filter (λ l, is_line order_id' beverage_id l = false))) ;;
      ret true
  | None => ret false
  end.

(** The rows of
    [query(Beverage.price, OrderBeverageQuantity.quantity).join(OrderBeverageQuantity).join(Order).filter(Order.id == order_id)]:
    one per combination of an order row with that id, a line of it and the
    line's beverage. *)
Definition beverage_price_rows (order_id' : uuid) (db : DB) : list (Z * Z) :=
  o ← filter (λ o, order_id o = order_id') (orders db);
  l ← filter (λ l, obq_order_id l = order_id o) (order_beverages db);
  b ← option_list (beverages db !! obq_beverage_id l);
  [(beverage_price b, obq_quantity l)].

(** The rows [func.sum(PizzaType.price)] ranges over in
    [query(...).join(Pizza).join(Order).filter(Order.id == order_id)]. *)
Definition pizza_price_rows (order_id' : uuid) (db : DB) : list Z :=
  o ← filter (λ o, order_id o = order_id') (orders db);
  p ← filter (λ p, pizza_order_id p = Some (order_id o)) (pizzas db);
  t ← option_list (pizza_pizza_type_id p ≫= λ i, pizza_types db !! i);
  [pizza_type_price t].

(** SQL [SUM]: [NULL] over no rows. *)
Definition func_sum (rows : list Z) : option Z :=
  match rows with
  | [] => None
  | _ => Some (fold_left Z.add rows 0)
  end.

(** Python truthiness of [price_pizza]: [None] and a zero amount are false. *)
Definition truthy (price : option Z) : bool :=
  match price with
  | None => false
  | Some p => negb (p =? 0)
  end.

(** [total_price += price_pizza] under [if price_pizza:] *)
Definition add_if_truthy (total_price : Z) (price_pizza : option Z) : Z :=
  match price_pizza with
  | Some p => if truthy price_pizza then total_price + p else total_price
  | None => total_price
  end.

Definition get_price_of_order (order_id' : uuid) : M Z :=
  let* rows := gets (beverage_price_rows order_id') in
  let price_beverage :=
    fold_left (λ price_beverage row, price_beverage + row.1 * row.2) rows 0 in
  let* price_pizza := gets (λ db, func_sum (pizza_price_rows order_id' db)) in
  let total_price := price_beverage in
  let total_price := add_if_truthy total_price price_pizza in
  ret total_price.

Definition get_orders_by_statuses (statuses : option (list OrderStatus)) : M (list Order) :=
  match statuses with
  | Some ((_ :: _) as statuses) =>
      gets (λ db, filter (λ o, order_status o ∈ statuses) (orders db))
  | _ => gets orders
  end.

(** The rows of
    [query(Pizza.id, PizzaType.name, PizzaType.price, PizzaType.description, PizzaType.dough_id).join(Pizza.pizza_type).filter(Pizza.order_id == order.id)]:
    one per pizza of the order whose pizza type exists.  A row is kept as
    the pizza's id with the pizza-type row its other columns are read from. *)
Definition get_all_pizzas_of_order (order : Order) : M (list (uuid * PizzaType)) :=
  gets (λ db,
    p ← filter (λ p, pizza_order_id p = Some (order_id order)) (pizzas db);
    t ← option_list (pizza_pizza_type_id p ≫= λ i, pizza_types db !! i);
    [(pizza_id p, t)]).

End order_crud.

(** ** user/crud.py: the order queries *)

Module user_crud.

Definition get_order_history_of_user (user_id : uuid) : M (list Order) :=
  gets (λ db, filter (λ o, order_user_id o = user_id ∧ order_status o = COMPLETED)
                     (orders db)).

Definition get_open_orders_of_user (user_id : uuid) : M (list Order) :=
  gets (λ db, filter (λ o, order_user_id o = user_id ∧ order_status o ≠ COMPLETED)
                     (orders db)).

Definition get_all_not_completed_orders : M (list Order) :=
  gets (λ db, filter (λ o, order_status o ≠ COMPLETED) (orders db)).

End user_crud.

(** ** pizza_type/crud.py: the topping rows of a pizza type *)

Definition set_pizza_types (f : gmap N PizzaType → gmap N PizzaType) (db : DB) : DB :=
  mkDB (users db) (doughs db) (toppings db) (beverages db) (f (pizza_types db))
       (orders db) (pizzas db) (order_beverages db) (next_uuid db).

Module pizza_type_crud.

Definition get_pizza_type_by_id (pizza_type_id' : uuid) : M (option PizzaType) :=
  gets (λ db, pizza_types db !! pizza_type_id').

(** [pizza_type.toppings.append(entity)]: the association rows of a pizza
    type are kept in its row, so the new row is appended there. *)
Definition create_topping_quantity (pizza_type : PizzaType) (topping_id : uuid) (quantity : Z)
  : M PizzaTypeToppingQuantity :=
  let entity := mkToppingQuantity topping_id quantity in
  modify (set_pizza_types
            (alter (λ t, mkPizzaType (pizza_type_id t) (pizza_type_price t)
                                     (pizza_type_dough_id t)
                                     (pizza_type_toppings t ++ [entity]))
                   (pizza_type_id pizza_type))) ;;
  ret entity.

Definition get_topping_quantity_by_id (pizza_type_id' topping_id : uuid)
  : M (option PizzaTypeToppingQuantity) :=
  gets (λ db, pizza_types db !! pizza_type_id' ≫= λ t,
              find (λ tq, bool_decide (tq_topping_id tq = topping_id))
                   (pizza_type_toppings t)).

Definition get_joined_topping_quantities_by_pizza_type (pizza_type_id' : uuid)
  : M (list PizzaTypeToppingQuantity) :=
  gets (λ db, default [] (pizza_type_toppings <$> pizza_types db !! pizza_type_id')).

End pizza_type_crud.

(** ** order/router.py *)

Module router.

(** [user_crud.get_user_by_id(order.user_id, db) is None] *)
Definition user_is_none (user_id : uuid) : M bool :=
  gets (λ db, bool_decide (user_id ∉ users db)).

(** [pizza.pizza_type] *)
Definition pizza_type_of (pizza : Pizza) : M (option PizzaType) :=
  gets (λ db, pizza_pizza_type_id pizza ≫= λ i, pizza_types db !! i).

(** [order.pizzas] and [order.beverages] *)
Definition pizzas_of (order : Order) : M (list Pizza) :=
  gets (λ db, filter (λ p, pizza_order_id p = Some (order_id order)) (pizzas db)).
Definition beverages_of (order : Order) : M (list OrderBeverageQuantity) :=
  gets (λ db, filter (λ l, obq_order_id l = order_id order) (order_beverages db)).

(** Body of the first loop of [create_order]. *)
Definition copy_pizza (new_order : Order) (pizza : Pizza) : M unit :=
  let* pizza_type := pizza_type_of pizza in
  match pizza_type with
  | None => attribute_error
  | Some pizza_type =>
      let* available := ingredients_are_available pizza_type in
      if negb available then
        order_crud.delete_order_by_id (order_id new_order) ;;
        raise_http 409
      else
        order_crud.add_pizza_to_order new_order (Some pizza_type) ;;
        reduce_stock_of_ingredients pizza_type
  end.

(** Body of the second loop of [create_order]. *)
Definition copy_beverage (new_order : Order) (beverage_quantity : OrderBeverageQuantity)
  : M unit :=
  let* changed :=
    change_stock_of_beverage (obq_beverage_id beverage_quantity)
                             (- obq_quantity beverage_quantity) in
  if negb changed then
    order_crud.delete_order_by_id (order_id new_order) ;;
    raise_http 409
  else
    order_crud.create_beverage_quantity new_order (obq_beverage_id beverage_quantity)
                                        (obq_quantity beverage_quantity) ;;
    ret tt.

Definition create_order (user_id : uuid) (copy_order_id : option uuid) : M Order :=
  let* no_user := user_is_none user_id in
  if no_user then raise_http 404
  else
    let* new_order := order_crud.create_order user_id in
    match copy_order_id with
    | None => ret new_order
    | Some copy_order_id =>
        let* copy_order := order_crud.get_order_by_id copy_order_id in
        match copy_order with
        | None =>
            order_crud.delete_order_by_id (order_id new_order) ;;
            raise_http 404
        | Some copy_order =>
            (let* ps := pizzas_of copy_order in
             for_each ps (copy_pizza new_order)) ;;
            (let* ls := beverages_of copy_order in
             for_each ls (copy_beverage new_order)) ;;
            ret new_order
        end
    end.

Definition delete_order (order_id' : uuid) : M (Response unit) :=
  let* order := order_crud.get_order_by_id order_id' in
  match order with
  | None => ret (Status 404)
  | Some order =>
      (let* ps := pizzas_of order in
       for_each ps (λ pizza,
         let* pizza_type := pizza_type_of pizza in
         match pizza_type with
         | Some pizza_type => increase_stock_of_ingredients pizza_type
         | None => attribute_error
         end)) ;;
      (let* ls := beverages_of order in
       for_each ls (λ beverage,
         change_stock_of_beverage (obq_beverage_id beverage) (obq_quantity beverage) ;;
         ret tt)) ;;
      order_crud.delete_order_by_id order_id' ;;
      ret (Status 204)
  end.

Definition add_pizza_to_order (order_id' pizza_type_id' : uuid) : M (Response Pizza) :=
  let* order := order_crud.get_order_by_id order_id' in
  match order with
  | None => ret (Status 404)
  | Some order =>
      let* pizza_type := gets (λ db, pizza_types db !! pizza_type_id') in
      match pizza_type with
      | None => ret (Status 404)
      | Some pizza_type =>
          let* available := ingredients_are_available pizza_type in
          if negb available then ret (Status 409)
          else
            reduce_stock_of_ingredients pizza_type ;;
            let* pizza := order_crud.add_pizza_to_order order (Some pizza_type) in
            ret (Body pizza)
      end
  end.

Definition delete_pizza_from_order (order_id' pizza_id' : uuid) : M (Response unit) :=
  let* order := order_crud.get_order_by_id order_id' in
  match order with
  | None => ret (Status 404)
  | Some order =>
      let* pizza_entity := order_crud.get_pizza_by_id pizza_id' in
      match pizza_entity with
      | None => ret (Status 404)
      | Some pizza_entity =>
          let* pizza_type := pizza_type_of pizza_entity in
          match pizza_type with
          | None => attribute_error
          | Some pizza_type =>
              increase_stock_of_ingredients pizza_type ;;
              let* deleted := order_crud.delete_pizza_from_order order pizza_id' in
              if negb deleted then ret (Status 404)
              else ret (Status 200)
          end
      end
  end.

Definition create_order_beverage (order_id' beverage_id : uuid) (quantity : Z)
  : M (Response OrderBeverageQuantity) :=
  let* order := order_crud.get_order_by_id order_id' in
  match order with
  | None => ret (Status 404)
  | Some order =>
      if quantity <=? 0 then raise_http 422
      else
        let* beverage := gets (λ db, beverages db !! beverage_id) in
        match beverage with
        | None => raise_http 404
        | Some _ =>
            let* beverage_quantity_found :=
              order_crud.get_beverage_quantity_by_id order_id' beverage_id in
            match beverage_quantity_found with
            | Some found => ret (RedirectResponse (obq_order_id found) 303)
            | None =>
                let* available := beverage_is_available beverage_id quantity in
                if negb available then raise_http 409
                else
                  change_stock_of_beverage beverage_id (- quantity) ;;
                  let* new_beverage_quantity :=
                    order_crud.create_beverage_quantity order beverage_id quantity in
                  ret (Body new_beverage_quantity)
            end
        end
  end.

Definition update_beverage_of_order (order_id' beverage_id : uuid) (quantity : Z)
  : M (Response (option OrderBeverageQuantity)) :=
  let* order := order_crud.get_order_by_id order_id' in
  match order with
  | None => ret (Status 404)
  | Some _ =>
      if quantity <=? 0 then ret (Status 422)
      else
        let* order_beverage_quantity :=
          order_crud.get_beverage_quantity_by_id order_id' beverage_id in
        match order_beverage_quantity with
        | None => raise_http 404
        | Some order_beverage_quantity =>
            let new_quantity := quantity in
            let old_quantity := obq_quantity order_beverage_quantity in
            let* changed :=
              change_stock_of_beverage beverage_id (old_quantity - new_quantity) in
            if negb changed then raise_http 409
            else
              let* updated_beverage_quantity :=
                order_crud.update_beverage_quantity_of_order order_id' beverage_id
                                                             new_quantity in
              ret (Body updated_beverage_quantity)
        end
  end.

Definition delete_beverage_from_order (order_id' beverage_id : uuid) : M (Response unit) :=
  let* order := order_crud.get_order_by_id order_id' in
  match order with
  | None => ret (Status 404)
  | Some _ =>
      let* order_beverage := order_crud.get_beverage_quantity_by_id order_id' beverage_id in
      match order_beverage with
      | None => raise_http 404
      | Some order_beverage =>
          change_stock_of_beverage beverage_id (obq_quantity order_beverage) ;;
          order_crud.delete_beverage_from_order order_id' beverage_id ;;
          ret (Status 204)
      end
  end.

Definition get_price_of_order (order_id' : uuid) : M (Response Z) :=
  let* order := order_crud.get_order_by_id order_id' in
  match order with
  | None => ret (Status 404)
  | Some _ =>
      let* price := order_crud.get_price_of_order order_id' in
      ret (Body price)
  end.

(** [[OrderStatus[status.upper()] for status in statuses]].  The lookup of a
    member by its upper-cased name is taken as its result, [None] standing
    for the [KeyError] of a string that names no member; the comprehension
    stops at the first such string. *)
Fixpoint status_enums_of (statuses : list (option OrderStatus)) : option (list OrderStatus) :=
  match statuses with
  | [] => Some []
  | Some status :: rest => cons status <$> status_enums_of rest
  | None :: _ => None
  end.

Definition get_orders_by_status (statuses : option (list (option OrderStatus)))
  : M (list Order) :=
  let* status_enums :=
    match statuses with
    | Some ((_ :: _) as statuses) =>
        match status_enums_of statuses with
        | Some status_enums => ret (Some status_enums)
        | None => raise_http 400
        end
    | _ => ret None
    end in
  order_crud.get_orders_by_statuses status_enums.

(** [order_status] is the result of [OrderStatus[order_status.upper()]], as
    above. *)
Definition update_order_status (order_id' : uuid) (order_status : option OrderStatus)
  : M (Response unit) :=
  let* order := order_crud.get_order_by_id order_id' in
  match order with
  | None => raise_http 404
  | Some order =>
      match order_status with
      | None => raise_http 422
      | Some new_status =>
          order_crud.update_order_status order new_status ;;
          ret (Status 204)
      end
  end.

Definition get_all_orders : M (list Order) := order_crud.get_all_orders.

Definition get_order (order_id' : uuid) : M (Response Order) :=
  let* order := order_crud.get_order_by_id order_id' in
  match order with
  | None => ret (Status 404)
  | Some order => ret (Body order)
  end.

Definition get_pizzas_from_order (order_id' : uuid) : M (Response (list (uuid * PizzaType))) :=
  let* order := order_crud.get_order_by_id order_id' in
  match order with
  | None => ret (Status 404)
  | Some order =>
      let* pizzas := order_crud.get_all_pizzas_of_order order in
      ret (Body pizzas)
  end.

Definition get_order_beverages (order_id' : uuid) (join : bool)
  : M (Response (list OrderBeverageQuantity)) :=
  let* order := order_crud.get_order_by_id order_id' in
  match order with
  | None => ret (Status 404)
  | Some order =>
      let* beverages := beverages_of order in
      let* beverages :=
        if join then order_crud.get_joined_beverage_quantities_by_order (order_id order)
        else ret beverages in
      ret (Body beverages)
  end.

End router.

(** ** pizza_type/router.py: the topping rows of a pizza type *)

Module pizza_type_router.

(** The redirect goes to the toppings of [topping_quantity_found.pizza_type_id],
    the pizza type the row was looked up under. *)
Definition create_pizza_type_topping (pizza_type_id' topping_id : uuid) (quantity : Z)
  : M (Response PizzaTypeToppingQuantity) :=
  let* pizza_type := pizza_type_crud.get_pizza_type_by_id pizza_type_id' in
  match pizza_type with
  | None => raise_http 404
  | Some pizza_type =>
      let* topping := gets (λ db, toppings db !! topping_id) in
      match topping with
      | None => raise_http 404
      | Some _ =>
          let* topping_quantity_found :=
            pizza_type_crud.get_topping_quantity_by_id pizza_type_id' topping_id in
          match topping_quantity_found with
          | Some _ => ret (RedirectResponse pizza_type_id' 303)
          | None =>
              let* new_topping_quantity :=
                pizza_type_crud.create_topping_quantity pizza_type topping_id quantity in
              ret (Body new_topping_quantity)
          end
      end
  end.

Definition get_pizza_type_toppings (pizza_type_id' : uuid) (join : bool)
  : M (Response (list PizzaTypeToppingQuantity)) :=
  let* pizza_type := pizza_type_crud.get_pizza_type_by_id pizza_type_id' in
  match pizza_type with
  | None => raise_http 404
  | Some pizza_type =>
      let toppings := pizza_type_toppings pizza_type in
      let* toppings :=
        if join
        then pizza_type_crud.get_joined_topping_quantities_by_pizza_type
               (pizza_type_id pizza_type)
        else ret toppings in
      ret (Body toppings)
  end.

End pizza_type_router.

(** ** The specification's vocabulary *)

(** The topping rows a pizza type points at are all present. *)
Definition toppings_resolve (db : DB) (tqs : list PizzaTypeToppingQuantity) : Prop :=
  Forall (λ tq, is_Some (toppings db !! tq_topping_id tq)) tqs.

(** "every topping-quantity's topping has stock ≥ that required quantity" *)
Definition toppings_in_stock (db : DB) (tqs : list PizzaTypeToppingQuantity) : Prop :=
  Forall (λ tq, ∃ t, toppings db !! tq_topping_id tq = Some t
                      ∧ tq_quantity tq ≤ topping_stock t) tqs.

Definition Zsum (xs : list Z) : Z := foldr Z.add 0 xs.

(** [beverage.price * line.quantity]; a line whose beverage row is gone has
    no price. *)
Definition line_price (db : DB) (l : OrderBeverageQuantity) : Z :=
  match beverages db !! obq_beverage_id l with
  | Some b => beverage_price b * obq_quantity l
  | None => 0
  end.

(** The price of the pizza type a pizza refers to. *)
Definition pizza_price (db : DB) (p : Pizza) : Z :=
  match pizza_pizza_type_id p ≫= λ i, pizza_types db !! i with
  | Some t => pizza_type_price t
  | None => 0
  end.

(** [priceOf(order) = Σ(beverage.price * line.quantity for each beverage line)
    + Σ(pizzaType.price for each pizza)], written after the specification. *)
Definition priceOf_spec (order_id' : uuid) (db : DB) : Z :=
  Zsum (line_price db <$> filter (λ l, obq_order_id l = order_id') (order_beverages db))
  + Zsum (pizza_price db <$> filter (λ p, pizza_order_id p = Some order_id') (pizzas db)).

(** Primary keys: one row per order id, one line per (order, beverage). *)
Definition orders_keyed (db : DB) : Prop := NoDup (order_id <$> orders db).
Definition line_key (l : OrderBeverageQuantity) : uuid * uuid :=
  (obq_order_id l, obq_beverage_id l).
Definition lines_keyed (db : DB) : Prop := NoDup (line_key <$> order_beverages db).

(** ** Stores used as concrete inputs *)

(** A dough whose stock has fallen to -1 (the stock column is a plain
    integer), and a pizza type made of that dough alone. *)
Definition db_negative_dough : DB :=
  mkDB ∅ {[ 10%N := mkDough 100 (-1) ]} ∅ ∅
       {[ 40%N := mkPizzaType 40%N 1299 10%N [] ]} [] [] [] 1000%N.
Definition plain_pizza_type : PizzaType := mkPizzaType 40%N 1299 10%N [].

(** Two orders of one user; the second holds a pizza and a beverage line,
    the first is empty. *)
Definition db_two_orders : DB :=
  mkDB {[ 1%N ]}
       {[ 10%N := mkDough 100 1 ]}
       {[ 20%N := mkTopping 50 2 ]}
       {[ 30%N := mkBeverage 350 10 ]}
       {[ 40%N := mkPizzaType 40%N 1299 10%N [mkToppingQuantity 20%N 2] ]}
       [mkOrder 100%N 1%N TRANSMITTED; mkOrder 101%N 1%N PREPARING]
       [mkPizza 200%N (Some 101%N) (Some 40%N)]
       [mkOrderBeverageQuantity 101%N 30%N 3]
       1000%N.
Definition margherita : PizzaType :=
  mkPizzaType 40%N 1299 10%N [mkToppingQuantity 20%N 2].

(** A template order with two pizzas of one type, when a single dough is
    left (and toppings for two pizzas). *)
Definition db_template : DB :=
  mkDB {[ 1%N ]}
       {[ 10%N := mkDough 100 1 ]}
       {[ 20%N := mkTopping 50 4 ]}
       {[ 30%N := mkBeverage 350 10 ]}
       {[ 40%N := mkPizzaType 40%N 1299 10%N [mkToppingQuantity 20%N 2] ]}
       [mkOrder 101%N 1%N COMPLETED]
       [mkPizza 200%N (Some 101%N) (Some 40%N); mkPizza 201%N (Some 101%N) (Some 40%N)]
       []
       1000%N.

(** ** Requests, and what the order lines hold of the stock *)

Inductive request :=
| AddPizza (order_id' pizza_type_id' : uuid)
| RemovePizza (order_id' pizza_id' : uuid)
| AddBeverageLine (order_id' beverage_id : uuid) (quantity : Z)
| UpdateBeverageLine (order_id' beverage_id : uuid) (quantity : Z)
| RemoveBeverageLine (order_id' beverage_id : uuid)
| DeleteOrder (order_id' : uuid)
| CopyOrder (user_id template_id : uuid).

Definition handle (r : request) : M unit :=
  match r with
  | AddPizza o t => router.add_pizza_to_order o t ;; ret tt
  | RemovePizza o p => router.delete_pizza_from_order o p ;; ret tt
  | AddBeverageLine o b q => router.create_order_beverage o b q ;; ret tt
  | UpdateBeverageLine o b q => router.update_beverage_of_order o b q ;; ret tt
  | RemoveBeverageLine o b => router.delete_beverage_from_order o b ;; ret tt
  | DeleteOrder o => router.delete_order o ;; ret tt
  | CopyOrder u t => router.create_order u (Some t) ;; ret tt
  end.

(** One request served alone: whatever the answer (a body, a status, a
    raised [HTTPException]), the store it leaves is the next one. *)
Definition serve (r : request) (db : DB) : option DB :=
  snd <$> handle r db.

Fixpoint serve_all (rs : list request) (db : DB) : option DB :=
  match rs with
  | [] => Some db
  | r :: rs' => serve r db ≫= serve_all rs'
  end.

(** What one pizza of type [t] takes from dough [i] and from topping [i]. *)
Definition dough_needed (t : PizzaType) (i : uuid) : Z :=
  if bool_decide (pizza_type_dough_id t = i) then 1 else 0.

Definition topping_needed (t : PizzaType) (i : uuid) : Z :=
  Zsum ((λ tq, if bool_decide (tq_topping_id tq = i) then tq_quantity tq else 0)
          <$> pizza_type_toppings t).

(** What a pizza row holds, through the type it refers to. *)
Definition pizza_holds (db : DB) (needed : PizzaType → Z) (p : Pizza) : Z :=
  match pizza_pizza_type_id p ≫= λ t, pizza_types db !! t with
  | Some t => needed t
  | None => 0
  end.

(** What the pizzas and beverage lines stored in [db] have taken from a
    dough, a topping, a beverage. *)
Definition dough_held (db : DB) (i : uuid) : Z :=
  Zsum (pizza_holds db (λ t, dough_needed t i) <$> pizzas db).

Definition topping_held (db : DB) (i : uuid) : Z :=
  Zsum (pizza_holds db (λ t, topping_needed t i) <$> pizzas db).

Definition beverage_held (db : DB) (i : uuid) : Z :=
  Zsum ((λ l, if bool_decide (obq_beverage_id l = i) then obq_quantity l else 0)
          <$> order_beverages db).

(** Stock on the shelf plus stock held by order lines.  "Decremented exactly
    once and not yet restored" for every line, and restored exactly once
    when a line goes, says that no request changes these sums. *)
Definition dough_balance (db : DB) (i : uuid) : option Z :=
  (λ s, s + dough_held db i) <$> dough_stock_of db i.
Definition topping_balance (db : DB) (i : uuid) : option Z :=
  (λ s, s + topping_held db i) <$> topping_stock_of db i.
Definition beverage_balance (db : DB) (i : uuid) : option Z :=
  (λ s, s + beverage_held db i) <$> beverage_stock_of db i.

(** No request changed what shelf and lines hold together. *)
Definition balanced (db db' : DB) : Prop :=
  ∀ i, dough_balance db' i = dough_balance db i
       ∧ topping_balance db' i = topping_balance db i
       ∧ beverage_balance db' i = beverage_balance db i.

(** The constraints the relational store and the data model put on a store:
    primary keys, references that resolve, identifiers handed out so far
    lying below the next one, quantities of at least 1 and beverage stock of
    at least 0. *)
Record store_ok (db : DB) : Prop := mk_store_ok {
  ok_pizza_ids : NoDup (pizza_id <$> pizzas db);
  ok_pizza_fresh : ∀ p, p ∈ pizzas db → (pizza_id p < next_uuid db)%N;
  ok_pizza_types : ∀ p, p ∈ pizzas db →
    is_Some (pizza_pizza_type_id p ≫= λ t, pizza_types db !! t);
  ok_type_ids : ∀ k t, pizza_types db !! k = Some t → pizza_type_id t = k;
  ok_type_rows : ∀ k t, pizza_types db !! k = Some t →
    is_Some (doughs db !! pizza_type_dough_id t)
    ∧ toppings_resolve db (pizza_type_toppings t);
  ok_order_fresh : ∀ o, o ∈ orders db → (order_id o < next_uuid db)%N;
  ok_pizza_orders : ∀ p o, p ∈ pizzas db → pizza_order_id p = Some o →
    (o < next_uuid db)%N;
  ok_line_orders : ∀ l, l ∈ order_beverages db → (obq_order_id l < next_uuid db)%N;
  ok_lines : lines_keyed db;
  ok_quantities : ∀ l, l ∈ order_beverages db → 1 ≤ obq_quantity l;
  ok_beverage_stock : ∀ i b, beverages db !! i = Some b → 0 ≤ beverage_stock b
}.

(** No dough and no topping is counted below zero. *)
Definition ingredient_stock_nonneg (db : DB) : Prop :=
  (∀ i d, doughs db !! i = Some d → 0 ≤ dough_stock d)
  ∧ (∀ i t, toppings db !! i = Some t → 0 ≤ topping_stock t).

(** The primary key of the pizza-type/topping association: a pizza type has
    one row per topping at most. *)
Definition topping_rows_keyed (db : DB) : Prop :=
  ∀ k t, pizza_types db !! k = Some t → NoDup (tq_topping_id <$> pizza_type_toppings t).

(** What the order endpoints leave alone: the users, the pizza types, which
    doughs, toppings and beverages exist, and their prices. *)
Definition same_catalog (db db' : DB) : Prop :=
  users db' = users db ∧ pizza_types db' = pizza_types db
  ∧ (∀ i, dough_price <$> doughs db' !! i = dough_price <$> doughs db !! i)
  ∧ (∀ i, topping_price <$> toppings db' !! i = topping_price <$> toppings db !! i)
  ∧ (∀ i, beverage_price <$> beverages db' !! i = beverage_price <$> beverages db !! i).

(** A computation that, however it ends, leaves these alone. *)
Definition keeps_catalog {A} (m : M A) : Prop :=
  ∀ db r db', m db = Some (r, db') → same_catalog db db'.

(** The requests the conservation result covers: a pizza is removed only
    through the order it belongs to, and an order copy is not answered 409. *)
Definition well_scoped (db : DB) (r : request) : Prop :=
  match r with
  | RemovePizza o p =>
      ∀ row, row ∈ pizzas db → pizza_id row = p → pizza_order_id row = Some o
  | CopyOrder u t =>
      ∀ db', router.create_order u (Some t) db ≠ Some (Raise 409, db')
  | _ => True
  end.

Inductive served : DB → list request → DB → Prop :=
| served_nil db : served db [] db
| served_cons db r db1 rs db' :
    well_scoped db r → serve r db = Some db1 → served db1 rs db' →
    served db (r :: rs) db'.

(** A sequence of requests that stays within that scope wherever its
    requests are served. *)
Fixpoint scoped (rs : list request) (db : DB) : Prop :=
  match rs with
  | [] => True
  | r :: rs' => well_scoped db r ∧ ∀ db1, serve r db = Some db1 → scoped rs' db1
  end.

(** A triple for computations in [M]: from a store in [P], a run that
    returns [a] ends in a store in [Q a] and one that raises status [c] ends
    in a store in [E c].  Nothing is said of a run that fails. *)
Definition hoare {A} (P : DB → Prop) (m : M A) (Q : A → DB → Prop)
    (E : Z → DB → Prop) : Prop :=
  ∀ db r db', P db → m db = Some (r, db') →
    match r with Return a => Q a db' | Raise c => E c db' end.

(** The rows of orders, pizzas and beverage lines are those of [db0]. *)
Definition same_rows (db0 db : DB) : Prop :=
  orders db = orders db0 ∧ pizzas db = pizzas db0
  ∧ order_beverages db = order_beverages db0.

(** The state of a copy in progress: order [n] exists, and without it, its
    pizzas and its lines the rows are those of [db0]; the identifiers of the
    pizzas lie below the next one handed out. *)
Definition copying (db0 : DB) (n : uuid) (db : DB) : Prop :=
  is_Some (find (λ o, bool_decide (order_id o = n)) (orders db))
  ∧ filter (λ o, order_id o ≠ n) (orders db) = orders db0
  ∧ filter (λ p, pizza_order_id p ≠ Some n) (pizzas db) = pizzas db0
  ∧ filter (λ l, obq_order_id l ≠ n) (order_beverages db) = order_beverages db0
  ∧ (∀ p, p ∈ pizzas db → (pizza_id p < next_uuid db)%N).

(** * Properties *)

(** ** Running the session monad *)

Ltac unfold_monad :=
  unfold bind, ret, gets, modify, raise_http, attribute_error in *.

Lemma bind_return {A B} (m : M A) (k : A → M B) db a db' :
  m db = Some (Return a, db') → bind m k db = k a db'.
Proof. intros H. unfold bind. by rewrite H. Qed.

Lemma bind_raise {A B} (m : M A) (k : A → M B) db c db' :
  m db = Some (Raise c, db') → bind m k db = Some (Raise c, db').
Proof. intros H. unfold bind. by rewrite H. Qed.

(** Two stores with the same tables are the same store. *)
Lemma store_eq db1 db2 :
  users db1 = users db2 → doughs db1 = doughs db2 → toppings db1 = toppings db2 →
  beverages db1 = beverages db2 → pizza_types db1 = pizza_types db2 →
  orders db1 = orders db2 → pizzas db1 = pizzas db2 →
  order_beverages db1 = order_beverages db2 → next_uuid db1 = next_uuid db2 →
  db1 = db2.
Proof. destruct db1, db2. cbn. by intros -> -> -> -> -> -> -> -> ->. Qed.

Ltac store_fields :=
  apply store_eq;
  cbn [users doughs toppings beverages pizza_types orders pizzas order_beverages
       next_uuid set_doughs set_toppings set_beverages set_orders set_pizzas
       set_order_beverages set_next_uuid];
  try reflexivity.

(** ** The stock ledger for ingredients *)

Lemma toppings_are_available_run db tqs :
  toppings_resolve db tqs →
  ∃ b, toppings_are_available tqs db = Some (Return b, db)
       ∧ (b = true ↔ toppings_in_stock db tqs).
Proof.
  unfold toppings_resolve, toppings_in_stock.
  induction tqs as [|tq rest IH]; intros Hres.
  - exists true. split; [done|]. split; [constructor | done].
  - apply Forall_cons in Hres as [[t Ht] Hrest].
    destruct (IH Hrest) as (b & Hrun & Hb).
    simpl. unfold topping_of. unfold_monad. rewrite Ht.
    destruct (Z.ltb_spec (topping_stock t) (tq_quantity tq)) as [Hlt|Hge].
    + exists false. split; [done|]. split; [done|].
      intros Hall. apply Forall_cons in Hall as [(t' & Ht' & Hle) _].
      rewrite Ht in Ht'. injection Ht' as <-. lia.
    + exists b. split; [exact Hrun|]. rewrite Hb. split.
      * intros Hall. constructor; [by exists t | done].
      * intros Hall. by apply Forall_cons in Hall as [_ ?].
Qed.

(** What the dough test of the source decides, whatever the sign of the
    stock: the stock is not zero. *)
Lemma ingredients_are_available_nonzero pizza_type db d :
  doughs db !! pizza_type_dough_id pizza_type = Some d →
  toppings_resolve db (pizza_type_toppings pizza_type) →
  ∃ b, ingredients_are_available pizza_type db = Some (Return b, db)
       ∧ (b = true ↔ dough_stock d ≠ 0
                      ∧ toppings_in_stock db (pizza_type_toppings pizza_type)).
Proof.
  intros Hd Hres.
  destruct (toppings_are_available_run db _ Hres) as (b & Hrun & Hb).
  unfold ingredients_are_available, dough_of. unfold_monad. rewrite Hd.
  destruct (Z.eqb_spec (dough_stock d) 0) as [Hz|Hnz].
  - exists false. split; [done|]. split; [done | by intros [? _]].
  - exists b. split; [exact Hrun|]. rewrite Hb. tauto.
Qed.

(** C4, as amended: for a pizza type whose dough and topping rows exist and
    whose dough stock is not negative, [ingredients_are_available] returns
    true if and only if the dough has stock > 0 and every topping-quantity's
    topping has stock at least the required quantity; the run leaves the
    store as it found it. *)
Theorem ingredients_are_available_iff pizza_type db d :
  doughs db !! pizza_type_dough_id pizza_type = Some d →
  toppings_resolve db (pizza_type_toppings pizza_type) →
  0 ≤ dough_stock d →
  ∃ b, ingredients_are_available pizza_type db = Some (Return b, db)
       ∧ (b = true ↔ 0 < dough_stock d
                      ∧ toppings_in_stock db (pizza_type_toppings pizza_type)).
Proof.
  intros Hd Hres Hnn.
  destruct (ingredients_are_available_nonzero _ _ _ Hd Hres) as (b & Hrun & Hb).
  exists b. split; [exact Hrun|]. rewrite Hb.
  split; intros [? ?]; split; (done || lia).
Qed.

(** C4, where the claim goes wrong: with a dough stock of -1 the check
    answers true although the dough has no stock > 0. *)
Lemma ingredients_are_available_negative_dough :
  doughs db_negative_dough !! pizza_type_dough_id plain_pizza_type = Some (mkDough 100 (-1))
  ∧ ingredients_are_available plain_pizza_type db_negative_dough
    = Some (Return true, db_negative_dough)
  ∧ ¬ (0 < dough_stock (mkDough 100 (-1))
       ∧ toppings_in_stock db_negative_dough (pizza_type_toppings plain_pizza_type)).
Proof.
  split; [done|]. split; [done|]. simpl. lia.
Qed.

(** ** The stock ledger for beverages *)

Lemma change_stock_of_beverage_run db i b delta :
  beverages db !! i = Some b →
  change_stock_of_beverage i delta db =
    if beverage_stock b + delta <? 0 then Some (Return false, db)
    else Some (Return true,
               set_beverages
                 <[i := mkBeverage (beverage_price b) (beverage_stock b + delta)]> db).
Proof.
  intros Hb. unfold change_stock_of_beverage. unfold_monad. rewrite Hb.
  by destruct (beverage_stock b + delta <? 0).
Qed.

Lemma change_stock_of_beverage_unknown db i delta :
  beverages db !! i = None →
  change_stock_of_beverage i delta db = Some (Return false, db).
Proof.
  intros Hb. unfold change_stock_of_beverage. unfold_monad. by rewrite Hb.
Qed.

(** The operation always returns, and a refusal leaves the store alone. *)
Lemma change_stock_of_beverage_total db i delta :
  ∃ ok db', change_stock_of_beverage i delta db = Some (Return ok, db')
            ∧ (ok = false → db' = db).
Proof.
  destruct (beverages db !! i) as [b|] eqn:Hb.
  - rewrite (change_stock_of_beverage_run _ _ _ _ Hb).
    destruct (beverage_stock b + delta <? 0); eauto.
    eexists _, _. split; [done | discriminate].
  - rewrite (change_stock_of_beverage_unknown _ _ _ Hb). eauto.
Qed.

(** C5: on a beverage whose stock is not negative, a decrement larger than
    the stock is refused and changes nothing; any other change is applied
    exactly ([stock += delta]) and reported as a success; in both cases the
    stock is not negative afterwards. *)
Theorem change_stock_of_beverage_bounded db i b delta :
  beverages db !! i = Some b →
  0 ≤ beverage_stock b →
  (delta < 0 → Z.abs delta > beverage_stock b →
     change_stock_of_beverage i delta db = Some (Return false, db))
  ∧ (Z.abs delta ≤ beverage_stock b ∨ 0 ≤ delta →
     ∃ db', change_stock_of_beverage i delta db = Some (Return true, db')
            ∧ beverage_stock_of db' i = Some (beverage_stock b + delta)
            ∧ (∀ j, j ≠ i → beverages db' !! j = beverages db !! j)
            ∧ doughs db' = doughs db ∧ toppings db' = toppings db
            ∧ orders db' = orders db ∧ pizzas db' = pizzas db
            ∧ order_beverages db' = order_beverages db)
  ∧ (∀ r db', change_stock_of_beverage i delta db = Some (r, db') →
     ∃ s, beverage_stock_of db' i = Some s ∧ 0 ≤ s).
Proof.
  intros Hb Hnn. rewrite (change_stock_of_beverage_run _ _ _ _ Hb).
  destruct (Z.ltb_spec (beverage_stock b + delta) 0) as [Hlt|Hge].
  - split; [done|]. split; [lia|].
    intros r db' [= <- <-]. exists (beverage_stock b).
    unfold beverage_stock_of. by rewrite Hb.
  - split; [lia|]. split.
    + intros _. eexists. split; [done|].
      unfold beverage_stock_of. simpl. rewrite lookup_insert_eq. split; [done|].
      split; [|done]. intros j Hj. by rewrite lookup_insert_ne.
    + intros r db' [= <- <-]. exists (beverage_stock b + delta).
      unfold beverage_stock_of. simpl. by rewrite lookup_insert_eq.
Qed.

(** ** Beverage lines of an order *)

Lemma is_line_spec order_id' beverage_id l :
  order_crud.is_line order_id' beverage_id l = true
  ↔ obq_order_id l = order_id' ∧ obq_beverage_id l = beverage_id.
Proof.
  unfold order_crud.is_line. rewrite andb_true_iff, !bool_decide_eq_true. tauto.
Qed.

Lemma find_line_Some order_id' beverage_id ls l :
  find (order_crud.is_line order_id' beverage_id) ls = Some l →
  l ∈ ls ∧ obq_order_id l = order_id' ∧ obq_beverage_id l = beverage_id.
Proof.
  intros H. apply find_some in H as [Hin Hl].
  split; [by apply list_elem_of_In | by apply is_line_spec].
Qed.

Lemma find_line_None order_id' beverage_id ls :
  find (order_crud.is_line order_id' beverage_id) ls = None →
  (order_id', beverage_id) ∉ line_key <$> ls.
Proof.
  intros H Hin. apply list_elem_of_fmap in Hin as (l & Hkey & Hl).
  apply list_elem_of_In in Hl.
  pose proof (find_none _ _ H l Hl) as Hno.
  unfold line_key in Hkey. injection Hkey as -> ->.
  assert (order_crud.is_line (obq_order_id l) (obq_beverage_id l) l = true)
    by by apply is_line_spec.
  congruence.
Qed.

Lemma find_order_Some order_id' os o :
  find (λ o, bool_decide (order_id o = order_id')) os = Some o →
  o ∈ os ∧ order_id o = order_id'.
Proof.
  intros H. apply find_some in H as [Hin Ho].
  split; [by apply list_elem_of_In | by apply bool_decide_eq_true in Ho].
Qed.

(** Rewriting the quantity of the first line of a pair: that line is found
    again with the new quantity. *)
Lemma find_set_quantity_of_first order_id' beverage_id q ls l :
  find (order_crud.is_line order_id' beverage_id) ls = Some l →
  find (order_crud.is_line order_id' beverage_id)
       (order_crud.set_quantity_of_first order_id' beverage_id q ls)
  = Some (mkOrderBeverageQuantity (obq_order_id l) (obq_beverage_id l) q).
Proof.
  induction ls as [|x ls IH]; [done|]. simpl.
  destruct (order_crud.is_line order_id' beverage_id x) eqn:Hx.
  - intros [= ->]. simpl.
    assert (order_crud.is_line order_id' beverage_id
              (mkOrderBeverageQuantity (obq_order_id l) (obq_beverage_id l) q) = true) as ->;
      [|done].
    apply is_line_spec in Hx. by apply is_line_spec.
  - intros H. simpl. rewrite Hx. by apply IH.
Qed.

(** ... and the keys of the table are what they were. *)
Lemma set_quantity_of_first_keys order_id' beverage_id q ls :
  line_key <$> order_crud.set_quantity_of_first order_id' beverage_id q ls = line_key <$> ls.
Proof.
  induction ls as [|x ls IH]; [done|]. cbn [order_crud.set_quantity_of_first].
  destruct (order_crud.is_line order_id' beverage_id x); [done|].
  rewrite !fmap_cons. by rewrite IH.
Qed.

(** C6: on an existing order with a line of [old_quantity] for an existing
    beverage, and for a new quantity of at least 1, the handler calls
    [change_stock_of_beverage] with [old_quantity - new_quantity]; if that
    is refused it raises 409 and the store, hence the line, is unchanged;
    otherwise the line carries the new quantity and the beverage's stock has
    moved by exactly that difference, no other stock being touched. *)
Theorem update_beverage_of_order_semantics db order_id' beverage_id o l b new_quantity :
  find (λ o, bool_decide (order_id o = order_id')) (orders db) = Some o →
  find (order_crud.is_line order_id' beverage_id) (order_beverages db) = Some l →
  beverages db !! beverage_id = Some b →
  1 ≤ new_quantity →
  ∃ ok db1,
    change_stock_of_beverage beverage_id (obq_quantity l - new_quantity) db
      = Some (Return ok, db1)
    ∧ (ok = false ↔ beverage_stock b + (obq_quantity l - new_quantity) < 0)
    ∧ (ok = false →
         router.update_beverage_of_order order_id' beverage_id new_quantity db
           = Some (Raise 409, db))
    ∧ (ok = true →
         ∃ db',
           router.update_beverage_of_order order_id' beverage_id new_quantity db
             = Some (Return (Body (Some (mkOrderBeverageQuantity order_id' beverage_id
                                                                 new_quantity))), db')
           ∧ find (order_crud.is_line order_id' beverage_id) (order_beverages db')
             = Some (mkOrderBeverageQuantity order_id' beverage_id new_quantity)
           ∧ order_beverages db'
             = order_crud.set_quantity_of_first order_id' beverage_id new_quantity (order_beverages db)
           ∧ beverage_stock_of db' beverage_id
             = Some (beverage_stock b + (obq_quantity l - new_quantity))
           ∧ (∀ j, j ≠ beverage_id → beverages db' !! j = beverages db !! j)
           ∧ doughs db' = doughs db ∧ toppings db' = toppings db).
Proof.
  intros Ho Hl Hb Hq.
  destruct (find_line_Some _ _ _ _ Hl) as (_ & Hlo & Hlb).
  pose proof (change_stock_of_beverage_run db beverage_id b
                (obq_quantity l - new_quantity) Hb) as Hrun.
  assert ((new_quantity <=? 0) = false) as Hpos by lia.
  unfold router.update_beverage_of_order, order_crud.get_order_by_id,
    order_crud.get_beverage_quantity_by_id.
  destruct (Z.ltb_spec (beverage_stock b + (obq_quantity l - new_quantity)) 0) as [Hlt|Hge].
  - exists false, db. split; [exact Hrun|]. split; [done|]. split; [|done].
    intros _. unfold bind at 1. unfold gets at 1. rewrite Ho, Hpos.
    unfold bind at 1. unfold gets at 1. rewrite Hl.
    by rewrite (bind_return _ _ _ _ _ Hrun).
  - eexists true, _. split; [exact Hrun|]. split; [split; [done | lia]|].
    split; [done|]. intros _. eexists. split.
    + unfold bind at 1. unfold gets at 1. rewrite Ho, Hpos.
      unfold bind at 1. unfold gets at 1. rewrite Hl.
      rewrite (bind_return _ _ _ _ _ Hrun). simpl.
      unfold order_crud.update_beverage_quantity_of_order,
        order_crud.get_beverage_quantity_by_id.
      unfold_monad. simpl. rewrite Hl. simpl. by rewrite Hlo, Hlb.
    + simpl. split.
      { rewrite (find_set_quantity_of_first _ _ _ _ _ Hl). by rewrite Hlo, Hlb. }
      split; [done|]. unfold beverage_stock_of. simpl.
      rewrite lookup_insert_eq. split; [done|]. split; [|done].
      intros j Hj. by rewrite lookup_insert_ne.
Qed.

(** Whatever its arguments, [create_order_beverage] keeps the lines keyed
    by (order, beverage): it appends a line only after looking for one of
    the same pair and finding none. *)
Lemma create_order_beverage_keeps_keys db order_id' beverage_id quantity r db' :
  lines_keyed db →
  router.create_order_beverage order_id' beverage_id quantity db = Some (r, db') →
  lines_keyed db'.
Proof.
  unfold lines_keyed. intros Hkeys.
  unfold router.create_order_beverage, order_crud.get_order_by_id,
    order_crud.get_beverage_quantity_by_id, beverage_is_available.
  unfold bind at 1. unfold gets at 1.
  destruct (find _ (orders db)) as [o|] eqn:Ho; [|by intros [= <- <-]].
  destruct (find_order_Some _ _ _ Ho) as [_ Hoid].
  destruct (quantity <=? 0); [by intros [= <- <-]|].
  unfold bind at 1. unfold gets at 1.
  destruct (beverages db !! beverage_id) as [b|] eqn:Hb; [|by intros [= <- <-]].
  unfold bind at 1. unfold gets at 1.
  destruct (find _ (order_beverages db)) as [l|] eqn:Hl; [by intros [= <- <-]|].
  unfold bind at 1. unfold bind at 1. unfold gets at 1. rewrite Hb. unfold ret at 1.
  destruct (quantity <=? beverage_stock b); simpl; [|by intros [= <- <-]].
  unfold bind at 1.
  rewrite (change_stock_of_beverage_run _ _ _ _ Hb).
  destruct (beverage_stock b + - quantity <? 0);
    unfold order_crud.create_beverage_quantity; unfold_monad;
    intros [= <- <-]; simpl; rewrite fmap_app; apply NoDup_app;
    (split; [done|]); (split; [|apply NoDup_singleton]);
    intros k Hk Hk'; apply list_elem_of_singleton in Hk'; subst k;
    apply (find_line_None _ _ _ Hl); unfold line_key in Hk; simpl in Hk;
    by rewrite Hoid in Hk.
Qed.

(** C8: adding a beverage line, with a quantity of at least 1 and for an
    existing beverage, to an order that already has a line for that
    beverage answers with a 303 redirect to the order's beverages and leaves
    the whole store (lines and stock) as it was; and no call of the handler
    ever stores a second line for a pair that has one. *)
Theorem create_order_beverage_duplicate_redirects db order_id' beverage_id quantity o b l :
  find (λ o, bool_decide (order_id o = order_id')) (orders db) = Some o →
  1 ≤ quantity →
  beverages db !! beverage_id = Some b →
  find (order_crud.is_line order_id' beverage_id) (order_beverages db) = Some l →
  router.create_order_beverage order_id' beverage_id quantity db
    = Some (Return (RedirectResponse order_id' 303), db)
  ∧ (∀ order_id'' beverage_id' quantity' r db',
       lines_keyed db →
       router.create_order_beverage order_id'' beverage_id' quantity' db = Some (r, db') →
       lines_keyed db').
Proof.
  intros Ho Hq Hb Hl. split.
  - destruct (find_line_Some _ _ _ _ Hl) as (_ & Hlo & _).
    assert ((quantity <=? 0) = false) as Hpos by lia.
    unfold router.create_order_beverage, order_crud.get_order_by_id,
      order_crud.get_beverage_quantity_by_id.
    unfold_monad. by rewrite Ho, Hpos, Hb, Hl, Hlo.
  - intros ? ? ? ? ?. apply create_order_beverage_keeps_keys.
Qed.

(** ** The pricing engine *)

Lemma Zsum_nil : Zsum [] = 0.
Proof. done. Qed.

Lemma Zsum_cons x xs : Zsum (x :: xs) = x + Zsum xs.
Proof. done. Qed.

Lemma Zsum_app xs ys : Zsum (xs ++ ys) = Zsum xs + Zsum ys.
Proof.
  induction xs as [|x xs IH]; [done|].
  rewrite <- app_comm_cons, !Zsum_cons, IH. lia.
Qed.

Lemma fold_left_add_Zsum {A} (f : A → Z) (xs : list A) (acc : Z) :
  fold_left (λ acc x, acc + f x) xs acc = acc + Zsum (f <$> xs).
Proof.
  revert acc. induction xs as [|x xs IH]; intros acc.
  - rewrite fmap_nil, Zsum_nil. cbn [fold_left]. lia.
  - rewrite fmap_cons, Zsum_cons. cbn [fold_left]. rewrite IH. lia.
Qed.

(** An inner join on an optional target sums like a default of zero. *)
Lemma Zsum_bind_option_list {A B} (g : A → option B) (h : B → Z) (xs : list A) :
  Zsum (xs ≫= λ x, option_list (g x) ≫= λ y, [h y])
  = Zsum ((λ x, match g x with Some y => h y | None => 0 end) <$> xs).
Proof.
  induction xs as [|x xs IH]; [done|].
  rewrite bind_cons, fmap_cons, Zsum_app, Zsum_cons, IH.
  destruct (g x); f_equal; cbn; lia.
Qed.

(** [SUM] followed by the truthiness test adds the plain sum. *)
Lemma add_if_truthy_func_sum total rows :
  order_crud.add_if_truthy total (order_crud.func_sum rows) = total + Zsum rows.
Proof.
  destruct rows as [|r rows]; [cbn; lia|].
  unfold order_crud.func_sum.
  pose proof (fold_left_add_Zsum (λ x, x) (r :: rows) 0) as Hsum.
  rewrite list_fmap_id in Hsum.
  change (fold_left (λ acc x : Z, acc + x) (r :: rows) 0)
    with (fold_left Z.add (r :: rows) 0) in Hsum.
  rewrite Hsum, Z.add_0_l. unfold order_crud.add_if_truthy, order_crud.truthy.
  destruct (Z.eqb_spec (Zsum (r :: rows)) 0) as [Hz|Hnz]; cbn [negb]; lia.
Qed.

(** With order ids as primary key, selecting by id yields the one row. *)
Lemma filter_order_id_unique os o :
  NoDup (order_id <$> os) → o ∈ os →
  filter (λ o', order_id o' = order_id o) os = [o].
Proof.
  induction os as [|x os IH]; intros Hnd Hin; [by apply elem_of_nil in Hin|].
  rewrite fmap_cons in Hnd. apply NoDup_cons in Hnd as [Hx Hnd].
  apply elem_of_cons in Hin as [->|Hin].
  - rewrite filter_cons_True by done. f_equal.
    destruct (filter _ os) as [|y ys] eqn:Hf; [done|].
    assert (y ∈ filter (λ o', order_id o' = order_id x) os) as Hy
      by (rewrite Hf; apply elem_of_cons; by left).
    apply list_elem_of_filter in Hy as [Hid Hy].
    exfalso. apply Hx. rewrite <- Hid. by apply list_elem_of_fmap_2.
  - rewrite filter_cons_False; [by apply IH|].
    intros Hid. apply Hx. rewrite Hid. by apply list_elem_of_fmap_2.
Qed.

Lemma beverage_price_rows_sum db o :
  orders_keyed db → o ∈ orders db →
  fold_left (λ price_beverage row, price_beverage + row.1 * row.2)
            (order_crud.beverage_price_rows (order_id o) db) 0
  = Zsum (line_price db <$>
            filter (λ l, obq_order_id l = order_id o) (order_beverages db)).
Proof.
  intros Hkeys Ho. unfold order_crud.beverage_price_rows.
  rewrite (filter_order_id_unique _ _ Hkeys Ho), bind_singleton.
  rewrite fold_left_add_Zsum, Z.add_0_l.
  induction (filter _ (order_beverages db)) as [|l ls IH]; [done|].
  rewrite bind_cons, !fmap_app, Zsum_app, IH, fmap_cons, Zsum_cons.
  f_equal. unfold line_price.
  destruct (beverages db !! obq_beverage_id l); cbn; lia.
Qed.

Lemma pizza_price_rows_sum db o :
  orders_keyed db → o ∈ orders db →
  Zsum (order_crud.pizza_price_rows (order_id o) db)
  = Zsum (pizza_price db <$>
            filter (λ p, pizza_order_id p = Some (order_id o)) (pizzas db)).
Proof.
  intros Hkeys Ho. unfold order_crud.pizza_price_rows.
  rewrite (filter_order_id_unique _ _ Hkeys Ho), bind_singleton.
  apply (Zsum_bind_option_list
           (λ p, pizza_pizza_type_id p ≫= λ i, pizza_types db !! i) pizza_type_price).
Qed.

Lemma get_price_of_order_run db order_id' :
  order_crud.get_price_of_order order_id' db
  = Some (Return
            (fold_left (λ price_beverage row, price_beverage + row.1 * row.2)
                       (order_crud.beverage_price_rows order_id' db) 0
             + Zsum (order_crud.pizza_price_rows order_id' db)), db).
Proof.
  unfold order_crud.get_price_of_order. unfold_monad.
  by rewrite add_if_truthy_func_sum.
Qed.

(** C7: for an existing order (order ids being the primary key), the price
    computed is the sum of [beverage.price * line.quantity] over the order's
    beverage lines plus the sum of the referenced pizza types' prices over
    its pizzas; the computation returns the store untouched (no stock count,
    no order state changes), so that a second call right after the first
    yields the same value. *)
Theorem get_price_of_order_formula db o :
  orders_keyed db → o ∈ orders db →
  order_crud.get_price_of_order (order_id o) db
    = Some (Return (priceOf_spec (order_id o) db), db)
  ∧ router.get_price_of_order (order_id o) db
    = Some (Return (Body (priceOf_spec (order_id o) db)), db)
  ∧ (let* first := order_crud.get_price_of_order (order_id o) in
     let* second := order_crud.get_price_of_order (order_id o) in
     ret (first, second)) db
    = Some (Return (priceOf_spec (order_id o) db, priceOf_spec (order_id o) db), db).
Proof.
  intros Hkeys Ho.
  assert (order_crud.get_price_of_order (order_id o) db
          = Some (Return (priceOf_spec (order_id o) db), db)) as Hrun.
  { rewrite get_price_of_order_run. unfold priceOf_spec.
    by rewrite (beverage_price_rows_sum _ _ Hkeys Ho), (pizza_price_rows_sum _ _ Hkeys Ho). }
  split; [exact Hrun|]. split.
  - unfold router.get_price_of_order, order_crud.get_order_by_id.
    unfold bind at 1. unfold gets at 1.
    destruct (find _ (orders db)) as [o'|] eqn:Hfind.
    + by rewrite (bind_return _ _ _ _ _ Hrun).
    + exfalso. apply list_elem_of_In in Ho.
      pose proof (find_none _ _ Hfind o Ho) as Hno. simpl in Hno.
      by rewrite bool_decide_eq_true_2 in Hno.
  - rewrite (bind_return _ _ _ _ _ Hrun). by rewrite (bind_return _ _ _ _ _ Hrun).
Qed.

Lemma bind_all_nil {A B} (f : A → list B) (xs : list A) :
  Forall (λ x, f x = []) xs → xs ≫= f = [].
Proof.
  induction 1 as [|x xs Hx _ IH]; [done|]. by rewrite bind_cons, Hx, IH.
Qed.

Lemma pizza_price_rows_empty db order_id' :
  filter (λ p, pizza_order_id p = Some order_id') (pizzas db) = [] →
  order_crud.pizza_price_rows order_id' db = [].
Proof.
  intros Hps. unfold order_crud.pizza_price_rows.
  apply bind_all_nil, Forall_forall. intros o Ho.
  apply list_elem_of_filter in Ho as [Hid _]. by rewrite Hid, Hps.
Qed.

Lemma beverage_price_rows_empty db order_id' :
  filter (λ l, obq_order_id l = order_id') (order_beverages db) = [] →
  order_crud.beverage_price_rows order_id' db = [].
Proof.
  intros Hls. unfold order_crud.beverage_price_rows.
  apply bind_all_nil, Forall_forall. intros o Ho.
  apply list_elem_of_filter in Ho as [Hid _]. by rewrite Hid, Hls.
Qed.

Lemma get_order_by_id_found db o :
  o ∈ orders db →
  ∃ o', find (λ x, bool_decide (order_id x = order_id o)) (orders db) = Some o'.
Proof.
  intros Ho. destruct (find _ (orders db)) as [o'|] eqn:Hfind; [by exists o'|].
  exfalso. apply list_elem_of_In in Ho.
  pose proof (find_none _ _ Hfind o Ho) as Hno. simpl in Hno.
  by rewrite bool_decide_eq_true_2 in Hno.
Qed.

(** C10: for an existing order without pizzas and without beverage lines
    the pizza aggregate is [NULL] ([None]), and the price computed is the
    number 0, returned normally, the store being untouched. *)
Theorem get_price_of_order_empty db o :
  o ∈ orders db →
  filter (λ p, pizza_order_id p = Some (order_id o)) (pizzas db) = [] →
  filter (λ l, obq_order_id l = order_id o) (order_beverages db) = [] →
  order_crud.func_sum (order_crud.pizza_price_rows (order_id o) db) = None
  ∧ order_crud.get_price_of_order (order_id o) db = Some (Return 0, db)
  ∧ router.get_price_of_order (order_id o) db = Some (Return (Body 0), db).
Proof.
  intros Ho Hps Hls.
  pose proof (pizza_price_rows_empty _ _ Hps) as Hprows.
  pose proof (beverage_price_rows_empty _ _ Hls) as Hbrows.
  assert (order_crud.get_price_of_order (order_id o) db = Some (Return 0, db)) as Hrun.
  { unfold order_crud.get_price_of_order. unfold_monad. by rewrite Hprows, Hbrows. }
  split; [by rewrite Hprows|]. split; [exact Hrun|].
  destruct (get_order_by_id_found _ _ Ho) as [o' Hfind].
  unfold router.get_price_of_order, order_crud.get_order_by_id.
  unfold bind at 1. unfold gets at 1. rewrite Hfind.
  by rewrite (bind_return _ _ _ _ _ Hrun).
Qed.

(** ** Filtering orders by status *)

(** C9: without statuses ([None] or the empty list) every order is returned;
    otherwise the result is the orders table filtered by membership of the
    status in the given list, so an order is in the result exactly when it
    is stored and its status is one of those given; the store is
    untouched. *)
Theorem get_orders_by_statuses_filter (statuses : option (list OrderStatus)) db :
  ∃ entities,
    order_crud.get_orders_by_statuses statuses db = Some (Return entities, db)
    ∧ match statuses with
      | None | Some [] => entities = orders db
      | Some given =>
          entities = filter (λ o, order_status o ∈ given) (orders db)
          ∧ ∀ o, o ∈ entities ↔ o ∈ orders db ∧ order_status o ∈ given
      end.
Proof.
  destruct statuses as [[|s given]|]; eexists; (split; [reflexivity|]);
    [reflexivity| |reflexivity].
  split; [reflexivity|]. intros o. rewrite list_elem_of_filter. tauto.
Qed.

(** ** Moving ingredient stock *)

Lemma add_dough_stock_run db i d delta :
  doughs db !! i = Some d →
  add_dough_stock i delta db
  = Some (Return tt,
          set_doughs <[i := mkDough (dough_price d) (dough_stock d + delta)]> db).
Proof. intros Hd. unfold add_dough_stock. unfold_monad. by rewrite Hd. Qed.

Lemma add_topping_stock_run db i t delta :
  toppings db !! i = Some t →
  add_topping_stock i delta db
  = Some (Return tt,
          set_toppings <[i := mkTopping (topping_price t) (topping_stock t + delta)]> db).
Proof. intros Ht. unfold add_topping_stock. unfold_monad. by rewrite Ht. Qed.

(** The topping loop of [reduce_stock_of_ingredients] and of
    [increase_stock_of_ingredients]: every row is visited once, and topping
    [i] moves by the sum of the amounts of the rows that name it. *)
Lemma for_each_add_topping_stock (amount : PizzaTypeToppingQuantity → Z) tqs db :
  toppings_resolve db tqs →
  ∃ T, for_each tqs (λ tq, add_topping_stock (tq_topping_id tq) (amount tq)) db
       = Some (Return tt, set_toppings (λ _, T) db)
     ∧ ∀ i, topping_stock <$> T !! i
            = (λ s, s + Zsum ((λ tq, if bool_decide (tq_topping_id tq = i)
                                      then amount tq else 0) <$> tqs))
              <$> (topping_stock <$> toppings db !! i).
Proof.
  unfold toppings_resolve. revert db.
  induction tqs as [|tq rest IH]; intros db Hres.
  - exists (toppings db). split; [by destruct db|].
    intros i. rewrite fmap_nil, Zsum_nil.
    destruct (toppings db !! i); simpl; f_equal; lia.
  - apply Forall_cons in Hres as [[t Ht] Hrest].
    pose proof (add_topping_stock_run db _ t (amount tq) Ht) as Hstep.
    destruct (IH (set_toppings
                    <[tq_topping_id tq :=
                        mkTopping (topping_price t) (topping_stock t + amount tq)]> db))
      as (T & Hrun & HT).
    { eapply Forall_impl; [exact Hrest|]. intros tq' Htq'. simpl.
      apply lookup_insert_is_Some'. by right. }
    exists T. split.
    + cbn [for_each]. rewrite (bind_return _ _ _ _ _ Hstep). by rewrite Hrun.
    + intros i. rewrite HT, fmap_cons, Zsum_cons. simpl.
      destruct (decide (tq_topping_id tq = i)) as [<-|Hne].
      * rewrite lookup_insert_eq, Ht, bool_decide_eq_true_2 by done.
        simpl. f_equal. lia.
      * rewrite lookup_insert_ne, bool_decide_eq_false_2 by done.
        destruct (toppings db !! i); simpl; f_equal; lia.
Qed.

Lemma Zsum_opp_amount (i : uuid) (tqs : list PizzaTypeToppingQuantity) :
  Zsum ((λ tq, if bool_decide (tq_topping_id tq = i) then - tq_quantity tq else 0) <$> tqs)
  = - Zsum ((λ tq, if bool_decide (tq_topping_id tq = i) then tq_quantity tq else 0)
              <$> tqs).
Proof.
  induction tqs as [|tq rest IH]; [done|].
  rewrite !fmap_cons, !Zsum_cons, IH. destruct (bool_decide _); lia.
Qed.

(** [reduce_stock_of_ingredients] on a pizza type whose rows exist: it
    returns, the dough loses 1, every topping loses what the type needs of
    it, and nothing else in the store moves. *)
Lemma reduce_stock_of_ingredients_run pizza_type db :
  is_Some (doughs db !! pizza_type_dough_id pizza_type) →
  toppings_resolve db (pizza_type_toppings pizza_type) →
  ∃ D T, reduce_stock_of_ingredients pizza_type db
         = Some (Return tt, set_toppings (λ _, T) (set_doughs (λ _, D) db))
       ∧ (∀ i, dough_stock <$> D !! i
               = (λ s, s - dough_needed pizza_type i) <$> dough_stock_of db i)
       ∧ (∀ i, topping_stock <$> T !! i
               = (λ s, s - topping_needed pizza_type i) <$> topping_stock_of db i).
Proof.
  intros [d Hd] Hres.
  pose proof (add_dough_stock_run db _ d (-1) Hd) as Hstep.
  destruct (for_each_add_topping_stock (λ tq, - tq_quantity tq)
              (pizza_type_toppings pizza_type)
              (set_doughs <[pizza_type_dough_id pizza_type :=
                              mkDough (dough_price d) (dough_stock d + -1)]> db) Hres)
    as (T & Hrun & HT).
  eexists _, T. split; [|split].
  - unfold reduce_stock_of_ingredients.
    rewrite (bind_return _ _ _ _ _ Hstep). exact Hrun.
  - intros i. unfold dough_stock_of, dough_needed.
    destruct (decide (pizza_type_dough_id pizza_type = i)) as [<-|Hne].
    + rewrite lookup_insert_eq, Hd, bool_decide_eq_true_2 by done. simpl; f_equal; lia.
    + rewrite lookup_insert_ne, bool_decide_eq_false_2 by done.
      destruct (doughs db !! i); simpl; f_equal; lia.
  - intros i. rewrite HT, Zsum_opp_amount. unfold topping_stock_of, topping_needed. simpl.
    destruct (toppings db !! i); simpl; f_equal; lia.
Qed.

(** [increase_stock_of_ingredients], likewise, gives it all back. *)
Lemma increase_stock_of_ingredients_run pizza_type db :
  is_Some (doughs db !! pizza_type_dough_id pizza_type) →
  toppings_resolve db (pizza_type_toppings pizza_type) →
  ∃ D T, increase_stock_of_ingredients pizza_type db
         = Some (Return tt, set_toppings (λ _, T) (set_doughs (λ _, D) db))
       ∧ (∀ i, dough_stock <$> D !! i
               = (λ s, s + dough_needed pizza_type i) <$> dough_stock_of db i)
       ∧ (∀ i, topping_stock <$> T !! i
               = (λ s, s + topping_needed pizza_type i) <$> topping_stock_of db i).
Proof.
  intros [d Hd] Hres.
  pose proof (add_dough_stock_run db _ d 1 Hd) as Hstep.
  destruct (for_each_add_topping_stock tq_quantity
              (pizza_type_toppings pizza_type)
              (set_doughs <[pizza_type_dough_id pizza_type :=
                              mkDough (dough_price d) (dough_stock d + 1)]> db) Hres)
    as (T & Hrun & HT).
  eexists _, T. split; [|split].
  - unfold increase_stock_of_ingredients.
    rewrite (bind_return _ _ _ _ _ Hstep). exact Hrun.
  - intros i. unfold dough_stock_of, dough_needed.
    destruct (decide (pizza_type_dough_id pizza_type = i)) as [<-|Hne].
    + by rewrite lookup_insert_eq, Hd, bool_decide_eq_true_2 by done.
    + rewrite lookup_insert_ne, bool_decide_eq_false_2 by done.
      destruct (doughs db !! i); simpl; f_equal; lia.
  - intros i. rewrite HT. unfold topping_stock_of, topping_needed. simpl. done.
Qed.

(** ** Conservation: beverage lines *)

Lemma balanced_refl db : balanced db db.
Proof. by intros i. Qed.

Lemma balanced_trans db1 db2 db3 : balanced db1 db2 → balanced db2 db3 → balanced db1 db3.
Proof.
  intros H12 H23 i. destruct (H12 i) as (? & ? & ?), (H23 i) as (? & ? & ?).
  repeat split; congruence.
Qed.

(** A store that differs only in the beverage table and the lines keeps
    its dough and topping balances. *)
Lemma balanced_beverages db B ls :
  (∀ i, (λ s, s + Zsum ((λ l, if bool_decide (obq_beverage_id l = i)
                               then obq_quantity l else 0) <$> ls))
          <$> (beverage_stock <$> B !! i)
        = beverage_balance db i) →
  balanced db (set_order_beverages (λ _, ls) (set_beverages (λ _, B) db)).
Proof. intros HB i. split; [done|]. split; [done|]. apply HB. Qed.

Lemma beverage_held_app db l :
  ∀ i, Zsum ((λ l, if bool_decide (obq_beverage_id l = i) then obq_quantity l else 0)
               <$> (order_beverages db ++ [l]))
       = beverage_held db i + (if bool_decide (obq_beverage_id l = i)
                               then obq_quantity l else 0).
Proof.
  intros i. unfold beverage_held.
  rewrite fmap_app, Zsum_app, fmap_cons, fmap_nil, Zsum_cons, Zsum_nil. lia.
Qed.

(** Rewriting the first line of a pair changes what the lines hold of the
    pair's beverage by the difference of the quantities. *)
Lemma beverage_held_set_quantity order_id' beverage_id q ls l i :
  find (order_crud.is_line order_id' beverage_id) ls = Some l →
  Zsum ((λ l, if bool_decide (obq_beverage_id l = i) then obq_quantity l else 0)
          <$> order_crud.set_quantity_of_first order_id' beverage_id q ls)
  = Zsum ((λ l, if bool_decide (obq_beverage_id l = i) then obq_quantity l else 0) <$> ls)
    - (if bool_decide (beverage_id = i) then obq_quantity l - q else 0).
Proof.
  induction ls as [|x ls IH]; [done|]. cbn [find order_crud.set_quantity_of_first].
  destruct (order_crud.is_line order_id' beverage_id x) eqn:Hx.
  - intros [= ->]. apply is_line_spec in Hx as [_ Hb].
    rewrite !fmap_cons, !Zsum_cons. cbn [obq_beverage_id obq_quantity]. rewrite Hb.
    destruct (bool_decide (beverage_id = i)); lia.
  - intros Hl. rewrite !fmap_cons, !Zsum_cons, (IH Hl). lia.
Qed.

Lemma set_quantity_of_first_elem order_id' beverage_id q ls x :
  x ∈ order_crud.set_quantity_of_first order_id' beverage_id q ls →
  x ∈ ls ∨ obq_quantity x = q.
Proof.
  induction ls as [|y ls IH]; [by left|]. cbn [order_crud.set_quantity_of_first].
  destruct (order_crud.is_line order_id' beverage_id y).
  - intros [->|Hx]%elem_of_cons; [by right|]. left. by apply elem_of_cons; right.
  - intros [->|Hx]%elem_of_cons; [left; by apply elem_of_cons; left|].
    destruct (IH Hx); [left; by apply elem_of_cons; right | by right].
Qed.

(** With lines keyed by (order, beverage), deleting the lines of a pair
    takes away the one line found. *)
Lemma beverage_held_delete order_id' beverage_id ls l i :
  NoDup (line_key <$> ls) →
  find (order_crud.is_line order_id' beverage_id) ls = Some l →
  Zsum ((λ l, if bool_decide (obq_beverage_id l = i) then obq_quantity l else 0)
          <$> filter (λ x, order_crud.is_line order_id' beverage_id x = false) ls)
  = Zsum ((λ l, if bool_decide (obq_beverage_id l = i) then obq_quantity l else 0) <$> ls)
    - (if bool_decide (beverage_id = i) then obq_quantity l else 0).
Proof.
  induction ls as [|x ls IH]; [done|]. cbn [find]. rewrite fmap_cons.
  intros [Hx Hnd]%NoDup_cons.
  destruct (order_crud.is_line order_id' beverage_id x) eqn:Hline.
  - intros [= ->]. rewrite filter_cons_False by (by rewrite Hline).
    apply is_line_spec in Hline as [Ho Hb].
    rewrite fmap_cons, Zsum_cons, Hb.
    assert (filter (λ x, order_crud.is_line order_id' beverage_id x = false) ls = ls) as ->.
    { clear IH Hnd. induction ls as [|y ls IH]; [done|].
      rewrite fmap_cons in Hx. apply not_elem_of_cons in Hx as [Hy Hx].
      rewrite filter_cons_True, IH; [done..|].
      destruct (order_crud.is_line order_id' beverage_id y) eqn:Hy'; [|done].
      apply is_line_spec in Hy' as [Ho' Hb']. exfalso. apply Hy.
      unfold line_key. congruence. }
    destruct (bool_decide (beverage_id = i)); lia.
  - intros Hl. rewrite filter_cons_True by done.
    rewrite !fmap_cons, !Zsum_cons, (IH Hnd Hl). lia.
Qed.

Lemma serve_of_run {A} (m : M A) db r db' :
  m db = Some (r, db') → snd <$> (m ;; ret tt) db = Some db'.
Proof. intros H. unfold bind. rewrite H. by destruct r. Qed.

(** Only the beverage table and the lines have to be looked at when nothing
    else moved. *)
Lemma store_ok_beverages db B ls :
  store_ok db →
  NoDup (line_key <$> ls) →
  (∀ l, l ∈ ls → 1 ≤ obq_quantity l) →
  (∀ l, l ∈ ls → (obq_order_id l < next_uuid db)%N) →
  (∀ i b, B !! i = Some b → 0 ≤ beverage_stock b) →
  store_ok (set_order_beverages (λ _, ls) (set_beverages (λ _, B) db)).
Proof. intros [] Hkeys Hq Hfresh HB. by constructor. Qed.

Lemma insert_beverage_stock_nonneg (B : gmap N Beverage) i b :
  (∀ j b', B !! j = Some b' → 0 ≤ beverage_stock b') →
  0 ≤ beverage_stock b →
  ∀ j b', <[i := b]> B !! j = Some b' → 0 ≤ beverage_stock b'.
Proof.
  intros HB Hb j b'. destruct (decide (i = j)) as [<-|Hne].
  - rewrite lookup_insert_eq. by intros [= <-].
  - rewrite lookup_insert_ne by done. apply HB.
Qed.

Lemma insert_beverage_balance db i b delta held' :
  beverages db !! i = Some b →
  (∀ j, held' j = beverage_held db j - (if bool_decide (i = j) then delta else 0)) →
  ∀ j, (λ s, s + held' j)
         <$> (beverage_stock
                <$> <[i := mkBeverage (beverage_price b) (beverage_stock b + delta)]>
                      (beverages db) !! j)
       = beverage_balance db j.
Proof.
  intros Hb Hheld j. unfold beverage_balance, beverage_stock_of. rewrite Hheld.
  destruct (decide (i = j)) as [<-|Hne].
  - rewrite lookup_insert_eq, Hb, bool_decide_eq_true_2 by done. simpl. f_equal. lia.
  - rewrite lookup_insert_ne, bool_decide_eq_false_2 by done.
    destruct (beverages db !! j); simpl; f_equal; lia.
Qed.

(** The two ways [create_order_beverage] can end: without touching the
    store, or with a new line whose quantity was taken from the beverage. *)
Lemma create_order_beverage_outcome db o b q :
  (∃ r, router.create_order_beverage o b q db = Some (r, db))
  ∨ (∃ order bev,
       find (λ x, bool_decide (order_id x = o)) (orders db) = Some order
       ∧ beverages db !! b = Some bev
       ∧ find (order_crud.is_line o b) (order_beverages db) = None
       ∧ 0 < q ≤ beverage_stock bev
       ∧ router.create_order_beverage o b q db
         = Some (Return (Body (mkOrderBeverageQuantity (order_id order) b q)),
                 set_order_beverages
                   (λ ls, ls ++ [mkOrderBeverageQuantity (order_id order) b q])
                   (set_beverages
                      <[b := mkBeverage (beverage_price bev) (beverage_stock bev + - q)]>
                      db))).
Proof.
  unfold router.create_order_beverage, order_crud.get_order_by_id,
    order_crud.get_beverage_quantity_by_id, beverage_is_available,
    change_stock_of_beverage, order_crud.create_beverage_quantity.
  unfold_monad. cbn.
  destruct (find _ (orders db)) as [order|] eqn:Ho; cbn; [|by left; eexists].
  destruct (Z.leb_spec q 0) as [Hq0|Hq]; cbn; [by left; eexists|].
  destruct (beverages db !! b) as [bev|] eqn:Hb; cbn; [|by left; eexists].
  destruct (find _ (order_beverages db)) as [l|] eqn:Hl; cbn; [by left; eexists|].
  rewrite Hb. cbn.
  destruct (Z.leb_spec q (beverage_stock bev)) as [Hle|Hgt]; cbn; [|by left; eexists].
  rewrite Hb. cbn.
  assert ((beverage_stock bev + - q <? 0) = false) as -> by lia.
  right. exists order, bev. repeat split; (done || lia).
Qed.

(** Adding a beverage line: the handler always answers, and if it stores a
    line it has taken the line's quantity from the beverage. *)
Lemma serve_add_beverage_line db o b q :
  store_ok db →
  ∃ db', serve (AddBeverageLine o b q) db = Some db' ∧ store_ok db' ∧ balanced db db'.
Proof.
  intros Hok. unfold serve, handle.
  destruct (create_order_beverage_outcome db o b q)
    as [[r Hr]|(order & bev & Ho & Hb & Hl & Hq & Hr)];
    rewrite (serve_of_run _ _ _ _ Hr); eexists; (split; [reflexivity|]).
  { split; [done | apply balanced_refl]. }
  destruct (find_order_Some _ _ _ Ho) as [Hoin Hoid]. split.
  - apply store_ok_beverages; [done|..].
    + cbn. rewrite fmap_app. apply NoDup_app. split; [apply Hok|].
      split; [|apply NoDup_singleton].
      intros k Hk Hk'. apply list_elem_of_singleton in Hk'. subst k.
      apply (find_line_None _ _ _ Hl). unfold line_key in Hk. cbn in Hk.
      by rewrite Hoid in Hk.
    + cbn. intros x [Hx|Hx]%elem_of_app; [by apply Hok|].
      apply list_elem_of_singleton in Hx. subst x. cbn. lia.
    + cbn. intros x [Hx|Hx]%elem_of_app; [by apply Hok|].
      apply list_elem_of_singleton in Hx. subst x. cbn. by apply Hok.
    + apply insert_beverage_stock_nonneg; [apply Hok|]. cbn. lia.
  - apply balanced_beverages.
    apply (insert_beverage_balance db b bev (- q)); [done|].
    intros j. cbn. rewrite beverage_held_app. cbn [obq_beverage_id obq_quantity].
    destruct (bool_decide (b = j)); lia.
Qed.

Lemma missing_beverage_balance db i held' :
  beverages db !! i = None →
  (∀ j, j ≠ i → held' j = beverage_held db j) →
  ∀ j, (λ s, s + held' j) <$> (beverage_stock <$> beverages db !! j)
       = beverage_balance db j.
Proof.
  intros Hb Hheld j. unfold beverage_balance, beverage_stock_of.
  destruct (decide (j = i)) as [->|Hne]; [by rewrite Hb|].
  by rewrite Hheld.
Qed.

(** The two ways [update_beverage_of_order] can end. *)
Lemma update_beverage_of_order_outcome db o b q :
  (∃ r, router.update_beverage_of_order o b q db = Some (r, db))
  ∨ (∃ l bev,
       find (order_crud.is_line o b) (order_beverages db) = Some l
       ∧ beverages db !! b = Some bev
       ∧ 0 < q
       ∧ 0 ≤ beverage_stock bev + (obq_quantity l - q)
       ∧ ∃ r, router.update_beverage_of_order o b q db
         = Some (r,
                 set_order_beverages (order_crud.set_quantity_of_first o b q)
                   (set_beverages
                      <[b := mkBeverage (beverage_price bev)
                                        (beverage_stock bev + (obq_quantity l - q))]>
                      db))).
Proof.
  unfold router.update_beverage_of_order, order_crud.get_order_by_id,
    order_crud.update_beverage_quantity_of_order,
    order_crud.get_beverage_quantity_by_id, change_stock_of_beverage.
  unfold_monad. cbn.
  destruct (find _ (orders db)) as [order|] eqn:Ho; cbn; [|by left; eexists].
  destruct (Z.leb_spec q 0) as [Hq0|Hq]; cbn; [by left; eexists|].
  destruct (find _ (order_beverages db)) as [l|] eqn:Hl; cbn; [|by left; eexists].
  destruct (beverages db !! b) as [bev|] eqn:Hb; cbn; [|by left; eexists].
  destruct (Z.ltb_spec (beverage_stock bev + (obq_quantity l - q)) 0) as [Hlt|Hge]; cbn;
    [by left; eexists|].
  rewrite Hl. cbn. right. exists l, bev. repeat split; try done. by eexists.
Qed.

Lemma serve_update_beverage_line db o b q :
  store_ok db →
  ∃ db', serve (UpdateBeverageLine o b q) db = Some db' ∧ store_ok db' ∧ balanced db db'.
Proof.
  intros Hok. unfold serve, handle.
  destruct (update_beverage_of_order_outcome db o b q)
    as [[r Hr]|(l & bev & Hl & Hb & Hq & Hge & r & Hr)];
    rewrite (serve_of_run _ _ _ _ Hr); eexists; (split; [reflexivity|]).
  { split; [done | apply balanced_refl]. }
  split.
  - apply store_ok_beverages; [done|..]; cbn.
    + rewrite set_quantity_of_first_keys. apply Hok.
    + intros x [Hx|Hx]%set_quantity_of_first_elem; [by apply Hok | lia].
    + intros x Hx. apply (list_elem_of_fmap_2 line_key) in Hx.
      rewrite set_quantity_of_first_keys in Hx.
      apply list_elem_of_fmap in Hx as (y & Hkey & Hy).
      injection Hkey as -> _. by apply Hok.
    + apply insert_beverage_stock_nonneg; [apply Hok | done].
  - apply balanced_beverages.
    apply (insert_beverage_balance db b bev (obq_quantity l - q)); [done|].
    intros j. cbn. by rewrite (beverage_held_set_quantity _ _ _ _ _ _ Hl).
Qed.

(** [delete_beverage_from_order] under the store's constraints: either the
    store is left alone, or the one line of the pair goes and its quantity
    is back on the beverage (when the beverage row is still there). *)
Lemma delete_beverage_from_order_outcome db o b :
  store_ok db →
  (∃ r, router.delete_beverage_from_order o b db = Some (r, db))
  ∨ (∃ l,
       find (order_crud.is_line o b) (order_beverages db) = Some l
       ∧ router.delete_beverage_from_order o b db
         = Some (Return (Status 204),
                 set_order_beverages
                   (λ _, filter (λ x, order_crud.is_line o b x = false)
                                (order_beverages db))
                   (set_beverages
                      (λ _, match beverages db !! b with
                            | Some bev =>
                                <[b := mkBeverage (beverage_price bev)
                                                  (beverage_stock bev + obq_quantity l)]>
                                  (beverages db)
                            | None => beverages db
                            end) db))).
Proof.
  intros Hok.
  unfold router.delete_beverage_from_order, order_crud.get_order_by_id,
    order_crud.delete_beverage_from_order,
    order_crud.get_beverage_quantity_by_id, change_stock_of_beverage.
  unfold_monad. cbn.
  destruct (find _ (orders db)) as [order|] eqn:Ho; cbn; [|by left; eexists].
  destruct (find _ (order_beverages db)) as [l|] eqn:Hl; cbn; [|by left; eexists].
  right. exists l. split; [done|].
  destruct (find_line_Some _ _ _ _ Hl) as (Hin & _ & _).
  pose proof (ok_quantities _ Hok l Hin) as Hq.
  destruct (beverages db !! b) as [bev|] eqn:Hb; cbn.
  - pose proof (ok_beverage_stock _ Hok b bev Hb) as Hs.
    assert ((beverage_stock bev + obq_quantity l <? 0) = false) as -> by lia.
    cbn. rewrite Hl. done.
  - rewrite Hl. cbn. by destruct db.
Qed.

Lemma serve_remove_beverage_line db o b :
  store_ok db →
  ∃ db', serve (RemoveBeverageLine o b) db = Some db' ∧ store_ok db' ∧ balanced db db'.
Proof.
  intros Hok. unfold serve, handle.
  destruct (delete_beverage_from_order_outcome db o b Hok) as [[r Hr]|(l & Hl & Hr)];
    rewrite (serve_of_run _ _ _ _ Hr); eexists; (split; [reflexivity|]).
  { split; [done | apply balanced_refl]. }
  pose proof (λ j, beverage_held_delete o b (order_beverages db) l j (ok_lines _ Hok) Hl)
    as Hheld.
  destruct (find_line_Some _ _ _ _ Hl) as (Hin & _ & _).
  pose proof (ok_quantities _ Hok l Hin) as Hq.
  split.
  - apply store_ok_beverages; [done|..].
    + eapply sublist_NoDup; [apply Hok|]. apply fmap_sublist, sublist_filter.
    + intros x [_ Hx]%list_elem_of_filter. by apply Hok.
    + intros x [_ Hx]%list_elem_of_filter. by apply Hok.
    + destruct (beverages db !! b) as [bev|] eqn:Hb; [|apply Hok].
      apply insert_beverage_stock_nonneg; [apply Hok|]. cbn.
      pose proof (ok_beverage_stock _ Hok b bev Hb). lia.
  - apply balanced_beverages.
    destruct (beverages db !! b) as [bev|] eqn:Hb.
    + apply (insert_beverage_balance db b bev (obq_quantity l)); [done|].
      intros j. rewrite (Hheld j). unfold beverage_held.
      destruct (bool_decide (b = j)); lia.
    + apply (missing_beverage_balance db b); [done|].
      intros j Hj. rewrite (Hheld j). unfold beverage_held.
      rewrite bool_decide_eq_false_2 by done. lia.
Qed.

(** ** Conservation: pizzas *)

Lemma bind_gets {A B} (f : DB → A) (k : A → M B) db :
  bind (gets f) k db = k (f db) db.
Proof. done. Qed.

Lemma stock_rows_kept {V} (stock : V → Z) (m m' : gmap N V) (g : Z → Z) i :
  stock <$> m' !! i = g <$> (stock <$> m !! i) →
  is_Some (m !! i) → is_Some (m' !! i).
Proof.
  intros H [v Hv]. rewrite Hv in H. destruct (m' !! i); [by eexists | done].
Qed.

(** Only doughs, toppings, pizzas and the identifier supply have to be
    looked at when nothing else moved. *)
Lemma store_ok_pizzas db D T ps n :
  store_ok db →
  (∀ i, is_Some (doughs db !! i) → is_Some (D !! i)) →
  (∀ i, is_Some (toppings db !! i) → is_Some (T !! i)) →
  NoDup (pizza_id <$> ps) →
  (∀ p, p ∈ ps → (pizza_id p < n)%N) →
  (∀ p, p ∈ ps → is_Some (pizza_pizza_type_id p ≫= λ t, pizza_types db !! t)) →
  (next_uuid db ≤ n)%N →
  (∀ p o, p ∈ ps → pizza_order_id p = Some o → (o < n)%N) →
  store_ok (set_next_uuid (λ _, n)
              (set_pizzas (λ _, ps) (set_toppings (λ _, T) (set_doughs (λ _, D) db)))).
Proof.
  intros [] HD HT Hids Hfresh Htypes Hn Horders. constructor; try done.
  - intros k t Hk. destruct (ok_type_rows0 k t Hk) as [Hd Hts].
    split; [by apply HD|]. eapply Forall_impl; [exact Hts|]. intros tq. apply HT.
  - intros o Ho. cbn. pose proof (ok_order_fresh0 o Ho). lia.
  - intros l Hl. cbn. pose proof (ok_line_orders0 l Hl). lia.
Qed.

Lemma balanced_pizzas db D T ps n :
  (∀ i, (λ s, s + Zsum (pizza_holds db (λ t, dough_needed t i) <$> ps))
          <$> (dough_stock <$> D !! i) = dough_balance db i) →
  (∀ i, (λ s, s + Zsum (pizza_holds db (λ t, topping_needed t i) <$> ps))
          <$> (topping_stock <$> T !! i) = topping_balance db i) →
  balanced db (set_next_uuid (λ _, n)
                 (set_pizzas (λ _, ps) (set_toppings (λ _, T) (set_doughs (λ _, D) db)))).
Proof. intros HD HT i. split; [apply HD|]. split; [apply HT | done]. Qed.

(** Attaching the pizza just created to its order rewrites no older row,
    the new identifier being fresh. *)
Lemma attach_fresh_pizza (n : uuid) (p' : Pizza) (ps : list Pizza) :
  (∀ p, p ∈ ps → (pizza_id p < n)%N) →
  map (λ p, if bool_decide (pizza_id p = n) then p' else p) ps = ps.
Proof.
  induction ps as [|x ps IH]; intros Hfresh; [done|]. cbn [map].
  rewrite bool_decide_eq_false_2, IH; [done| |].
  - intros p Hp. apply Hfresh. by apply elem_of_cons; right.
  - pose proof (Hfresh x (list_elem_of_here _ _)). lia.
Qed.

(** The two ways [add_pizza_to_order] can end on a store that meets its
    constraints: without touching the store, or with a new pizza row of the
    type asked for, whose ingredients have left the shelf. *)
Lemma add_pizza_to_order_outcome db o t :
  store_ok db →
  (∃ r, router.add_pizza_to_order o t db = Some (r, db))
  ∨ (∃ order pizza_type D T,
       find (λ x, bool_decide (order_id x = o)) (orders db) = Some order
       ∧ pizza_types db !! t = Some pizza_type
       ∧ ingredients_are_available pizza_type db = Some (Return true, db)
       ∧ (∀ i, dough_stock <$> D !! i
               = (λ s, s - dough_needed pizza_type i) <$> dough_stock_of db i)
       ∧ (∀ i, topping_stock <$> T !! i
               = (λ s, s - topping_needed pizza_type i) <$> topping_stock_of db i)
       ∧ router.add_pizza_to_order o t db
         = Some (Return (Body (mkPizza (next_uuid db) (Some o) (Some t))),
                 set_next_uuid (λ _, N.succ (next_uuid db))
                   (set_pizzas
                      (λ _, pizzas db ++ [mkPizza (next_uuid db) (Some o) (Some t)])
                      (set_toppings (λ _, T) (set_doughs (λ _, D) db))))).
Proof.
  intros Hok. unfold router.add_pizza_to_order, order_crud.get_order_by_id.
  rewrite bind_gets.
  destruct (find _ (orders db)) as [order|] eqn:Ho; [|by left; eexists].
  rewrite bind_gets.
  destruct (pizza_types db !! t) as [pizza_type|] eqn:Ht; [|by left; eexists].
  destruct (ok_type_rows _ Hok _ _ Ht) as [[d Hd] Hres].
  destruct (ingredients_are_available_nonzero _ _ _ Hd Hres) as (b & Havail & _).
  rewrite (bind_return _ _ _ _ _ Havail).
  destruct b; cbn [negb]; [|by left; eexists].
  destruct (reduce_stock_of_ingredients_run pizza_type db) as (D & T & Hrun & HD & HT);
    [by eexists | done |].
  rewrite (bind_return _ _ _ _ _ Hrun).
  right. exists order, pizza_type, D, T. repeat split; try done.
  destruct (find_order_Some _ _ _ Ho) as [_ Hoid].
  unfold order_crud.add_pizza_to_order, order_crud.create_pizza, uuid4.
  unfold_monad. cbn. rewrite Hoid, (ok_type_ids _ Hok _ _ Ht).
  do 2 f_equal. store_fields.
  rewrite map_app, attach_fresh_pizza by apply Hok.
  cbn [map]. by rewrite bool_decide_eq_true_2.
Qed.

Lemma bind_bind {A B C} (m : M A) (k : A → M B) (k' : B → M C) db :
  bind (bind m k) k' db = bind m (λ x, bind (k x) k') db.
Proof. unfold bind. by destruct (m db) as [[[a|c] db']|]. Qed.

Lemma pizza_holds_of_type db needed p t pizza_type :
  pizza_pizza_type_id p = Some t →
  pizza_types db !! t = Some pizza_type →
  pizza_holds db needed p = needed pizza_type.
Proof. intros Hp Ht. unfold pizza_holds. rewrite Hp. cbn. by rewrite Ht. Qed.

(** Adding a pizza: the handler always answers, and if it stores a pizza it
    has taken the pizza type's ingredients from the shelf. *)
Lemma serve_add_pizza db o t :
  store_ok db →
  ∃ db', serve (AddPizza o t) db = Some db' ∧ store_ok db' ∧ balanced db db'.
Proof.
  intros Hok. unfold serve, handle.
  destruct (add_pizza_to_order_outcome db o t Hok)
    as [[r Hr]|(order & pizza_type & D & T & Ho & Ht & _ & HD & HT & Hr)];
    rewrite (serve_of_run _ _ _ _ Hr); eexists; (split; [reflexivity|]).
  { split; [done | apply balanced_refl]. }
  split.
  - apply store_ok_pizzas; [done|..].
    + intros i. apply (stock_rows_kept dough_stock (doughs db) D _ i (HD i)).
    + intros i. apply (stock_rows_kept topping_stock (toppings db) T _ i (HT i)).
    + rewrite fmap_app. apply NoDup_app. split; [apply Hok|].
      split; [|apply NoDup_singleton].
      intros k (p & -> & Hp)%list_elem_of_fmap Hk%list_elem_of_singleton.
      pose proof (ok_pizza_fresh _ Hok p Hp). cbn in Hk. lia.
    + intros p [Hp|Hp]%elem_of_app.
      * pose proof (ok_pizza_fresh _ Hok p Hp). lia.
      * apply list_elem_of_singleton in Hp. subst p. cbn. lia.
    + intros p [Hp|Hp]%elem_of_app; [by apply Hok|].
      apply list_elem_of_singleton in Hp. subst p. cbn. by rewrite Ht.
    + lia.
    + destruct (find_order_Some _ _ _ Ho) as [Hoin Hoid].
      intros p o' [Hp|Hp]%elem_of_app Hpo.
      * pose proof (ok_pizza_orders _ Hok p o' Hp Hpo). lia.
      * apply list_elem_of_singleton in Hp. subst p. injection Hpo as <-.
        pose proof (ok_order_fresh _ Hok order Hoin). lia.
  - apply balanced_pizzas; intros i.
    + rewrite HD, fmap_app, Zsum_app, fmap_cons, fmap_nil, Zsum_cons, Zsum_nil.
      rewrite (pizza_holds_of_type db _ _ t pizza_type) by done.
      unfold dough_balance, dough_held.
      destruct (dough_stock_of db i); simpl; f_equal; lia.
    + rewrite HT, fmap_app, Zsum_app, fmap_cons, fmap_nil, Zsum_cons, Zsum_nil.
      rewrite (pizza_holds_of_type db _ _ t pizza_type) by done.
      unfold topping_balance, topping_held.
      destruct (topping_stock_of db i); simpl; f_equal; lia.
Qed.

(** Taking out the row of a given key, keys being unique, takes out that
    row's share of a sum. *)
Lemma Zsum_filter_key (h : Pizza → Z) (ps : list Pizza) (row : Pizza) :
  NoDup (pizza_id <$> ps) → row ∈ ps →
  Zsum (h <$> filter (λ x, pizza_id x ≠ pizza_id row) ps) = Zsum (h <$> ps) - h row.
Proof.
  induction ps as [|x ps IH]; intros Hnd Hin; [by apply elem_of_nil in Hin|].
  rewrite fmap_cons in Hnd. apply NoDup_cons in Hnd as [Hx Hnd].
  apply elem_of_cons in Hin as [->|Hin].
  - rewrite filter_cons_False by (intros H; by apply H).
    assert (filter (λ y, pizza_id y ≠ pizza_id x) ps = ps) as ->.
    { clear IH Hnd. induction ps as [|y ps IH]; [done|].
      rewrite fmap_cons in Hx. apply not_elem_of_cons in Hx as [Hy Hx].
      rewrite filter_cons_True, IH; [done..|]. congruence. }
    rewrite fmap_cons, Zsum_cons. lia.
  - rewrite filter_cons_True.
    + rewrite !fmap_cons, !Zsum_cons, IH by done. lia.
    + intros Hid. apply Hx. rewrite Hid. by apply list_elem_of_fmap_2.
Qed.

(** The two ways [delete_pizza_from_order] can end when the pizza, if there
    is one of that id, belongs to the order named: without touching the
    store, or answering 200 with the pizza row gone and the ingredients of
    its type back on the shelf. *)
Lemma delete_pizza_from_order_outcome db o p :
  store_ok db →
  well_scoped db (RemovePizza o p) →
  (∃ r, router.delete_pizza_from_order o p db = Some (r, db))
  ∨ (∃ row t pizza_type D T,
       row ∈ pizzas db ∧ pizza_id row = p ∧ pizza_order_id row = Some o
       ∧ pizza_pizza_type_id row = Some t
       ∧ pizza_types db !! t = Some pizza_type
       ∧ (∀ i, dough_stock <$> D !! i
               = (λ s, s + dough_needed pizza_type i) <$> dough_stock_of db i)
       ∧ (∀ i, topping_stock <$> T !! i
               = (λ s, s + topping_needed pizza_type i) <$> topping_stock_of db i)
       ∧ router.delete_pizza_from_order o p db
         = Some (Return (Status 200),
                 set_next_uuid (λ _, next_uuid db)
                   (set_pizzas (λ _, filter (λ x, pizza_id x ≠ p) (pizzas db))
                      (set_toppings (λ _, T) (set_doughs (λ _, D) db))))).
Proof.
  intros Hok Hscope. cbn in Hscope.
  unfold router.delete_pizza_from_order, order_crud.get_order_by_id,
    order_crud.get_pizza_by_id, router.pizza_type_of.
  rewrite bind_gets.
  destruct (find _ (orders db)) as [order|] eqn:Ho; [|by left; eexists].
  destruct (find_order_Some _ _ _ Ho) as [_ Hoid].
  rewrite bind_gets.
  destruct (find _ (pizzas db)) as [row|] eqn:Hrow; [|by left; eexists].
  apply find_some in Hrow as [Hin Hid]. apply list_elem_of_In in Hin.
  apply bool_decide_eq_true in Hid.
  rewrite bind_gets.
  destruct (ok_pizza_types _ Hok row Hin) as [pizza_type Hpt]. rewrite Hpt.
  destruct (pizza_pizza_type_id row) as [t|] eqn:Hrt; [|done]. cbn in Hpt.
  destruct (ok_type_rows _ Hok _ _ Hpt) as [Hd Hres].
  destruct (increase_stock_of_ingredients_run pizza_type db Hd Hres)
    as (D & T & Hrun & HD & HT).
  rewrite (bind_return _ _ _ _ _ Hrun).
  right. exists row, t, pizza_type, D, T.
  split; [done|]. split; [done|]. split; [by apply Hscope|].
  split; [done|]. split; [done|]. split; [done|]. split; [done|].
  unfold order_crud.delete_pizza_from_order. rewrite bind_bind, bind_gets.
  cbn [pizzas set_toppings set_doughs].
  destruct (find _ (pizzas db)) as [entity|] eqn:Hentity.
  - apply find_some in Hentity as [_ He]. apply andb_true_iff in He as [_ He].
    apply bool_decide_eq_true in He. unfold_monad. cbn. by rewrite He.
  - exfalso. apply list_elem_of_In in Hin.
    pose proof (find_none _ _ Hentity row Hin) as Hno. cbn in Hno.
    rewrite (Hscope row) in Hno; [|by apply list_elem_of_In|done].
    by rewrite Hoid, Hid, !bool_decide_eq_true_2 in Hno.
Qed.

Lemma serve_remove_pizza db o p :
  store_ok db →
  well_scoped db (RemovePizza o p) →
  ∃ db', serve (RemovePizza o p) db = Some db' ∧ store_ok db' ∧ balanced db db'.
Proof.
  intros Hok Hscope. unfold serve, handle.
  destruct (delete_pizza_from_order_outcome db o p Hok Hscope)
    as [[r Hr]|(row & t & pizza_type & D & T & Hin & Hid & _ & Hrt & Ht & HD & HT & Hr)];
    rewrite (serve_of_run _ _ _ _ Hr); eexists; (split; [reflexivity|]).
  { split; [done | apply balanced_refl]. }
  subst p. split.
  - apply store_ok_pizzas; [done|..].
    + intros i. apply (stock_rows_kept dough_stock (doughs db) D _ i (HD i)).
    + intros i. apply (stock_rows_kept topping_stock (toppings db) T _ i (HT i)).
    + eapply sublist_NoDup; [apply Hok|]. apply fmap_sublist, sublist_filter.
    + intros x [_ Hx]%list_elem_of_filter. by apply Hok.
    + intros x [_ Hx]%list_elem_of_filter. by apply Hok.
    + lia.
    + intros x o' [_ Hx]%list_elem_of_filter. by apply Hok.
  - apply balanced_pizzas; intros i.
    + rewrite HD, (Zsum_filter_key _ _ row) by (done || apply Hok).
      rewrite (pizza_holds_of_type db _ _ t pizza_type) by done.
      unfold dough_balance, dough_held.
      destruct (dough_stock_of db i); simpl; f_equal; lia.
    + rewrite HT, (Zsum_filter_key _ _ row) by (done || apply Hok).
      rewrite (pizza_holds_of_type db _ _ t pizza_type) by done.
      unfold topping_balance, topping_held.
      destruct (topping_stock_of db i); simpl; f_equal; lia.
Qed.

(** ** Conservation: deleting an order *)

Lemma Zsum_filter_split {A} (h : A → Z) (P : A → Prop) `{∀ x, Decision (P x)}
    (xs : list A) :
  Zsum (h <$> xs) = Zsum (h <$> filter P xs) + Zsum (h <$> filter (λ x, ¬ P x) xs).
Proof.
  induction xs as [|x xs IH]; [done|]. rewrite fmap_cons, Zsum_cons, IH.
  destruct (decide (P x)).
  - rewrite (filter_cons_True P), (filter_cons_False (λ x, ¬ P x)) by tauto.
    rewrite fmap_cons, Zsum_cons. lia.
  - rewrite (filter_cons_False P), (filter_cons_True (λ x, ¬ P x)) by tauto.
    rewrite fmap_cons, Zsum_cons. lia.
Qed.

Lemma fmap_add_add (a b : Z) (o : option Z) :
  (λ s, s + b) <$> ((λ s, s + a) <$> o) = (λ s, s + (a + b)) <$> o.
Proof. destruct o; simpl; f_equal; lia. Qed.

Lemma pizza_holds_resolved db needed p t :
  (pizza_pizza_type_id p ≫= λ i, pizza_types db !! i) = Some t →
  pizza_holds db needed p = needed t.
Proof. intros Hpt. unfold pizza_holds. by rewrite Hpt. Qed.

(** The first loop of [delete_order]: every pizza handed in gives the
    ingredients of its type back. *)
Lemma for_each_restore_pizzas (ps : list Pizza) db :
  (∀ p, p ∈ ps → is_Some (pizza_pizza_type_id p ≫= λ i, pizza_types db !! i)) →
  (∀ k t, pizza_types db !! k = Some t →
     is_Some (doughs db !! pizza_type_dough_id t)
     ∧ toppings_resolve db (pizza_type_toppings t)) →
  ∃ D T,
    for_each ps (λ pizza,
      let* pizza_type := router.pizza_type_of pizza in
      match pizza_type with
      | Some pizza_type => increase_stock_of_ingredients pizza_type
      | None => attribute_error
      end) db
    = Some (Return tt, set_toppings (λ _, T) (set_doughs (λ _, D) db))
    ∧ (∀ i, dough_stock <$> D !! i
            = (λ s, s + Zsum (pizza_holds db (λ t, dough_needed t i) <$> ps))
              <$> dough_stock_of db i)
    ∧ (∀ i, topping_stock <$> T !! i
            = (λ s, s + Zsum (pizza_holds db (λ t, topping_needed t i) <$> ps))
              <$> topping_stock_of db i).
Proof.
  revert db. induction ps as [|p ps IH]; intros db Hps Hrows.
  - exists (doughs db), (toppings db). split; [by destruct db|].
    split; intros i; rewrite fmap_nil, Zsum_nil.
    + unfold dough_stock_of. destruct (doughs db !! i); simpl; f_equal; lia.
    + unfold topping_stock_of. destruct (toppings db !! i); simpl; f_equal; lia.
  - destruct (Hps p (list_elem_of_here _ _)) as [t Hpt].
    assert (is_Some (doughs db !! pizza_type_dough_id t)
            ∧ toppings_resolve db (pizza_type_toppings t)) as [Hd Hres].
    { destruct (pizza_pizza_type_id p) as [k|]; [|done]. by apply (Hrows k). }
    destruct (increase_stock_of_ingredients_run t db Hd Hres) as (D1 & T1 & Hrun & HD1 & HT1).
    destruct (IH (set_toppings (λ _, T1) (set_doughs (λ _, D1) db))) as (D & T & Hloop & HD & HT).
    { intros x Hx. apply Hps. by apply elem_of_cons; right. }
    { intros k t' Hk. destruct (Hrows k t' Hk) as [Hd' Hres']. split.
      - apply (stock_rows_kept dough_stock (doughs db) D1 _ _ (HD1 _) Hd').
      - eapply Forall_impl; [exact Hres'|]. intros tq.
        apply (stock_rows_kept topping_stock (toppings db) T1 _ _ (HT1 _)). }
    exists D, T. split; [|split].
    + cbn [for_each]. unfold router.pizza_type_of at 1.
      rewrite bind_bind, bind_gets. cbv beta. rewrite Hpt.
      rewrite (bind_return _ _ _ _ _ Hrun). exact Hloop.
    + intros i. rewrite HD. unfold dough_stock_of at 1.
      cbn [doughs set_toppings set_doughs]. rewrite HD1, fmap_add_add, fmap_cons, Zsum_cons.
      by rewrite (pizza_holds_resolved db _ p t Hpt).
    + intros i. rewrite HT. unfold topping_stock_of at 1.
      cbn [toppings set_toppings set_doughs]. rewrite HT1, fmap_add_add, fmap_cons, Zsum_cons.
      by rewrite (pizza_holds_resolved db _ p t Hpt).
Qed.

(** The second loop of [delete_order]: every line handed in puts its
    quantity back on its beverage, the stock never being short for that. *)
Lemma for_each_restore_beverages (ls : list OrderBeverageQuantity) db :
  (∀ l, l ∈ ls → 1 ≤ obq_quantity l) →
  (∀ i b, beverages db !! i = Some b → 0 ≤ beverage_stock b) →
  ∃ B,
    for_each ls (λ beverage,
      change_stock_of_beverage (obq_beverage_id beverage) (obq_quantity beverage) ;;
      ret tt) db
    = Some (Return tt, set_beverages (λ _, B) db)
    ∧ (∀ i, beverage_stock <$> B !! i
            = (λ s, s + Zsum ((λ l, if bool_decide (obq_beverage_id l = i)
                                     then obq_quantity l else 0) <$> ls))
              <$> beverage_stock_of db i)
    ∧ (∀ i b, B !! i = Some b → 0 ≤ beverage_stock b).
Proof.
  revert db. induction ls as [|l ls IH]; intros db Hq Hnn.
  - exists (beverages db). split; [by destruct db|]. split; [|done].
    intros i. rewrite fmap_nil, Zsum_nil. unfold beverage_stock_of.
    destruct (beverages db !! i); simpl; f_equal; lia.
  - pose proof (Hq l (list_elem_of_here _ _)) as Hl.
    assert (∀ x, x ∈ ls → 1 ≤ obq_quantity x) as Hq'
      by (intros x Hx; apply Hq; by apply elem_of_cons; right).
    destruct (beverages db !! obq_beverage_id l) as [b|] eqn:Hb.
    + pose proof (Hnn _ _ Hb) as Hs.
      pose proof (change_stock_of_beverage_run db _ b (obq_quantity l) Hb) as Hrun.
      assert ((beverage_stock b + obq_quantity l <? 0) = false) as Hok by lia.
      rewrite Hok in Hrun.
      destruct (IH (set_beverages
                      <[obq_beverage_id l :=
                          mkBeverage (beverage_price b)
                                     (beverage_stock b + obq_quantity l)]> db) Hq')
        as (B & Hloop & HB & HBnn).
      { apply insert_beverage_stock_nonneg; [done|]. cbn. lia. }
      exists B. split; [|split; [|done]].
      * cbn [for_each]. rewrite bind_bind, (bind_return _ _ _ _ _ Hrun). exact Hloop.
      * intros i. rewrite HB, fmap_cons, Zsum_cons. unfold beverage_stock_of.
        cbn [beverages set_beverages].
        destruct (decide (obq_beverage_id l = i)) as [<-|Hne].
        -- rewrite lookup_insert_eq, Hb, bool_decide_eq_true_2 by done.
           simpl. f_equal. lia.
        -- rewrite lookup_insert_ne, bool_decide_eq_false_2 by done.
           destruct (beverages db !! i); simpl; f_equal; lia.
    + pose proof (change_stock_of_beverage_unknown db _ (obq_quantity l) Hb) as Hrun.
      destruct (IH db Hq' Hnn) as (B & Hloop & HB & HBnn).
      exists B. split; [|split; [|done]].
      * cbn [for_each]. rewrite bind_bind, (bind_return _ _ _ _ _ Hrun). exact Hloop.
      * intros i. rewrite HB, fmap_cons, Zsum_cons. unfold beverage_stock_of.
        destruct (decide (obq_beverage_id l = i)) as [<-|Hne].
        -- by rewrite Hb.
        -- rewrite bool_decide_eq_false_2 by done.
           destruct (beverages db !! i); simpl; f_equal; lia.
Qed.

Lemma store_ok_orders db OS :
  store_ok db →
  (∀ o, o ∈ OS → (order_id o < next_uuid db)%N) →
  store_ok (set_orders (λ _, OS) db).
Proof. intros [] Hfresh. by constructor. Qed.

Lemma balanced_orders db db' OS :
  balanced db db' → balanced db (set_orders (λ _, OS) db').
Proof. intros H i. apply (H i). Qed.

(** The two ways [delete_order] can end on a store that meets its
    constraints: 404 without touching the store, or 204 with the order, its
    pizzas and its lines gone, and what they held back on the shelf. *)
Lemma delete_order_outcome db o :
  store_ok db →
  (∃ r, router.delete_order o db = Some (r, db))
  ∨ (∃ D T B,
       (∀ i, dough_stock <$> D !! i
             = (λ s, s + Zsum (pizza_holds db (λ t, dough_needed t i)
                                 <$> filter (λ p, pizza_order_id p = Some o) (pizzas db)))
               <$> dough_stock_of db i)
       ∧ (∀ i, topping_stock <$> T !! i
               = (λ s, s + Zsum (pizza_holds db (λ t, topping_needed t i)
                                   <$> filter (λ p, pizza_order_id p = Some o) (pizzas db)))
                 <$> topping_stock_of db i)
       ∧ (∀ i, beverage_stock <$> B !! i
               = (λ s, s + Zsum ((λ l, if bool_decide (obq_beverage_id l = i)
                                        then obq_quantity l else 0)
                                   <$> filter (λ l, obq_order_id l = o) (order_beverages db)))
                 <$> beverage_stock_of db i)
       ∧ (∀ i b, B !! i = Some b → 0 ≤ beverage_stock b)
       ∧ router.delete_order o db
         = Some (Return (Status 204),
                 set_orders (λ _, filter (λ x, order_id x ≠ o) (orders db))
                   (set_order_beverages
                      (λ _, filter (λ l, obq_order_id l ≠ o) (order_beverages db))
                      (set_beverages (λ _, B)
                         (set_next_uuid (λ _, next_uuid db)
                            (set_pizzas
                               (λ _, filter (λ p, pizza_order_id p ≠ Some o) (pizzas db))
                               (set_toppings (λ _, T) (set_doughs (λ _, D) db)))))))).
Proof.
  intros Hok. unfold router.delete_order, order_crud.get_order_by_id.
  rewrite bind_gets.
  destruct (find _ (orders db)) as [order|] eqn:Ho; [|by left; eexists].
  destruct (find_order_Some _ _ _ Ho) as [_ Hoid]. right.
  destruct (for_each_restore_pizzas
              (filter (λ p, pizza_order_id p = Some o) (pizzas db)) db)
    as (D & T & Hloop1 & HD & HT).
  { intros p [_ Hp]%list_elem_of_filter. by apply Hok. }
  { apply Hok. }
  destruct (for_each_restore_beverages
              (filter (λ l, obq_order_id l = o) (order_beverages db))
              (set_toppings (λ _, T) (set_doughs (λ _, D) db)))
    as (B & Hloop2 & HB & HBnn).
  { intros l [_ Hl]%list_elem_of_filter. by apply Hok. }
  { apply Hok. }
  exists D, T, B. split; [done|]. split; [done|]. split; [done|]. split; [done|].
  unfold router.pizzas_of, router.beverages_of. rewrite Hoid.
  rewrite bind_bind, bind_gets. cbv beta. rewrite (bind_return _ _ _ _ _ Hloop1).
  rewrite bind_bind, bind_gets. cbv beta.
  cbn [order_beverages set_toppings set_doughs].
  rewrite (bind_return _ _ _ _ _ Hloop2).
  unfold order_crud.delete_order_by_id, order_crud.get_order_by_id.
  rewrite bind_bind, bind_gets. cbv beta.
  cbn [orders set_toppings set_doughs set_beverages]. rewrite Ho.
  unfold order_crud.db_delete_order. unfold_monad. cbn. by rewrite Hoid.
Qed.

Lemma serve_delete_order db o :
  store_ok db →
  ∃ db', serve (DeleteOrder o) db = Some db' ∧ store_ok db' ∧ balanced db db'.
Proof.
  intros Hok. unfold serve, handle.
  destruct (delete_order_outcome db o Hok)
    as [[r Hr]|(D & T & B & HD & HT & HB & HBnn & Hr)];
    rewrite (serve_of_run _ _ _ _ Hr); eexists; (split; [reflexivity|]).
  { split; [done | apply balanced_refl]. }
  split.
  - apply store_ok_orders; [apply store_ok_beverages; [apply store_ok_pizzas; [done|..]|..]|].
    + intros i. apply (stock_rows_kept dough_stock (doughs db) D _ i (HD i)).
    + intros i. apply (stock_rows_kept topping_stock (toppings db) T _ i (HT i)).
    + eapply sublist_NoDup; [apply Hok|]. apply fmap_sublist, sublist_filter.
    + intros x [_ Hx]%list_elem_of_filter. by apply Hok.
    + intros x [_ Hx]%list_elem_of_filter. by apply Hok.
    + lia.
    + intros x o' [_ Hx]%list_elem_of_filter. by apply Hok.
    + eapply sublist_NoDup; [apply Hok|]. apply fmap_sublist, sublist_filter.
    + intros x [_ Hx]%list_elem_of_filter. by apply Hok.
    + intros x [_ Hx]%list_elem_of_filter. by apply Hok.
    + done.
    + intros x [_ Hx]%list_elem_of_filter. by apply Hok.
  - apply balanced_orders.
    eapply balanced_trans; [apply balanced_pizzas | apply balanced_beverages]; intros i.
    + rewrite HD. unfold dough_balance, dough_held.
      rewrite (Zsum_filter_split _ (λ p, pizza_order_id p = Some o) (pizzas db)).
      destruct (dough_stock_of db i); simpl; f_equal; lia.
    + rewrite HT. unfold topping_balance, topping_held.
      rewrite (Zsum_filter_split _ (λ p, pizza_order_id p = Some o) (pizzas db)).
      destruct (topping_stock_of db i); simpl; f_equal; lia.
    + rewrite HB. unfold beverage_balance, beverage_held.
      cbn [order_beverages set_next_uuid set_pizzas set_toppings set_doughs].
      rewrite (Zsum_filter_split _ (λ l, obq_order_id l = o) (order_beverages db)).
      unfold beverage_stock_of. cbn [beverages set_next_uuid set_pizzas set_toppings set_doughs].
      destruct (beverages db !! i); simpl; f_equal; lia.
Qed.

(** ** The cross-order removal, in general *)

(** Rows of a keyed table are told apart by their key. *)
Lemma keyed_unique {A K : Type} (f : A → K) (xs : list A) (x y : A) :
  NoDup (f <$> xs) → x ∈ xs → y ∈ xs → f x = f y → x = y.
Proof.
  induction xs as [|z xs IH]; intros Hnd Hx Hy Hid; [by apply elem_of_nil in Hx|].
  rewrite fmap_cons in Hnd. apply NoDup_cons in Hnd as [Hz Hnd].
  apply elem_of_cons in Hx as [->|Hx]; apply elem_of_cons in Hy as [->|Hy];
    [done| | |by apply IH].
  - exfalso. apply Hz. rewrite Hid. by apply list_elem_of_fmap_2.
  - exfalso. apply Hz. rewrite <- Hid. by apply list_elem_of_fmap_2.
Qed.

(** X18: on any store that meets its constraints, asking an existing order to
    remove a pizza that belongs elsewhere is answered 404 and keeps every
    pizza row, yet the ingredients of the pizza's type have gone up: the
    stock is incremented before the order-scoped lookup is made. *)
Lemma delete_pizza_from_order_foreign db o p order row :
  store_ok db →
  find (λ x, bool_decide (order_id x = o)) (orders db) = Some order →
  row ∈ pizzas db → pizza_id row = p → pizza_order_id row ≠ Some o →
  ∃ pizza_type D T,
    (pizza_pizza_type_id row ≫= λ i, pizza_types db !! i) = Some pizza_type
    ∧ (∀ i, dough_stock <$> D !! i
            = (λ s, s + dough_needed pizza_type i) <$> dough_stock_of db i)
    ∧ (∀ i, topping_stock <$> T !! i
            = (λ s, s + topping_needed pizza_type i) <$> topping_stock_of db i)
    ∧ router.delete_pizza_from_order o p db
      = Some (Return (Status 404), set_toppings (λ _, T) (set_doughs (λ _, D) db)).
Proof.
  intros Hok Ho Hin Hid Hforeign.
  destruct (find_order_Some _ _ _ Ho) as [_ Hoid].
  destruct (ok_pizza_types _ Hok row Hin) as [pizza_type Hpt].
  assert (is_Some (doughs db !! pizza_type_dough_id pizza_type)
          ∧ toppings_resolve db (pizza_type_toppings pizza_type)) as [Hd Hres].
  { destruct (pizza_pizza_type_id row) as [k|]; [|done]. by apply (ok_type_rows _ Hok k). }
  destruct (increase_stock_of_ingredients_run pizza_type db Hd Hres)
    as (D & T & Hrun & HD & HT).
  exists pizza_type, D, T. split; [done|]. split; [done|]. split; [done|].
  unfold router.delete_pizza_from_order, order_crud.get_order_by_id,
    order_crud.get_pizza_by_id, router.pizza_type_of.
  rewrite bind_gets, Ho, bind_gets.
  destruct (find _ (pizzas db)) as [row'|] eqn:Hrow'.
  - apply find_some in Hrow' as [Hin' Hid']. apply list_elem_of_In in Hin'.
    apply bool_decide_eq_true in Hid'.
    assert (row' = row) as -> by (apply (keyed_unique pizza_id (pizzas db));
                                   [apply Hok|done..|congruence]).
    rewrite bind_gets, Hpt, (bind_return _ _ _ _ _ Hrun).
    unfold order_crud.delete_pizza_from_order. rewrite bind_bind, bind_gets.
    cbn [pizzas set_toppings set_doughs].
    destruct (find _ (pizzas db)) as [entity|] eqn:Hentity; [|done].
    exfalso. apply find_some in Hentity as [Hine He]. apply list_elem_of_In in Hine.
    apply andb_true_iff in He as [Heo Hei].
    apply bool_decide_eq_true in Heo. apply bool_decide_eq_true in Hei.
    assert (entity = row) as -> by (apply (keyed_unique pizza_id (pizzas db));
                                     [apply Hok|done..|congruence]).
    apply Hforeign. by rewrite Heo, Hoid.
  - exfalso. apply list_elem_of_In in Hin.
    pose proof (find_none _ _ Hrow' row Hin) as Hno. cbn in Hno.
    by rewrite bool_decide_eq_true_2 in Hno.
Qed.

(** ** Conservation: copying an order *)

Lemma crud_add_pizza_to_order_run db order pizza_type :
  (∀ p, p ∈ pizzas db → (pizza_id p < next_uuid db)%N) →
  order_crud.add_pizza_to_order order (Some pizza_type) db
  = Some (Return (mkPizza (next_uuid db) (Some (order_id order))
                          (Some (pizza_type_id pizza_type))),
          set_next_uuid (λ _, N.succ (next_uuid db))
            (set_pizzas
               (λ _, pizzas db ++ [mkPizza (next_uuid db) (Some (order_id order))
                                            (Some (pizza_type_id pizza_type))])
               db)).
Proof.
  intros Hfresh.
  unfold order_crud.add_pizza_to_order, order_crud.create_pizza, uuid4.
  unfold_monad. cbn. do 2 f_equal. store_fields.
  rewrite map_app, attach_fresh_pizza by done.
  cbn [map]. by rewrite bool_decide_eq_true_2.
Qed.

Lemma delete_order_by_id_total i db :
  ∃ db', order_crud.delete_order_by_id i db = Some (Return tt, db').
Proof.
  unfold order_crud.delete_order_by_id, order_crud.get_order_by_id.
  rewrite bind_gets. destruct (find _ (orders db)); by eexists.
Qed.

Lemma fmap_sub_sub (a b : Z) (o : option Z) :
  (λ s, s - b) <$> ((λ s, s - a) <$> o) = (λ s, s - (a + b)) <$> o.
Proof. destruct o; simpl; f_equal; lia. Qed.

(** One round of the first loop of [create_order]. *)
Lemma copy_pizza_outcome new p db :
  (∀ k t, pizza_types db !! k = Some t → pizza_type_id t = k) →
  (∀ k t, pizza_types db !! k = Some t →
     is_Some (doughs db !! pizza_type_dough_id t)
     ∧ toppings_resolve db (pizza_type_toppings t)) →
  is_Some (pizza_pizza_type_id p ≫= λ i, pizza_types db !! i) →
  (∀ p, p ∈ pizzas db → (pizza_id p < next_uuid db)%N) →
  (∃ db', router.copy_pizza new p db = Some (Raise 409, db'))
  ∨ (∃ k t D T,
       pizza_pizza_type_id p = Some k ∧ pizza_types db !! k = Some t
       ∧ router.copy_pizza new p db
         = Some (Return tt,
                 set_toppings (λ _, T)
                   (set_doughs (λ _, D)
                      (set_next_uuid (λ _, N.succ (next_uuid db))
                         (set_pizzas
                            (λ _, pizzas db ++ [mkPizza (next_uuid db)
                                                         (Some (order_id new)) (Some k)])
                            db))))
       ∧ (∀ i, dough_stock <$> D !! i
               = (λ s, s - dough_needed t i) <$> dough_stock_of db i)
       ∧ (∀ i, topping_stock <$> T !! i
               = (λ s, s - topping_needed t i) <$> topping_stock_of db i)).
Proof.
  intros Hids Hrows [t Hpt] Hfresh.
  assert (∃ k, pizza_pizza_type_id p = Some k ∧ pizza_types db !! k = Some t)
    as (k & Hpk & Hkt).
  { destruct (pizza_pizza_type_id p) as [k|]; [|done]. by exists k. }
  destruct (Hrows k t Hkt) as [[d Hd] Hres].
  destruct (ingredients_are_available_nonzero _ _ _ Hd Hres) as (b & Havail & _).
  assert (router.copy_pizza new p db
          = (if negb b then
               order_crud.delete_order_by_id (order_id new) ;; raise_http 409
             else
               order_crud.add_pizza_to_order new (Some t) ;;
               reduce_stock_of_ingredients t) db) as ->.
  { unfold router.copy_pizza, router.pizza_type_of.
    rewrite bind_gets. cbv beta. rewrite Hpt.
    by rewrite (bind_return _ _ _ _ _ Havail). }
  destruct b; cbn [negb].
  2:{ left. destruct (delete_order_by_id_total (order_id new) db) as [db' Hdel].
      rewrite (bind_return _ _ _ _ _ Hdel). by eexists. }
  right.
  rewrite (bind_return _ _ _ _ _ (crud_add_pizza_to_order_run db new t Hfresh)).
  rewrite (Hids k t Hkt).
  destruct (reduce_stock_of_ingredients_run t
              (set_next_uuid (λ _, N.succ (next_uuid db))
                 (set_pizzas
                    (λ _, pizzas db ++ [mkPizza (next_uuid db) (Some (order_id new))
                                                 (Some k)]) db)))
    as (D & T & Hrun & HD & HT); [by eexists | done |].
  exists k, t, D, T. by rewrite Hrun.
Qed.

(** The first loop of [create_order]: either it raises 409, or every pizza
    of the template has been copied into a new row of the same type,
    attached to the new order, and the ingredients of all of them have left
    the shelf. *)
Lemma copy_pizzas_outcome new (ps : list Pizza) db :
  (∀ k t, pizza_types db !! k = Some t → pizza_type_id t = k) →
  (∀ k t, pizza_types db !! k = Some t →
     is_Some (doughs db !! pizza_type_dough_id t)
     ∧ toppings_resolve db (pizza_type_toppings t)) →
  (∀ p, p ∈ ps → is_Some (pizza_pizza_type_id p ≫= λ i, pizza_types db !! i)) →
  (∀ p, p ∈ pizzas db → (pizza_id p < next_uuid db)%N) →
  (∃ db', for_each ps (router.copy_pizza new) db = Some (Raise 409, db'))
  ∨ (∃ rows D T n',
       for_each ps (router.copy_pizza new) db
       = Some (Return tt,
               set_next_uuid (λ _, n')
                 (set_pizzas (λ _, pizzas db ++ rows)
                    (set_toppings (λ _, T) (set_doughs (λ _, D) db))))
       ∧ pizza_pizza_type_id <$> rows = pizza_pizza_type_id <$> ps
       ∧ (∀ r, r ∈ rows → pizza_order_id r = Some (order_id new)
                           ∧ (next_uuid db ≤ pizza_id r < n')%N)
       ∧ NoDup (pizza_id <$> rows)
       ∧ (next_uuid db ≤ n')%N
       ∧ (∀ i, dough_stock <$> D !! i
               = (λ s, s - Zsum (pizza_holds db (λ t, dough_needed t i) <$> ps))
                 <$> dough_stock_of db i)
       ∧ (∀ i, topping_stock <$> T !! i
               = (λ s, s - Zsum (pizza_holds db (λ t, topping_needed t i) <$> ps))
                 <$> topping_stock_of db i)).
Proof.
  revert db. induction ps as [|p ps IH]; intros db Hids Hrows Hps Hfresh.
  - right. exists [], (doughs db), (toppings db), (next_uuid db).
    split; [cbn; rewrite app_nil_r; by destruct db|].
    split; [done|]. split; [by intros r Hr%elem_of_nil|].
    split; [constructor|]. split; [lia|].
    split; intros i; rewrite fmap_nil, Zsum_nil.
    + unfold dough_stock_of. destruct (doughs db !! i); simpl; f_equal; lia.
    + unfold topping_stock_of. destruct (toppings db !! i); simpl; f_equal; lia.
  - cbn [for_each].
    destruct (copy_pizza_outcome new p db Hids Hrows (Hps p (list_elem_of_here _ _)) Hfresh)
      as [[db' Hraise]|(k & t & D1 & T1 & Hpk & Hkt & Hstep & HD1 & HT1)].
    { left. exists db'. by rewrite (bind_raise _ _ _ _ _ Hraise). }
    rewrite (bind_return _ _ _ _ _ Hstep).
    assert ((pizza_pizza_type_id p ≫= λ i, pizza_types db !! i) = Some t) as Hpt
      by by rewrite Hpk.
    match goal with
    | |- context [for_each ps _ ?db1] =>
        destruct (IH db1)
          as [[db' Hraise]|(rows & D & T & n' & Hloop & Hty & Hr & Hnd & Hn & HD & HT)]
    end.
    { exact Hids. }
    { intros k' t' Hk'. destruct (Hrows k' t' Hk') as [Hd' Hres']. split.
      - apply (stock_rows_kept dough_stock (doughs db) D1 _ _ (HD1 _) Hd').
      - eapply Forall_impl; [exact Hres'|]. intros tq.
        apply (stock_rows_kept topping_stock (toppings db) T1 _ _ (HT1 _)). }
    { intros x Hx. apply Hps. by apply elem_of_cons; right. }
    { cbn. intros x [Hx|Hx]%elem_of_app.
      - pose proof (Hfresh x Hx). lia.
      - apply list_elem_of_singleton in Hx. subst x. cbn. lia. }
    + left. exists db'. exact Hraise.
    + right.
      exists (mkPizza (next_uuid db) (Some (order_id new)) (Some k) :: rows), D, T, n'.
      cbn [next_uuid set_toppings set_doughs set_next_uuid set_pizzas] in Hn, Hr.
      split.
      { rewrite Hloop. do 2 f_equal. store_fields. by rewrite <- app_assoc. }
      split; [by rewrite !fmap_cons, Hty, Hpk|].
      split.
      { intros r [->|Hin]%elem_of_cons; [cbn; split; [done | lia]|].
        destruct (Hr r Hin). split; [done | lia]. }
      split.
      { rewrite fmap_cons. apply NoDup_cons. split; [|done].
        intros (r & Hid & Hin)%list_elem_of_fmap. cbn in Hid.
        destruct (Hr r Hin) as [_ ?]. lia. }
      split; [lia|].
      split; intros i.
      * rewrite HD. unfold dough_stock_of at 1.
        cbn [doughs set_toppings set_doughs]. rewrite HD1.
        rewrite fmap_sub_sub, fmap_cons, Zsum_cons.
        by rewrite (pizza_holds_resolved db _ p t Hpt).
      * rewrite HT. unfold topping_stock_of at 1.
        cbn [toppings set_toppings set_doughs]. rewrite HT1.
        rewrite fmap_sub_sub, fmap_cons, Zsum_cons.
        by rewrite (pizza_holds_resolved db _ p t Hpt).
Qed.

(** The second loop of [create_order]: either it raises 409, or every line
    of the template has been copied into a line of the new order, and the
    quantities of all of them have left the shelf. *)
Lemma copy_beverages_outcome new (ls : list OrderBeverageQuantity) db :
  (∀ i b, beverages db !! i = Some b → 0 ≤ beverage_stock b) →
  (∃ db', for_each ls (router.copy_beverage new) db = Some (Raise 409, db'))
  ∨ (∃ B,
       for_each ls (router.copy_beverage new) db
       = Some (Return tt,
               set_order_beverages
                 (λ _, order_beverages db
                       ++ ((λ l, mkOrderBeverageQuantity (order_id new) (obq_beverage_id l)
                                                         (obq_quantity l)) <$> ls))
                 (set_beverages (λ _, B) db))
       ∧ (∀ i, beverage_stock <$> B !! i
               = (λ s, s - Zsum ((λ l, if bool_decide (obq_beverage_id l = i)
                                        then obq_quantity l else 0) <$> ls))
                 <$> beverage_stock_of db i)
       ∧ (∀ i b, B !! i = Some b → 0 ≤ beverage_stock b)).
Proof.
  revert db. induction ls as [|l ls IH]; intros db Hnn.
  - right. exists (beverages db).
    split; [cbn; rewrite app_nil_r; by destruct db|]. split; [|done].
    intros i. rewrite fmap_nil, Zsum_nil. unfold beverage_stock_of.
    destruct (beverages db !! i); simpl; f_equal; lia.
  - cbn [for_each].
    destruct (beverages db !! obq_beverage_id l) as [b|] eqn:Hb.
    2:{ left. destruct (delete_order_by_id_total (order_id new) db) as [db' Hdel].
        exists db'. unfold router.copy_beverage.
        rewrite !bind_bind,
          (bind_return _ _ _ _ _ (change_stock_of_beverage_unknown db _ _ Hb)).
        cbn [negb]. by rewrite !bind_bind, (bind_return _ _ _ _ _ Hdel). }
    pose proof (change_stock_of_beverage_run db _ b (- obq_quantity l) Hb) as Hrun.
    destruct (Z.ltb_spec (beverage_stock b + - obq_quantity l) 0) as [Hlt|Hge].
    { left. destruct (delete_order_by_id_total (order_id new) db) as [db' Hdel].
      exists db'. unfold router.copy_beverage.
      rewrite !bind_bind, (bind_return _ _ _ _ _ Hrun).
      cbn [negb]. by rewrite !bind_bind, (bind_return _ _ _ _ _ Hdel). }
    assert (router.copy_beverage new l db
            = Some (Return tt,
                    set_order_beverages
                      (λ _, order_beverages db
                            ++ [mkOrderBeverageQuantity (order_id new) (obq_beverage_id l)
                                                        (obq_quantity l)])
                      (set_beverages
                         (λ _, <[obq_beverage_id l :=
                                   mkBeverage (beverage_price b)
                                     (beverage_stock b + - obq_quantity l)]>
                                 (beverages db)) db))) as Hstep.
    { unfold router.copy_beverage. rewrite (bind_return _ _ _ _ _ Hrun). cbn [negb].
      unfold order_crud.create_beverage_quantity. unfold_monad. by cbn. }
    rewrite (bind_return _ _ _ _ _ Hstep).
    match goal with
    | |- context [for_each ls _ ?db1] =>
        destruct (IH db1) as [[db' Hraise]|(B & Hloop & HB & HBnn)]
    end.
    { cbn [beverages set_order_beverages set_beverages].
      apply insert_beverage_stock_nonneg; [done | cbn; lia]. }
    + left. exists db'. exact Hraise.
    + right. exists B. split; [|split; [|done]].
      * rewrite Hloop. do 2 f_equal. store_fields.
        by rewrite fmap_cons, <- app_assoc.
      * intros i. rewrite HB, fmap_cons, Zsum_cons. unfold beverage_stock_of.
        cbn [beverages set_order_beverages set_beverages].
        destruct (decide (obq_beverage_id l = i)) as [<-|Hne].
        -- rewrite lookup_insert_eq, Hb, bool_decide_eq_true_2 by done.
           simpl. f_equal. lia.
        -- rewrite lookup_insert_ne, bool_decide_eq_false_2 by done.
           destruct (beverages db !! i); simpl; f_equal; lia.
Qed.

Lemma filter_all {A} (P : A → Prop) `{∀ x, Decision (P x)} (xs : list A) :
  (∀ x, x ∈ xs → P x) → filter P xs = xs.
Proof.
  induction xs as [|x xs IH]; intros HP; [done|].
  rewrite filter_cons_True, IH; [done| |].
  - intros y Hy. apply HP. by apply elem_of_cons; right.
  - apply HP, list_elem_of_here.
Qed.

Lemma find_app_new (n : uuid) (os : list Order) (new : Order) :
  (∀ o, o ∈ os → (order_id o < n)%N) → order_id new = n →
  find (λ o, bool_decide (order_id o = n)) (os ++ [new]) = Some new.
Proof.
  intros Hfresh Hnew. induction os as [|o os IH]; cbn [app find].
  - by rewrite bool_decide_eq_true_2.
  - rewrite bool_decide_eq_false_2.
    + apply IH. intros x Hx. apply Hfresh. by apply elem_of_cons; right.
    + pose proof (Hfresh o (list_elem_of_here _ _)). lia.
Qed.

Lemma crud_create_order_run db u :
  order_crud.create_order u db
  = Some (Return (mkOrder (next_uuid db) u TRANSMITTED),
          set_orders (λ _, orders db ++ [mkOrder (next_uuid db) u TRANSMITTED])
            (set_next_uuid (λ _, N.succ (next_uuid db)) db)).
Proof. done. Qed.

(** The new order has nothing attached while it is being filled: deleting
    it again takes away exactly its own row. *)
Lemma delete_new_order_run db u :
  store_ok db →
  order_crud.delete_order_by_id (next_uuid db)
    (set_orders (λ _, orders db ++ [mkOrder (next_uuid db) u TRANSMITTED])
       (set_next_uuid (λ _, N.succ (next_uuid db)) db))
  = Some (Return tt, set_next_uuid (λ _, N.succ (next_uuid db)) db).
Proof.
  intros Hok. unfold order_crud.delete_order_by_id, order_crud.get_order_by_id.
  rewrite bind_gets. cbv beta. cbn [orders set_orders set_next_uuid].
  rewrite (find_app_new (next_uuid db) (orders db)) by (done || apply Hok).
  unfold order_crud.db_delete_order. unfold_monad. do 2 f_equal.
  cbn [order_id]. store_fields.
  - rewrite filter_app, filter_cons_False, filter_nil, app_nil_r by (intros H; by apply H).
    apply filter_all. intros o Ho. pose proof (ok_order_fresh _ Hok o Ho). lia.
  - apply filter_all. intros p Hp Hpo. pose proof (ok_pizza_orders _ Hok p _ Hp Hpo). lia.
  - apply filter_all. intros l Hl. pose proof (ok_line_orders _ Hok l Hl). lia.
Qed.

(** The ways [create_order] with a template can end on a store that meets
    its constraints: 404 for an unknown user (nothing changed) or an unknown
    template (one identifier used up), 409, or the new order, holding a copy
    of every pizza and beverage line found under the template's id, their
    ingredients and quantities having left the shelf. *)
Lemma create_order_outcome db u c :
  store_ok db →
  router.create_order u (Some c) db = Some (Raise 404, db)
  ∨ router.create_order u (Some c) db
    = Some (Raise 404, set_next_uuid (λ _, N.succ (next_uuid db)) db)
  ∨ (∃ db', router.create_order u (Some c) db = Some (Raise 409, db'))
  ∨ (∃ rows D T B n',
       router.create_order u (Some c) db
       = Some (Return (mkOrder (next_uuid db) u TRANSMITTED),
               set_orders (λ _, orders db ++ [mkOrder (next_uuid db) u TRANSMITTED])
                 (set_order_beverages
                    (λ _, order_beverages db
                          ++ ((λ l, mkOrderBeverageQuantity (next_uuid db)
                                      (obq_beverage_id l) (obq_quantity l))
                                <$> filter (λ l, obq_order_id l = c) (order_beverages db)))
                    (set_beverages (λ _, B)
                       (set_next_uuid (λ _, n')
                          (set_pizzas (λ _, pizzas db ++ rows)
                             (set_toppings (λ _, T) (set_doughs (λ _, D) db)))))))
       ∧ pizza_pizza_type_id <$> rows
         = pizza_pizza_type_id <$> filter (λ p, pizza_order_id p = Some c) (pizzas db)
       ∧ (∀ r, r ∈ rows → pizza_order_id r = Some (next_uuid db)
                           ∧ (N.succ (next_uuid db) ≤ pizza_id r < n')%N)
       ∧ NoDup (pizza_id <$> rows)
       ∧ (N.succ (next_uuid db) ≤ n')%N
       ∧ (∀ i, dough_stock <$> D !! i
               = (λ s, s - Zsum (pizza_holds db (λ t, dough_needed t i)
                                   <$> filter (λ p, pizza_order_id p = Some c) (pizzas db)))
                 <$> dough_stock_of db i)
       ∧ (∀ i, topping_stock <$> T !! i
               = (λ s, s - Zsum (pizza_holds db (λ t, topping_needed t i)
                                   <$> filter (λ p, pizza_order_id p = Some c) (pizzas db)))
                 <$> topping_stock_of db i)
       ∧ (∀ i, beverage_stock <$> B !! i
               = (λ s, s - Zsum ((λ l, if bool_decide (obq_beverage_id l = i)
                                        then obq_quantity l else 0)
                                   <$> filter (λ l, obq_order_id l = c) (order_beverages db)))
                 <$> beverage_stock_of db i)
       ∧ (∀ i b, B !! i = Some b → 0 ≤ beverage_stock b)).
Proof.
  intros Hok.
  remember (router.create_order u (Some c) db) as res eqn:Hres.
  unfold router.create_order, router.user_is_none in Hres.
  rewrite bind_gets in Hres. cbv beta in Hres.
  destruct (bool_decide (u ∉ users db)); [by left|]. right.
  rewrite (bind_return _ _ _ _ _ (crud_create_order_run db u)) in Hres.
  unfold order_crud.get_order_by_id at 1 in Hres. rewrite bind_gets in Hres.
  cbv beta in Hres. cbn [orders set_orders set_next_uuid] in Hres.
  destruct (find _ (orders db ++ _)) as [template|] eqn:Htemplate.
  2:{ left. cbn [order_id] in Hres.
      by rewrite (bind_return _ _ _ _ _ (delete_new_order_run db u Hok)) in Hres. }
  right. apply find_some in Htemplate as [_ Hc]. apply bool_decide_eq_true in Hc.
  unfold router.pizzas_of, router.beverages_of in Hres. rewrite Hc in Hres.
  rewrite !bind_bind, bind_gets in Hres. cbv beta in Hres.
  cbn [pizzas set_orders set_next_uuid] in Hres.
  destruct (copy_pizzas_outcome (mkOrder (next_uuid db) u TRANSMITTED)
              (filter (λ p, pizza_order_id p = Some c) (pizzas db))
              (set_orders (λ _, orders db ++ [mkOrder (next_uuid db) u TRANSMITTED])
                 (set_next_uuid (λ _, N.succ (next_uuid db)) db)))
    as [[db' Hraise]|(rows & D & T & n' & Hloop1 & Hty & Hr & Hnd & Hn & HD & HT)].
  { apply Hok. }
  { apply Hok. }
  { intros p [_ Hp]%list_elem_of_filter. by apply Hok. }
  { cbn. intros p Hp. pose proof (ok_pizza_fresh _ Hok p Hp). lia. }
  { left. exists db'. by rewrite (bind_raise _ _ _ _ _ Hraise) in Hres. }
  rewrite (bind_return _ _ _ _ _ Hloop1) in Hres.
  rewrite !bind_bind, bind_gets in Hres. cbv beta in Hres.
  cbn [order_beverages set_orders set_next_uuid set_pizzas set_toppings set_doughs]
    in Hres.
  match type of Hres with
  | context [bind (for_each ?ls (router.copy_beverage ?new)) _ ?db1] =>
      destruct (copy_beverages_outcome new ls db1) as [[db' Hraise]|(B & Hloop2 & HB & HBnn)]
  end.
  { apply Hok. }
  { left. exists db'. by rewrite (bind_raise _ _ _ _ _ Hraise) in Hres. }
  right. exists rows, D, T, B, n'.
  rewrite (bind_return _ _ _ _ _ Hloop2) in Hres.
  cbn [next_uuid set_orders set_next_uuid order_id] in Hr, Hn.
  split; [rewrite Hres; unfold ret; do 2 f_equal; store_fields|].
  split; [exact Hty|]. split; [exact Hr|]. split; [exact Hnd|]. split; [exact Hn|].
  split; [exact HD|]. split; [exact HT|]. split; [exact HB | exact HBnn].
Qed.

Lemma store_ok_next db n :
  store_ok db → (next_uuid db ≤ n)%N → store_ok (set_next_uuid (λ _, n) db).
Proof.
  intros [] Hn. constructor; try done; cbn.
  - intros p Hp. pose proof (ok_pizza_fresh0 p Hp). lia.
  - intros o Ho. pose proof (ok_order_fresh0 o Ho). lia.
  - intros p o Hp Hpo. pose proof (ok_pizza_orders0 p o Hp Hpo). lia.
  - intros l Hl. pose proof (ok_line_orders0 l Hl). lia.
Qed.

(** What a pizza row holds depends on the type it refers to only. *)
Lemma pizza_holds_same_types db needed (rows ps : list Pizza) :
  pizza_pizza_type_id <$> rows = pizza_pizza_type_id <$> ps →
  pizza_holds db needed <$> rows = pizza_holds db needed <$> ps.
Proof.
  intros Hty.
  change (pizza_holds db needed)
    with ((λ o : option uuid, match o ≫= λ t, pizza_types db !! t with
                              | Some t => needed t
                              | None => 0
                              end) ∘ pizza_pizza_type_id).
  by rewrite !list_fmap_compose, Hty.
Qed.

(** Copying an order that is not answered 409: the handler answers, the
    store keeps meeting its constraints, and every balance is kept. *)
Lemma serve_copy_order db u c :
  store_ok db →
  well_scoped db (CopyOrder u c) →
  ∃ db', serve (CopyOrder u c) db = Some db' ∧ store_ok db' ∧ balanced db db'.
Proof.
  intros Hok Hscope. cbn in Hscope. unfold serve, handle.
  destruct (create_order_outcome db u c Hok)
    as [Hr|[Hr|[[db' Hr]|(rows & D & T & B & n' & Hr & Hty & Hrows & Hnd & Hn
                          & HD & HT & HB & HBnn)]]];
    [| |by destruct (Hscope db')|];
    rewrite (serve_of_run _ _ _ _ Hr); eexists; (split; [reflexivity|]).
  { split; [done | apply balanced_refl]. }
  { split; [apply store_ok_next; [done | lia] | by intros i]. }
  split.
  - apply store_ok_orders; [apply store_ok_beverages; [apply store_ok_pizzas; [done|..]|..]|].
    + intros i. apply (stock_rows_kept dough_stock (doughs db) D _ i (HD i)).
    + intros i. apply (stock_rows_kept topping_stock (toppings db) T _ i (HT i)).
    + rewrite fmap_app. apply NoDup_app. split; [apply Hok|]. split; [|done].
      intros k (p & -> & Hp)%list_elem_of_fmap (r & Hid & Hin)%list_elem_of_fmap.
      pose proof (ok_pizza_fresh _ Hok p Hp). destruct (Hrows r Hin) as [_ ?]. lia.
    + intros p [Hp|Hp]%elem_of_app.
      * pose proof (ok_pizza_fresh _ Hok p Hp). lia.
      * destruct (Hrows p Hp) as [_ ?]. lia.
    + intros p [Hp|Hp]%elem_of_app; [by apply Hok|].
      apply (list_elem_of_fmap_2 pizza_pizza_type_id) in Hp. rewrite Hty in Hp.
      apply list_elem_of_fmap in Hp as (y & -> & [_ Hy]%list_elem_of_filter).
      by apply Hok.
    + lia.
    + intros p o [Hp|Hp]%elem_of_app Hpo.
      * pose proof (ok_pizza_orders _ Hok p o Hp Hpo). lia.
      * destruct (Hrows p Hp) as [Hpo' _]. rewrite Hpo in Hpo'. injection Hpo' as ->. lia.
    + rewrite fmap_app. apply NoDup_app. split; [apply Hok|]. split.
      * intros k (l & -> & Hl)%list_elem_of_fmap (l' & Hkey & Hl')%list_elem_of_fmap.
        apply list_elem_of_fmap in Hl' as (y & -> & _).
        unfold line_key in Hkey. cbn in Hkey. injection Hkey as Hlo _.
        pose proof (ok_line_orders _ Hok l Hl). lia.
      * rewrite <- list_fmap_compose. apply NoDup_fmap_2_strong.
        -- intros x y [Hxc Hx]%list_elem_of_filter [Hyc Hy]%list_elem_of_filter Hkey.
           unfold line_key in Hkey. cbn in Hkey. injection Hkey as Hb.
           apply (keyed_unique line_key (order_beverages db)); [apply Hok|done..|].
           unfold line_key. congruence.
        -- apply NoDup_filter. apply (NoDup_fmap_1 line_key), Hok.
    + intros l [Hl|Hl]%elem_of_app; [by apply Hok|].
      apply list_elem_of_fmap in Hl as (y & -> & [_ Hy]%list_elem_of_filter).
      cbn. by apply Hok.
    + cbn. intros l [Hl|Hl]%elem_of_app.
      * pose proof (ok_line_orders _ Hok l Hl). lia.
      * apply list_elem_of_fmap in Hl as (y & -> & _). cbn. lia.
    + done.
    + cbn. intros o [Ho|Ho]%elem_of_app.
      * pose proof (ok_order_fresh _ Hok o Ho). lia.
      * apply list_elem_of_singleton in Ho. subst o. cbn. lia.
  - apply balanced_orders.
    eapply balanced_trans; [apply balanced_pizzas | apply balanced_beverages]; intros i.
    + rewrite HD, fmap_app, Zsum_app, (pizza_holds_same_types _ _ _ _ Hty).
      unfold dough_balance, dough_held.
      destruct (dough_stock_of db i); simpl; f_equal; lia.
    + rewrite HT, fmap_app, Zsum_app, (pizza_holds_same_types _ _ _ _ Hty).
      unfold topping_balance, topping_held.
      destruct (topping_stock_of db i); simpl; f_equal; lia.
    + rewrite HB, fmap_app, Zsum_app, <- list_fmap_compose.
      unfold beverage_balance, beverage_held, beverage_stock_of.
      cbn [order_beverages beverages set_next_uuid set_pizzas set_toppings set_doughs].
      unfold compose. cbn [obq_beverage_id obq_quantity].
      destruct (beverages db !! i); simpl; f_equal; lia.
Qed.

Lemma filter_none {A} (P : A → Prop) `{∀ x, Decision (P x)} (xs : list A) :
  (∀ x, x ∈ xs → ¬ P x) → filter P xs = [].
Proof.
  induction xs as [|x xs IH]; intros HP; [done|].
  rewrite filter_cons_False, IH; [done| |].
  - intros y Hy. apply HP. by apply elem_of_cons; right.
  - apply HP, list_elem_of_here.
Qed.

(** X17: the other half of the copy.  When [create_order] with a template returns
    the new order, the pizzas of the new order are, type for type, those
    found under the template's id, its beverage lines are the template's
    lines under the new order's id, the store still meets its constraints,
    and every balance is kept. *)
Lemma create_order_copy_returned db u c new db' :
  store_ok db →
  router.create_order u (Some c) db = Some (Return new, db') →
  new = mkOrder (next_uuid db) u TRANSMITTED
  ∧ pizza_pizza_type_id <$> filter (λ p, pizza_order_id p = Some (order_id new)) (pizzas db')
    = pizza_pizza_type_id <$> filter (λ p, pizza_order_id p = Some c) (pizzas db)
  ∧ filter (λ l, obq_order_id l = order_id new) (order_beverages db')
    = (λ l, mkOrderBeverageQuantity (order_id new) (obq_beverage_id l) (obq_quantity l))
        <$> filter (λ l, obq_order_id l = c) (order_beverages db)
  ∧ store_ok db' ∧ balanced db db'.
Proof.
  intros Hok Hrun.
  assert (well_scoped db (CopyOrder u c)) as Hscope
    by (unfold well_scoped; intros db'' Heq; by rewrite Hrun in Heq).
  destruct (serve_copy_order db u c Hok Hscope) as (db1 & Hserve & Hok1 & Hbal).
  unfold serve, handle in Hserve. rewrite (serve_of_run _ _ _ _ Hrun) in Hserve.
  injection Hserve as <-.
  destruct (create_order_outcome db u c Hok)
    as [Hr|[Hr|[[db1 Hr]|(rows & D & T & B & n' & Hr & Hty & Hrows & _)]]];
    rewrite Hrun in Hr; try discriminate.
  injection Hr as -> ->. split; [done|]. cbn [order_id]. split; [|split; [|done]].
  - cbn [pizzas set_orders set_order_beverages set_beverages set_next_uuid set_pizzas].
    rewrite filter_app, filter_none, (filter_all _ rows), app_nil_l; [done|..].
    + intros r Hr. by destruct (Hrows r Hr).
    + intros p Hp Hpo. pose proof (ok_pizza_orders _ Hok p _ Hp Hpo). lia.
  - cbn [order_beverages set_orders set_order_beverages].
    rewrite filter_app, filter_none, filter_all, app_nil_l; [done|..].
    + intros l (y & -> & _)%list_elem_of_fmap. done.
    + intros l Hl Hlo. pose proof (ok_line_orders _ Hok l Hl). lia.
Qed.

(** ** Conservation over sequences of requests *)

(** A request within the scope of the result is always answered, leaves a
    store that meets the constraints, and keeps every balance. *)
Lemma serve_keeps_balance db r :
  store_ok db → well_scoped db r →
  ∃ db', serve r db = Some db' ∧ store_ok db' ∧ balanced db db'.
Proof.
  intros Hok Hscope. destruct r.
  - by apply serve_add_pizza.
  - by apply serve_remove_pizza.
  - by apply serve_add_beverage_line.
  - by apply serve_update_beverage_line.
  - by apply serve_remove_beverage_line.
  - by apply serve_delete_order.
  - by apply serve_copy_order.
Qed.

(** Stock conservation: along any sequence of pizza additions, pizza
    removals through the pizza's own order, beverage line additions,
    updates and removals, order deletions and order copies not answered 409,
    each served alone, the store keeps meeting its constraints and, for
    every dough, topping and beverage, the stock on the shelf plus the stock
    held by the pizzas and beverage lines in existence stays what it was. *)
Lemma served_keeps_balance db rs db' :
  store_ok db → served db rs db' → store_ok db' ∧ balanced db db'.
Proof.
  intros Hok Hserved. induction Hserved as [db|db r db1 rs db' Hscope Hserve _ IH].
  - split; [done | apply balanced_refl].
  - destruct (serve_keeps_balance db r Hok Hscope) as (db1' & Hserve' & Hok1 & Hbal1).
    rewrite Hserve in Hserve'. injection Hserve' as <-.
    destruct (IH Hok1) as [Hok' Hbal']. split; [done|].
    by eapply balanced_trans.
Qed.


Lemma served_serve_all db rs db' : served db rs db' → serve_all rs db = Some db'.
Proof.
  induction 1 as [db|db r db1 rs db' _ Hserve _ IH]; [done|].
  cbn [serve_all]. by rewrite Hserve.
Qed.

(** ** The scenarios of the specification *)

(** A dough stock of 1 and a topping stock of 2 for a type needing 2: the
    first pizza is added and empties both, the second is answered 409 and
    changes nothing. *)
Example scenario_last_pizza :
  ingredients_are_available margherita db_two_orders = Some (Return true, db_two_orders)
  ∧ (serve_all [AddPizza 100%N 40%N] db_two_orders ≫= λ db,
       Some (dough_stock_of db 10%N, topping_stock_of db 20%N, length (pizzas db)))
    = Some (Some 0, Some 0, 2%nat)
  ∧ (serve_all [AddPizza 100%N 40%N] db_two_orders ≫= λ db,
       fst <$> router.add_pizza_to_order 100%N 40%N db)
    = Some (Return (Status 409))
  ∧ serve_all [AddPizza 100%N 40%N; AddPizza 100%N 40%N] db_two_orders
    = serve_all [AddPizza 100%N 40%N] db_two_orders.
Proof. by vm_compute. Qed.

(** A beverage stock of 10: a line of 5 leaves 5, lowering it to 3 leaves 7,
    raising it to 12 is answered 409 and leaves line and stock alone. *)
Example scenario_beverage_line :
  (serve_all [AddBeverageLine 100%N 30%N 5] db_two_orders ≫= λ db,
     beverage_stock_of db 30%N) = Some 5
  ∧ (serve_all [AddBeverageLine 100%N 30%N 5; UpdateBeverageLine 100%N 30%N 3]
       db_two_orders ≫= λ db, beverage_stock_of db 30%N) = Some 7
  ∧ (serve_all [AddBeverageLine 100%N 30%N 5; UpdateBeverageLine 100%N 30%N 3]
       db_two_orders ≫= λ db,
       fst <$> router.update_beverage_of_order 100%N 30%N 12 db) = Some (Raise 409)
  ∧ serve_all [AddBeverageLine 100%N 30%N 5; UpdateBeverageLine 100%N 30%N 3;
               UpdateBeverageLine 100%N 30%N 12] db_two_orders
    = serve_all [AddBeverageLine 100%N 30%N 5; UpdateBeverageLine 100%N 30%N 3]
        db_two_orders
  ∧ (serve_all [AddBeverageLine 100%N 30%N 5; UpdateBeverageLine 100%N 30%N 3]
       db_two_orders ≫= λ db,
       find (order_crud.is_line 100%N 30%N) (order_beverages db))
    = Some (mkOrderBeverageQuantity 100%N 30%N 3).
Proof. by vm_compute. Qed.

(** The store of these scenarios meets the constraints of the conservation
    result. *)
Lemma db_two_orders_ok : store_ok db_two_orders.
Proof.
  constructor; cbn.
  - apply NoDup_singleton.
  - intros p ->%list_elem_of_singleton. by cbn.
  - intros p ->%list_elem_of_singleton. by eexists.
  - intros k t [<- <-]%lookup_singleton_Some. done.
  - intros k t [<- <-]%lookup_singleton_Some. split; [by eexists|].
    repeat constructor. by eexists.
  - intros o [->| ->%list_elem_of_singleton]%elem_of_cons; by cbn.
  - intros p o ->%list_elem_of_singleton [= <-]. done.
  - intros l ->%list_elem_of_singleton. by cbn.
  - unfold lines_keyed. cbn. apply NoDup_singleton.
  - intros l ->%list_elem_of_singleton. cbn. lia.
  - intros i b [<- <-]%lookup_singleton_Some. cbn. lia.
Qed.


(** Requests that are within scope on any store. *)
Lemma serve_all_served rs db db' :
  Forall (λ r, match r with RemovePizza _ _ | CopyOrder _ _ => False | _ => True end) rs →
  serve_all rs db = Some db' → served db rs db'.
Proof.
  intros Hrs. revert db. induction Hrs as [|r rs Hr _ IH]; intros db.
  - intros [= <-]. constructor.
  - cbn [serve_all]. destruct (serve r db) as [db1|] eqn:Hserve; [|done].
    cbn. intros Hrest. apply (served_cons db r db1); [by destruct r | done | by apply IH].
Qed.

(** Conservation at work: a pizza and a beverage line are added to order
    100, the line is lowered, and order 101 is deleted; every balance is
    what it was. *)
Example conservation_on_two_orders :
  ∃ db',
    serve_all [AddPizza 100%N 40%N; AddBeverageLine 100%N 30%N 5;
               UpdateBeverageLine 100%N 30%N 3; DeleteOrder 101%N] db_two_orders
    = Some db'
    ∧ store_ok db' ∧ balanced db_two_orders db'.
Proof.
  destruct (serve_all [AddPizza 100%N 40%N; AddBeverageLine 100%N 30%N 5;
                       UpdateBeverageLine 100%N 30%N 3; DeleteOrder 101%N] db_two_orders)
    as [db'|] eqn:Hrun; [|by vm_compute in Hrun].
  exists db'. split; [done|].
  eapply served_keeps_balance; [exact db_two_orders_ok|].
  apply serve_all_served; [|exact Hrun].
  repeat (apply Forall_cons; split; [exact I|]). by apply Forall_nil.
Qed.


(** ** Where stock and order lines part *)

(** C3, at a failing input: order 100 is asked to remove pizza 200, which
    belongs to order 101.  The answer is 404 and the pizza row stays, but
    the dough and the topping of the pizza's type have been incremented. *)
Theorem delete_pizza_from_order_cross_order :
  router.delete_pizza_from_order 100%N 200%N db_two_orders
    = Some (Return (Status 404),
            set_toppings (λ _, {[ 20%N := mkTopping 50 4 ]})
              (set_doughs (λ _, {[ 10%N := mkDough 100 2 ]}) db_two_orders))
  ∧ dough_stock_of db_two_orders 10%N = Some 1
  ∧ topping_stock_of db_two_orders 20%N = Some 2.
Proof. by vm_compute. Qed.

(** C2, at a failing input: copying the template order 101 (two pizzas of
    one type) when one dough is left.  The first pizza is copied and its
    ingredients are taken; the second fails the availability check, the new
    order is deleted together with the pizza copied so far, and 409 is
    raised; but the dough and the toppings taken for the first pizza are
    not given back. *)
Theorem create_order_copy_keeps_partial_consumption :
  router.create_order 1%N (Some 101%N) db_template
    = Some (Raise 409,
            set_next_uuid (λ _, 1002%N)
              (set_toppings (λ _, {[ 20%N := mkTopping 50 2 ]})
                 (set_doughs (λ _, {[ 10%N := mkDough 100 0 ]}) db_template)))
  ∧ dough_stock_of db_template 10%N = Some 1
  ∧ topping_stock_of db_template 20%N = Some 4.
Proof. by vm_compute. Qed.

(** C1, at a failing input: after the single request "remove pizza 200
    from order 100" (the pizza is a line of order 101, which keeps it) the
    dough on the shelf plus the dough held by order lines has grown from 2
    to 3, and the topping balance from 4 to 6; likewise the failed copy of
    order 101 lowers the dough balance from 3 to 2. *)
Theorem serve_all_breaks_balance :
  serve_all [RemovePizza 100%N 200%N] db_two_orders
    = Some (set_toppings (λ _, {[ 20%N := mkTopping 50 4 ]})
              (set_doughs (λ _, {[ 10%N := mkDough 100 2 ]}) db_two_orders))
  ∧ dough_balance db_two_orders 10%N = Some 2
  ∧ (serve_all [RemovePizza 100%N 200%N] db_two_orders ≫= λ db, dough_balance db 10%N)
    = Some 3
  ∧ topping_balance db_two_orders 20%N = Some 4
  ∧ (serve_all [RemovePizza 100%N 200%N] db_two_orders ≫= λ db, topping_balance db 20%N)
    = Some 6
  ∧ dough_balance db_template 10%N = Some 3
  ∧ (serve_all [CopyOrder 1%N 101%N] db_template ≫= λ db, dough_balance db 10%N)
    = Some 2.
Proof. by vm_compute. Qed.

(** ** The theorems at concrete inputs *)

(** Order 100's margherita can be made from a dough stock of 1 and a
    topping stock of 2. *)
Lemma ingredients_are_available_iff_witness :
  ingredients_are_available margherita db_two_orders = Some (Return true, db_two_orders).
Proof.
  destruct (ingredients_are_available_iff margherita db_two_orders (mkDough 100 1))
    as (b & Hrun & Hb).
  - reflexivity.
  - repeat constructor. by eexists.
  - simpl. lia.
  - rewrite Hrun. assert (b = true) as ->; [|reflexivity].
    apply Hb. split; [simpl; lia|].
    repeat constructor. eexists. split; [reflexivity|]. simpl. lia.
Defined.

(** Taking 12 from a stock of 10 is refused and changes nothing. *)
Lemma change_stock_of_beverage_bounded_witness :
  change_stock_of_beverage 30%N (-12) db_two_orders = Some (Return false, db_two_orders).
Proof.
  refine (proj1 (change_stock_of_beverage_bounded db_two_orders 30%N (mkBeverage 350 10)
                   (-12) _ _) _ _).
  - reflexivity.
  - simpl. lia.
  - lia.
  - simpl. lia.
Defined.

(** Stock 10, a line of 3: asking for 14 would need 11 more than the line
    holds, so the update is refused and nothing moves. *)
Lemma update_beverage_of_order_semantics_witness :
  router.update_beverage_of_order 101%N 30%N 14 db_two_orders
    = Some (Raise 409, db_two_orders).
Proof.
  destruct (update_beverage_of_order_semantics db_two_orders 101%N 30%N
              (mkOrder 101%N 1%N PREPARING) (mkOrderBeverageQuantity 101%N 30%N 3)
              (mkBeverage 350 10) 14)
    as (ok & db1 & _ & Hiff & Hrefused & _).
  - reflexivity.
  - reflexivity.
  - reflexivity.
  - lia.
  - apply Hrefused, Hiff. simpl. lia.
Defined.

(** One pizza at 12.99 and three beverages at 3.50: 23.49. *)
Lemma get_price_of_order_formula_witness :
  order_crud.get_price_of_order 101%N db_two_orders = Some (Return 2349, db_two_orders).
Proof.
  refine (proj1 (get_price_of_order_formula db_two_orders (mkOrder 101%N 1%N PREPARING) _ _)).
  - unfold orders_keyed. simpl. by apply (bool_decide_unpack _).
  - simpl. repeat constructor.
Defined.

Lemma create_order_beverage_duplicate_redirects_witness :
  router.create_order_beverage 101%N 30%N 2 db_two_orders
    = Some (Return (RedirectResponse 101%N 303), db_two_orders).
Proof.
  refine (proj1 (create_order_beverage_duplicate_redirects db_two_orders 101%N 30%N 2
                   (mkOrder 101%N 1%N PREPARING) (mkBeverage 350 10)
                   (mkOrderBeverageQuantity 101%N 30%N 3) _ _ _ _)).
  - reflexivity.
  - lia.
  - reflexivity.
  - reflexivity.
Defined.

Lemma get_price_of_order_empty_witness :
  router.get_price_of_order 100%N db_two_orders = Some (Return (Body 0), db_two_orders).
Proof.
  refine (proj2 (proj2 (get_price_of_order_empty db_two_orders
                          (mkOrder 100%N 1%N TRANSMITTED) _ _ _))).
  - simpl. repeat constructor.
  - reflexivity.
  - reflexivity.
Defined.

(** * Further properties of the endpoints *)

(** ** The status of an order *)

Lemma find_map_same_test {A} (p : A → bool) (f : A → A) (xs : list A) :
  (∀ x, p (f x) = p x) → find p (map f xs) = f <$> find p xs.
Proof.
  intros Hp. induction xs as [|x xs IH]; [done|].
  cbn [map find]. rewrite Hp. by destruct (p x).
Qed.

Lemma crud_update_order_status_run db order changed_order :
  order_crud.update_order_status order changed_order db
  = Some (Return (mkOrder (order_id order) (order_user_id order) changed_order),
          set_orders
            (map (λ o, if bool_decide (order_id o = order_id order)
                       then mkOrder (order_id order) (order_user_id order) changed_order
                       else o)) db).
Proof. done. Qed.

Lemma get_order_after_update db order changed_order j :
  find (λ x, bool_decide (order_id x = j))
       (map (λ o, if bool_decide (order_id o = order_id order)
                  then mkOrder (order_id order) (order_user_id order) changed_order
                  else o) (orders db))
  = (λ o, if bool_decide (order_id o = order_id order)
          then mkOrder (order_id order) (order_user_id order) changed_order
          else o) <$> find (λ x, bool_decide (order_id x = j)) (orders db).
Proof.
  apply find_map_same_test. intros x.
  destruct (decide (order_id x = order_id order)) as [Hx|Hx].
  - rewrite (bool_decide_eq_true_2 _ Hx). cbn. by rewrite Hx.
  - by rewrite (bool_decide_eq_false_2 _ Hx).
Qed.

(** X1: [router.update_order_status] answers 404 (raised) for an unknown
    order whatever the status string, 422 (raised) for a known order and a
    string that names no status, both without touching the store; otherwise
    it answers 204 whatever the order's current status, after which
    [get_order] shows the order with the new status, every other order id is
    answered as before and no stock, pizza or beverage line has changed. *)
Theorem update_order_status_outcome db order_id' (order_status' : option OrderStatus) :
  match find (λ x, bool_decide (order_id x = order_id')) (orders db), order_status' with
  | None, _ => router.update_order_status order_id' order_status' db = Some (Raise 404, db)
  | Some _, None => router.update_order_status order_id' order_status' db = Some (Raise 422, db)
  | Some order, Some new_status =>
      ∃ db',
        router.update_order_status order_id' order_status' db
          = Some (Return (Status 204), db')
        ∧ router.get_order order_id' db'
          = Some (Return (Body (mkOrder order_id' (order_user_id order) new_status)), db')
        ∧ (∀ j, j ≠ order_id' →
             fst <$> router.get_order j db' = fst <$> router.get_order j db)
        ∧ order_id <$> orders db' = order_id <$> orders db
        ∧ doughs db' = doughs db ∧ toppings db' = toppings db
        ∧ beverages db' = beverages db ∧ pizzas db' = pizzas db
        ∧ order_beverages db' = order_beverages db
  end.
Proof.
  unfold router.update_order_status, order_crud.get_order_by_id. rewrite bind_gets.
  destruct (find _ (orders db)) as [order|] eqn:Ho; [|done].
  destruct order_status' as [new_status|]; [|done].
  destruct (find_order_Some _ _ _ Ho) as [_ Hoid].
  rewrite (bind_return _ _ _ _ _ (crud_update_order_status_run db order new_status)).
  eexists. split; [reflexivity|].
  unfold router.get_order, order_crud.get_order_by_id.
  split; [|split; [|split]].
  - rewrite bind_gets. cbn [orders set_orders].
    rewrite get_order_after_update, Ho. cbn. rewrite <- Hoid.
    by rewrite (bool_decide_eq_true_2 _ (eq_refl (order_id order))).
  - intros j Hj. rewrite !bind_gets. cbn [orders set_orders].
    rewrite get_order_after_update.
    destruct (find (λ x, bool_decide (order_id x = j)) (orders db)) as [x|] eqn:Hx; [|done].
    destruct (find_order_Some _ _ _ Hx) as [_ Hxid]. cbn [fmap option_fmap option_map].
    rewrite (bool_decide_eq_false_2 (order_id x = order_id order)); [done|congruence].
  - cbn [orders set_orders]. rewrite <- list_fmap_compose.
    apply list_fmap_ext. intros _ x _. cbn. by case_bool_decide.
  - done.
Qed.

Lemma status_enums_of_Some statuses status_enums :
  router.status_enums_of statuses = Some status_enums ↔ statuses = Some <$> status_enums.
Proof.
  revert status_enums. induction statuses as [|[s|] rest IH]; intros enums; cbn.
  - split; [intros [= <-]; done|]. by destruct enums.
  - destruct (router.status_enums_of rest) as [enums'|]; cbn.
    + split.
      * intros [= <-]. cbn. f_equal. by apply IH.
      * destruct enums as [|e enums]; [done|]. intros [= -> Hrest].
        apply IH in Hrest as [= ->]. done.
    + split; [done|]. destruct enums as [|e enums]; [done|]. intros [= -> Hrest].
      by apply IH in Hrest.
  - split; [done|]. by destruct enums.
Qed.

Lemma status_enums_of_None statuses :
  router.status_enums_of statuses = None ↔ None ∈ statuses.
Proof.
  induction statuses as [|[s|] rest IH]; cbn.
  - split; [done|]. by intros ?%elem_of_nil.
  - destruct (router.status_enums_of rest); cbn.
    + split; [done|]. intros [?|Hin]%elem_of_cons; [done|]. by apply IH in Hin.
    + split; [|done]. intros _. apply elem_of_cons. right. by apply IH.
  - split; [|done]. intros _. apply list_elem_of_here.
Qed.

(** X2: [router.get_orders_by_status] returns every order when no status
    is given (no parameter, or an empty list); raises 400 as soon as one of
    the given strings names no status, even if the others do; and otherwise
    returns, in stored order, exactly the orders whose status is one of those
    given.  It never changes the store. *)
Theorem get_orders_by_status_outcome db (statuses : option (list (option OrderStatus))) :
  match statuses with
  | None | Some [] =>
      router.get_orders_by_status statuses db = Some (Return (orders db), db)
  | Some given =>
      (None ∈ given ∧ router.get_orders_by_status statuses db = Some (Raise 400, db))
      ∨ ((None ∉ given)
         ∧ ∃ entities,
             router.get_orders_by_status statuses db = Some (Return entities, db)
             ∧ entities = filter (λ o, Some (order_status o) ∈ given) (orders db)
             ∧ ∀ o, o ∈ entities ↔ o ∈ orders db ∧ Some (order_status o) ∈ given)
  end.
Proof.
  destruct statuses as [[|s given]|]; [done| |done].
  unfold router.get_orders_by_status.
  destruct (router.status_enums_of (s :: given)) as [enums|] eqn:Henums.
  - right. split.
    { intros Hin. apply status_enums_of_None in Hin. congruence. }
    apply status_enums_of_Some in Henums.
    destruct enums as [|e enums]; [done|].
    eexists. split; [reflexivity|]. rewrite Henums.
    assert (∀ o : Order, order_status o ∈ e :: enums
                         ↔ Some (order_status o) ∈ Some <$> (e :: enums)) as Hmem.
    { intros o. split.
      - apply (list_elem_of_fmap_2 Some).
      - intros (y & [= <-] & Hy)%list_elem_of_fmap. done. }
    split.
    + apply list_filter_iff. intros o. apply Hmem.
    + intros o. rewrite list_elem_of_filter, Hmem. tauto.
  - left. split; [by apply status_enums_of_None|done].
Qed.

Lemma updated_orders_elem (order : Order) changed_order (os : list Order) o :
  order ∈ os →
  o ∈ map (λ x, if bool_decide (order_id x = order_id order)
                then mkOrder (order_id order) (order_user_id order) changed_order
                else x) os
  ↔ o = mkOrder (order_id order) (order_user_id order) changed_order
    ∨ (o ∈ os ∧ order_id o ≠ order_id order).
Proof.
  intros Hin. split.
  - intros (x & -> & Hx)%list_elem_of_fmap.
    destruct (decide (order_id x = order_id order)) as [Heq|Hne].
    + left. by rewrite (bool_decide_eq_true_2 _ Heq).
    + right. by rewrite (bool_decide_eq_false_2 _ Hne).
  - intros [->|[Ho Hne]].
    + apply list_elem_of_fmap. exists order. split; [|done].
      by rewrite (bool_decide_eq_true_2 _ (eq_refl (order_id order))).
    + apply list_elem_of_fmap. exists o. split; [|done].
      by rewrite (bool_decide_eq_false_2 _ Hne).
Qed.

(** X3: once [router.update_order_status] has set an order's status, the
    stored orders are the former ones with that order alone replaced; the
    order is listed by [get_orders_by_statuses] exactly under the filters
    that contain its new status, belongs to its user's order history exactly
    if the new status is COMPLETED and to the user's open orders exactly if
    it is not. *)
Theorem update_order_status_listed db i order st :
  find (λ x, bool_decide (order_id x = i)) (orders db) = Some order →
  ∃ db' history open,
    router.update_order_status i (Some st) db = Some (Return (Status 204), db')
    ∧ (∀ o, o ∈ orders db'
            ↔ o = mkOrder i (order_user_id order) st ∨ (o ∈ orders db ∧ order_id o ≠ i))
    ∧ (∀ given entities,
         given ≠ [] →
         order_crud.get_orders_by_statuses (Some given) db' = Some (Return entities, db') →
         (mkOrder i (order_user_id order) st ∈ entities ↔ st ∈ given))
    ∧ user_crud.get_order_history_of_user (order_user_id order) db'
      = Some (Return history, db')
    ∧ user_crud.get_open_orders_of_user (order_user_id order) db'
      = Some (Return open, db')
    ∧ (mkOrder i (order_user_id order) st ∈ history ↔ st = COMPLETED)
    ∧ (mkOrder i (order_user_id order) st ∈ open ↔ st ≠ COMPLETED).
Proof.
  intros Ho. destruct (find_order_Some _ _ _ Ho) as [Hin <-].
  unfold router.update_order_status, order_crud.get_order_by_id.
  rewrite bind_gets, Ho.
  rewrite (bind_return _ _ _ _ _ (crud_update_order_status_run db order st)).
  pose proof (updated_orders_elem order st (orders db)) as Helem.
  assert (mkOrder (order_id order) (order_user_id order) st
          ∈ map (λ x, if bool_decide (order_id x = order_id order)
                      then mkOrder (order_id order) (order_user_id order) st
                      else x) (orders db)) as Hnew.
  { apply Helem; [done|by left]. }
  eexists _, _, _. split; [reflexivity|].
  split; [intros o; by apply Helem|].
  split; [|split; [reflexivity|split; [reflexivity|split]]].
  - intros given entities Hgiven. destruct given as [|g given]; [done|].
    cbn. intros [= <-]. rewrite list_elem_of_filter. cbn. tauto.
  - rewrite list_elem_of_filter. cbn. tauto.
  - rewrite list_elem_of_filter. cbn. tauto.
Qed.

Lemma update_order_status_listed_witness :
  ∃ db' history open,
    router.update_order_status 101%N (Some COMPLETED) db_two_orders
      = Some (Return (Status 204), db')
    ∧ (∀ o, o ∈ orders db'
            ↔ o = mkOrder 101%N 1%N COMPLETED
              ∨ (o ∈ orders db_two_orders ∧ order_id o ≠ 101%N))
    ∧ (∀ given entities,
         given ≠ [] →
         order_crud.get_orders_by_statuses (Some given) db' = Some (Return entities, db') →
         (mkOrder 101%N 1%N COMPLETED ∈ entities ↔ COMPLETED ∈ given))
    ∧ user_crud.get_order_history_of_user 1%N db' = Some (Return history, db')
    ∧ user_crud.get_open_orders_of_user 1%N db' = Some (Return open, db')
    ∧ (mkOrder 101%N 1%N COMPLETED ∈ history ↔ COMPLETED = COMPLETED)
    ∧ (mkOrder 101%N 1%N COMPLETED ∈ open ↔ COMPLETED ≠ COMPLETED).
Proof.
  apply (update_order_status_listed db_two_orders 101%N (mkOrder 101%N 1%N PREPARING)
           COMPLETED).
  reflexivity.
Defined.

(** X4: the completed and the open orders of a user split the user's orders:
    together they are the user's orders, no order is in both, and the open
    orders of a user are the user's share of [get_all_not_completed_orders].
    None of the three queries changes the store. *)
Theorem user_orders_partition db user_id :
  ∃ history open not_completed,
    user_crud.get_order_history_of_user user_id db = Some (Return history, db)
    ∧ user_crud.get_open_orders_of_user user_id db = Some (Return open, db)
    ∧ user_crud.get_all_not_completed_orders db = Some (Return not_completed, db)
    ∧ history ++ open ≡ₚ filter (λ o, order_user_id o = user_id) (orders db)
    ∧ (∀ o, o ∈ history → o ∉ open)
    ∧ open = filter (λ o, order_user_id o = user_id) not_completed.
Proof.
  eexists _, _, _. split; [reflexivity|]. split; [reflexivity|]. split; [reflexivity|].
  split; [|split].
  - rewrite <- (filter_app_complement (λ o, order_status o = COMPLETED)
                  (filter (λ o, order_user_id o = user_id) (orders db))).
    rewrite !list_filter_filter.
    f_equiv; apply reflexive_eq, list_filter_iff; intros o; tauto.
  - intros o [[_ Hdone] _]%list_elem_of_filter [[_ Hopen] _]%list_elem_of_filter. done.
  - rewrite list_filter_filter. apply list_filter_iff. intros o. tauto.
Qed.

(** ** Creating an order *)

Lemma user_is_none_run db u :
  router.user_is_none u db = Some (Return (bool_decide (u ∉ users db)), db).
Proof. done. Qed.

Lemma no_pizzas_of_next db :
  store_ok db →
  filter (λ p, pizza_order_id p = Some (next_uuid db)) (pizzas db) = [].
Proof.
  intros Hok. apply filter_none. intros p Hp Hpo.
  pose proof (ok_pizza_orders _ Hok p _ Hp Hpo). lia.
Qed.

Lemma no_lines_of_next db :
  store_ok db →
  filter (λ l, obq_order_id l = next_uuid db) (order_beverages db) = [].
Proof.
  intros Hok. apply filter_none. intros l Hl Hlo.
  pose proof (ok_line_orders _ Hok l Hl). lia.
Qed.

(** X5: [router.create_order] without a template raises 404 for an unknown
    user and leaves the store as it is; for a known user it appends one
    order, in status TRANSMITTED and under an identifier no row used before,
    which [get_order] then returns, which holds no pizza and no beverage
    line, costs 0, and whose creation moved no stock. *)
Theorem create_order_plain db user_id :
  store_ok db →
  (user_id ∉ users db → router.create_order user_id None db = Some (Raise 404, db))
  ∧ (user_id ∈ users db →
     ∃ db',
       router.create_order user_id None db
         = Some (Return (mkOrder (next_uuid db) user_id TRANSMITTED), db')
       ∧ orders db' = orders db ++ [mkOrder (next_uuid db) user_id TRANSMITTED]
       ∧ (∀ o, o ∈ orders db → order_id o ≠ next_uuid db)
       ∧ router.get_order (next_uuid db) db'
         = Some (Return (Body (mkOrder (next_uuid db) user_id TRANSMITTED)), db')
       ∧ router.get_pizzas_from_order (next_uuid db) db' = Some (Return (Body []), db')
       ∧ router.get_order_beverages (next_uuid db) false db' = Some (Return (Body []), db')
       ∧ router.get_price_of_order (next_uuid db) db' = Some (Return (Body 0), db')
       ∧ doughs db' = doughs db ∧ toppings db' = toppings db
       ∧ beverages db' = beverages db ∧ pizzas db' = pizzas db
       ∧ order_beverages db' = order_beverages db).
Proof.
  intros Hok. unfold router.create_order.
  rewrite (bind_return _ _ _ _ _ (user_is_none_run db user_id)).
  split; intros Hu.
  { by rewrite (bool_decide_eq_true_2 _ Hu). }
  rewrite bool_decide_eq_false_2 by (by intros H; apply H).
  rewrite (bind_return _ _ _ _ _ (crud_create_order_run db user_id)).
  eexists. split; [reflexivity|]. split; [reflexivity|].
  assert (find (λ o, bool_decide (order_id o = next_uuid db))
               (orders db ++ [mkOrder (next_uuid db) user_id TRANSMITTED])
          = Some (mkOrder (next_uuid db) user_id TRANSMITTED)) as Hfind.
  { apply find_app_new; [apply Hok|done]. }
  split.
  { intros o Ho. pose proof (ok_order_fresh _ Hok o Ho). lia. }
  unfold router.get_order, router.get_pizzas_from_order, router.get_order_beverages,
    router.get_price_of_order, order_crud.get_order_by_id.
  rewrite !bind_gets. cbn [orders pizzas order_beverages set_orders set_next_uuid].
  rewrite Hfind.
  split; [done|]. split; [|split; [|split; [|done]]].
  - unfold order_crud.get_all_pizzas_of_order. rewrite bind_gets.
    cbn [order_id pizzas set_orders set_next_uuid].
    by rewrite (no_pizzas_of_next db Hok).
  - unfold router.beverages_of. rewrite bind_gets.
    cbn [order_id order_beverages set_orders set_next_uuid].
    by rewrite (no_lines_of_next db Hok).
  - erewrite bind_return by apply get_price_of_order_run.
    rewrite pizza_price_rows_empty, beverage_price_rows_empty; [done| |].
    + exact (no_lines_of_next db Hok).
    + exact (no_pizzas_of_next db Hok).
Qed.

Lemma create_order_plain_witness :
  ∃ db',
    router.create_order 1%N None db_two_orders
      = Some (Return (mkOrder 1000%N 1%N TRANSMITTED), db')
    ∧ router.get_price_of_order 1000%N db' = Some (Return (Body 0), db').
Proof.
  destruct (proj2 (create_order_plain db_two_orders 1%N db_two_orders_ok))
    as (db' & Hrun & _ & _ & _ & _ & _ & Hprice & _).
  - cbn. by apply elem_of_singleton.
  - exists db'. split; [exact Hrun | exact Hprice].
Defined.

Lemma find_app_None {A} (p : A → bool) (xs ys : list A) :
  find p xs = None → find p (xs ++ ys) = find p ys.
Proof.
  induction xs as [|x xs IH]; [done|]. cbn. by destruct (p x).
Qed.

(** X6: [router.create_order] with the id of a template that does not exist
    raises 404 after having created the new order and deleted it again: no
    order, pizza, beverage line or stock count differs from before. *)
Theorem create_order_unknown_template db user_id copy_order_id :
  store_ok db →
  user_id ∈ users db →
  find (λ o, bool_decide (order_id o = copy_order_id)) (orders db) = None →
  copy_order_id ≠ next_uuid db →
  ∃ db',
    router.create_order user_id (Some copy_order_id) db = Some (Raise 404, db')
    ∧ orders db' = orders db ∧ pizzas db' = pizzas db
    ∧ order_beverages db' = order_beverages db
    ∧ doughs db' = doughs db ∧ toppings db' = toppings db ∧ beverages db' = beverages db.
Proof.
  intros Hok Hu Hnone Hnext. unfold router.create_order.
  rewrite (bind_return _ _ _ _ _ (user_is_none_run db user_id)).
  rewrite bool_decide_eq_false_2 by (by intros H; apply H).
  rewrite (bind_return _ _ _ _ _ (crud_create_order_run db user_id)).
  unfold order_crud.get_order_by_id at 1. rewrite bind_gets.
  cbn [orders set_orders set_next_uuid].
  rewrite (find_app_None _ _ _ Hnone). cbn [find order_id].
  rewrite bool_decide_eq_false_2 by done.
  rewrite (bind_return _ _ _ _ _ (delete_new_order_run db user_id Hok)).
  by eexists.
Qed.

Lemma create_order_unknown_template_witness :
  ∃ db',
    router.create_order 1%N (Some 7%N) db_two_orders = Some (Raise 404, db')
    ∧ orders db' = orders db_two_orders ∧ pizzas db' = pizzas db_two_orders
    ∧ order_beverages db' = order_beverages db_two_orders
    ∧ doughs db' = doughs db_two_orders ∧ toppings db' = toppings db_two_orders
    ∧ beverages db' = beverages db_two_orders.
Proof.
  apply (create_order_unknown_template db_two_orders 1%N 7%N db_two_orders_ok).
  - cbn. by apply elem_of_singleton.
  - reflexivity.
  - cbn. lia.
Defined.

(** ** Adding and removing a pizza *)

(** How [router.add_pizza_to_order] ends on a store that meets its
    constraints, with the answer of each case. *)
Lemma add_pizza_to_order_cases db o t :
  store_ok db →
  (router.add_pizza_to_order o t db = Some (Return (Status 404), db)
   ∧ (find (λ x, bool_decide (order_id x = o)) (orders db) = None
      ∨ pizza_types db !! t = None))
  ∨ (router.add_pizza_to_order o t db = Some (Return (Status 409), db)
     ∧ ∃ pizza_type,
         pizza_types db !! t = Some pizza_type
         ∧ ingredients_are_available pizza_type db = Some (Return false, db))
  ∨ (∃ order pizza_type D T,
       find (λ x, bool_decide (order_id x = o)) (orders db) = Some order
       ∧ pizza_types db !! t = Some pizza_type
       ∧ ingredients_are_available pizza_type db = Some (Return true, db)
       ∧ (∀ i, dough_stock <$> D !! i
               = (λ s, s - dough_needed pizza_type i) <$> dough_stock_of db i)
       ∧ (∀ i, topping_stock <$> T !! i
               = (λ s, s - topping_needed pizza_type i) <$> topping_stock_of db i)
       ∧ router.add_pizza_to_order o t db
         = Some (Return (Body (mkPizza (next_uuid db) (Some o) (Some t))),
                 set_next_uuid (λ _, N.succ (next_uuid db))
                   (set_pizzas
                      (λ _, pizzas db ++ [mkPizza (next_uuid db) (Some o) (Some t)])
                      (set_toppings (λ _, T) (set_doughs (λ _, D) db))))).
Proof.
  intros Hok. unfold router.add_pizza_to_order, order_crud.get_order_by_id.
  rewrite bind_gets.
  destruct (find _ (orders db)) as [order|] eqn:Ho; [|left; split; [done|by left]].
  rewrite bind_gets.
  destruct (pizza_types db !! t) as [pizza_type|] eqn:Ht; [|left; split; [done|by right]].
  destruct (ok_type_rows _ Hok _ _ Ht) as [[d Hd] Hres].
  destruct (ingredients_are_available_nonzero _ _ _ Hd Hres) as (b & Havail & _).
  rewrite (bind_return _ _ _ _ _ Havail).
  destruct b; cbn [negb]; [|right; left; split; [done|by exists pizza_type]].
  destruct (reduce_stock_of_ingredients_run pizza_type db) as (D & T & Hrun & HD & HT);
    [by eexists | done |].
  rewrite (bind_return _ _ _ _ _ Hrun).
  right. right. exists order, pizza_type, D, T. repeat split; try done.
  destruct (find_order_Some _ _ _ Ho) as [_ Hoid].
  unfold order_crud.add_pizza_to_order, order_crud.create_pizza, uuid4.
  unfold_monad. cbn. rewrite Hoid, (ok_type_ids _ Hok _ _ Ht).
  do 2 f_equal. store_fields.
  rewrite map_app, attach_fresh_pizza by apply Hok.
  cbn [map]. by rewrite bool_decide_eq_true_2.
Qed.



Lemma Zsum_no_row (i : uuid) (tqs : list PizzaTypeToppingQuantity) :
  i ∉ tq_topping_id <$> tqs →
  Zsum ((λ tq, if bool_decide (tq_topping_id tq = i) then tq_quantity tq else 0) <$> tqs) = 0.
Proof.
  induction tqs as [|tq tqs IH]; [done|].
  rewrite fmap_cons, not_elem_of_cons. intros [Hne Hnot].
  rewrite fmap_cons, Zsum_cons, IH by done.
  rewrite bool_decide_eq_false_2 by done. lia.
Qed.

(** With one row per topping, what a pizza type needs of a topping is what
    the availability check compared with the stock. *)
Lemma topping_needed_bounded db (tqs : list PizzaTypeToppingQuantity) i t0 :
  NoDup (tq_topping_id <$> tqs) →
  toppings_in_stock db tqs →
  toppings db !! i = Some t0 →
  0 ≤ topping_stock t0 →
  Zsum ((λ tq, if bool_decide (tq_topping_id tq = i) then tq_quantity tq else 0) <$> tqs)
  ≤ topping_stock t0.
Proof.
  intros Hnd Hin Ht0 Hnn. induction tqs as [|tq tqs IH]; [done|].
  rewrite fmap_cons in Hnd. apply NoDup_cons in Hnd as [Hfresh Hnd].
  apply Forall_cons in Hin as [(t1 & Ht1 & Hq) Hin].
  rewrite fmap_cons, Zsum_cons.
  destruct (decide (tq_topping_id tq = i)) as [Heq|Hne].
  - rewrite (bool_decide_eq_true_2 _ Heq), Zsum_no_row by congruence.
    rewrite Heq, Ht0 in Ht1. injection Ht1 as <-. lia.
  - rewrite (bool_decide_eq_false_2 _ Hne). specialize (IH Hnd Hin). lia.
Qed.

(** X8: where no dough or topping is counted below zero and every pizza
    type has one row per topping at most, [router.add_pizza_to_order] leaves
    no dough or topping counted below zero, whatever it answers: the
    availability check covers everything the stock reduction takes. *)
Theorem add_pizza_to_order_stock_nonneg db o t r db' :
  store_ok db →
  ingredient_stock_nonneg db →
  topping_rows_keyed db →
  router.add_pizza_to_order o t db = Some (r, db') →
  ingredient_stock_nonneg db'.
Proof.
  intros Hok [Hdnn Htnn] Hkeyed Hrun.
  destruct (add_pizza_to_order_cases db o t Hok)
    as [[Hr _]|[[Hr _]|(order & pizza_type & D & T & Ho & Ht & Hav & HD & HT & Hr)]];
    rewrite Hr in Hrun; injection Hrun as <- <-; [done|done|].
  destruct (ok_type_rows _ Hok _ _ Ht) as [[d Hd] Hres].
  destruct (ingredients_are_available_nonzero _ _ _ Hd Hres) as (b & Hav' & Hiff).
  rewrite Hav in Hav'. injection Hav' as <-.
  destruct (proj1 Hiff eq_refl) as [Hd0 Hstock].
  split; cbn [doughs toppings set_next_uuid set_pizzas set_toppings set_doughs].
  - intros i d' Hd'. specialize (HD i). rewrite Hd' in HD. unfold dough_stock_of in HD.
    destruct (doughs db !! i) as [d0|] eqn:Hd0'; [|done].
    injection HD as ->. pose proof (Hdnn _ _ Hd0'). unfold dough_needed.
    case_bool_decide as Hi; [|lia].
    rewrite Hi, Hd0' in Hd. injection Hd as <-. lia.
  - intros i t' Ht'. specialize (HT i). rewrite Ht' in HT. unfold topping_stock_of in HT.
    destruct (toppings db !! i) as [t0|] eqn:Ht0; [|done].
    injection HT as ->. pose proof (Htnn _ _ Ht0).
    pose proof (topping_needed_bounded db _ i t0 (Hkeyed _ _ Ht) Hstock Ht0).
    unfold topping_needed. lia.
Qed.

Lemma add_pizza_to_order_stock_nonneg_witness :
  ∃ db',
    router.add_pizza_to_order 100%N 40%N db_two_orders
      = Some (Return (Body (mkPizza 1000%N (Some 100%N) (Some 40%N))), db')
    ∧ ingredient_stock_nonneg db'.
Proof.
  eexists. split; [vm_compute; reflexivity|].
  eapply (add_pizza_to_order_stock_nonneg db_two_orders 100%N 40%N _ _ db_two_orders_ok).
  - split; cbn.
    + intros i d [_ <-]%lookup_singleton_Some. cbn. lia.
    + intros i t [_ <-]%lookup_singleton_Some. cbn. lia.
  - unfold topping_rows_keyed. cbn.
    intros k t [_ <-]%lookup_singleton_Some. cbn. apply NoDup_singleton.
  - vm_compute. reflexivity.
Defined.

(** The removal of a pizza through the order it belongs to. *)
Lemma delete_pizza_from_order_own db o p order row :
  store_ok db →
  find (λ x, bool_decide (order_id x = o)) (orders db) = Some order →
  row ∈ pizzas db → pizza_id row = p → pizza_order_id row = Some o →
  ∃ pizza_type D T,
    (pizza_pizza_type_id row ≫= λ i, pizza_types db !! i) = Some pizza_type
    ∧ (∀ i, dough_stock <$> D !! i
            = (λ s, s + dough_needed pizza_type i) <$> dough_stock_of db i)
    ∧ (∀ i, topping_stock <$> T !! i
            = (λ s, s + topping_needed pizza_type i) <$> topping_stock_of db i)
    ∧ router.delete_pizza_from_order o p db
      = Some (Return (Status 200),
              set_pizzas (λ _, filter (λ x, pizza_id x ≠ p) (pizzas db))
                (set_toppings (λ _, T) (set_doughs (λ _, D) db))).
Proof.
  intros Hok Ho Hrow Hid Hown.
  assert (∀ row', row' ∈ pizzas db → pizza_id row' = p → row' = row) as Hkey.
  { intros row' Hrow' Hid'.
    apply (keyed_unique pizza_id (pizzas db)); [apply Hok|done|done|congruence]. }
  unfold router.delete_pizza_from_order, order_crud.get_order_by_id,
    order_crud.get_pizza_by_id, router.pizza_type_of.
  rewrite bind_gets, Ho. destruct (find_order_Some _ _ _ Ho) as [_ Hoid].
  rewrite bind_gets.
  destruct (find _ (pizzas db)) as [row'|] eqn:Hfound.
  2:{ exfalso. apply list_elem_of_In in Hrow.
      pose proof (find_none _ _ Hfound row Hrow) as Hno. cbn in Hno.
      by rewrite (bool_decide_eq_true_2 _ Hid) in Hno. }
  apply find_some in Hfound as [Hin' Hid']. apply list_elem_of_In in Hin'.
  apply bool_decide_eq_true in Hid'. rewrite (Hkey row' Hin' Hid').
  rewrite bind_gets.
  destruct (ok_pizza_types _ Hok row Hrow) as [pizza_type Hpt]. rewrite Hpt.
  destruct (pizza_pizza_type_id row) as [t|] eqn:Hrt; [|done]. cbn in Hpt.
  destruct (ok_type_rows _ Hok _ _ Hpt) as [Hd Hres].
  destruct (increase_stock_of_ingredients_run pizza_type db Hd Hres)
    as (D & T & Hrun & HD & HT).
  rewrite (bind_return _ _ _ _ _ Hrun).
  exists pizza_type, D, T. split; [done|]. split; [done|]. split; [done|].
  unfold order_crud.delete_pizza_from_order. rewrite bind_bind, bind_gets.
  cbn [pizzas set_toppings set_doughs].
  destruct (find _ (pizzas db)) as [entity|] eqn:Hentity.
  - apply find_some in Hentity as [_ He]. apply andb_true_iff in He as [_ He].
    apply bool_decide_eq_true in He. unfold_monad. cbn. rewrite He.
    first [done | do 2 f_equal; store_fields].
  - exfalso. apply list_elem_of_In in Hrow.
    pose proof (find_none _ _ Hentity row Hrow) as Hno. cbn in Hno.
    by rewrite Hown, Hoid, Hid, !bool_decide_eq_true_2 in Hno.
Qed.

(** X9: [router.delete_pizza_from_order], asked through the order a pizza
    belongs to, answers 200, deletes that pizza row and no other, after which
    [get_pizza_by_id] no longer finds it, and gives back one unit of the
    dough and the topping quantities of the pizza's type; orders, beverages
    and beverage lines stay as they are. *)
Theorem delete_pizza_from_order_own_order db o p order row :
  store_ok db →
  find (λ x, bool_decide (order_id x = o)) (orders db) = Some order →
  row ∈ pizzas db → pizza_id row = p → pizza_order_id row = Some o →
  ∃ pizza_type db',
    (pizza_pizza_type_id row ≫= λ i, pizza_types db !! i) = Some pizza_type
    ∧ router.delete_pizza_from_order o p db = Some (Return (Status 200), db')
    ∧ pizzas db' = filter (λ x, pizza_id x ≠ p) (pizzas db)
    ∧ (∀ x, x ∈ pizzas db' ↔ x ∈ pizzas db ∧ x ≠ row)
    ∧ order_crud.get_pizza_by_id p db' = Some (Return None, db')
    ∧ (∀ i, dough_stock_of db' i
            = (λ s, s + dough_needed pizza_type i) <$> dough_stock_of db i)
    ∧ (∀ i, topping_stock_of db' i
            = (λ s, s + topping_needed pizza_type i) <$> topping_stock_of db i)
    ∧ beverages db' = beverages db ∧ orders db' = orders db
    ∧ order_beverages db' = order_beverages db.
Proof.
  intros Hok Ho Hrow Hid Hown.
  destruct (delete_pizza_from_order_own db o p order row Hok Ho Hrow Hid Hown)
    as (pizza_type & D & T & Hpt & HD & HT & Hrun).
  exists pizza_type. eexists. split; [done|]. split; [exact Hrun|].
  cbn [pizzas set_pizzas set_toppings set_doughs].
  split; [done|]. split; [|split; [|done]].
  - intros x. rewrite list_elem_of_filter. split.
    + intros [Hne Hx]. split; [done|]. intros ->. done.
    + intros [Hx Hne]. split; [|done]. intros Heq. apply Hne.
      apply (keyed_unique pizza_id (pizzas db)); [apply Hok|done|done|congruence].
  - unfold order_crud.get_pizza_by_id, gets. do 2 f_equal.
    cbn [pizzas set_pizzas set_toppings set_doughs].
    destruct (find _ (filter _ _)) as [x|] eqn:Hx; [|done].
    apply find_some in Hx as [Hin Hxid]. apply list_elem_of_In in Hin.
    apply list_elem_of_filter in Hin as [Hne _].
    by apply bool_decide_eq_true in Hxid.
Qed.

Lemma delete_pizza_from_order_own_order_witness :
  ∃ pizza_type db',
    (pizza_pizza_type_id (mkPizza 200%N (Some 101%N) (Some 40%N)) ≫= λ i,
       pizza_types db_two_orders !! i) = Some pizza_type
    ∧ router.delete_pizza_from_order 101%N 200%N db_two_orders
      = Some (Return (Status 200), db')
    ∧ pizzas db' = filter (λ x, pizza_id x ≠ 200%N) (pizzas db_two_orders)
    ∧ (∀ x, x ∈ pizzas db'
            ↔ x ∈ pizzas db_two_orders ∧ x ≠ mkPizza 200%N (Some 101%N) (Some 40%N))
    ∧ order_crud.get_pizza_by_id 200%N db' = Some (Return None, db')
    ∧ (∀ i, dough_stock_of db' i
            = (λ s, s + dough_needed pizza_type i) <$> dough_stock_of db_two_orders i)
    ∧ (∀ i, topping_stock_of db' i
            = (λ s, s + topping_needed pizza_type i) <$> topping_stock_of db_two_orders i)
    ∧ beverages db' = beverages db_two_orders ∧ orders db' = orders db_two_orders
    ∧ order_beverages db' = order_beverages db_two_orders.
Proof.
  apply (delete_pizza_from_order_own_order db_two_orders 101%N 200%N
           (mkOrder 101%N 1%N PREPARING) (mkPizza 200%N (Some 101%N) (Some 40%N))
           db_two_orders_ok).
  - reflexivity.
  - cbn. apply list_elem_of_here.
  - reflexivity.
  - reflexivity.
Defined.

(** X10: a pizza that [router.add_pizza_to_order] has just added can be
    removed again through the same order, and the removal undoes the
    addition: the pizza rows and every dough and topping count are as before
    the pizza was added. *)
Theorem add_then_delete_pizza db o t pizza db1 :
  store_ok db →
  router.add_pizza_to_order o t db = Some (Return (Body pizza), db1) →
  ∃ db2,
    router.delete_pizza_from_order o (pizza_id pizza) db1 = Some (Return (Status 200), db2)
    ∧ pizzas db2 = pizzas db
    ∧ (∀ i, dough_stock_of db2 i = dough_stock_of db i)
    ∧ (∀ i, topping_stock_of db2 i = topping_stock_of db i)
    ∧ beverages db2 = beverages db ∧ orders db2 = orders db
    ∧ order_beverages db2 = order_beverages db.
Proof.
  intros Hok Hadd.
  destruct (add_pizza_to_order_cases db o t Hok)
    as [[Hr _]|[[Hr _]|(order & pizza_type & D & T & Ho & Ht & Hav & HD & HT & Hr)]];
    rewrite Hr in Hadd; [done|done|].
  injection Hadd as <- <-.
  destruct (serve_add_pizza db o t Hok) as (db1 & Hserve & Hok1 & _).
  unfold serve, handle in Hserve. rewrite (serve_of_run _ _ _ _ Hr) in Hserve.
  injection Hserve as <-.
  edestruct (delete_pizza_from_order_own _ o (next_uuid db) order
               (mkPizza (next_uuid db) (Some o) (Some t)) Hok1)
    as (pizza_type' & D' & T' & Hpt & HD' & HT' & Hrun); [exact Ho| |done|done|].
  { cbn. apply elem_of_app. right. apply list_elem_of_here. }
  cbn in Hpt. rewrite Ht in Hpt. injection Hpt as <-.
  eexists. split; [exact Hrun|].
  cbn [pizzas doughs toppings beverages orders order_beverages
       set_pizzas set_toppings set_doughs set_next_uuid].
  split; [|split; [|split; [|done]]].
  - rewrite filter_app, filter_cons_False, filter_nil, app_nil_r
      by (cbn; intros H; by apply H).
    apply filter_all. intros x Hx. pose proof (ok_pizza_fresh _ Hok x Hx). lia.
  - intros i. unfold dough_stock_of at 1.
    cbn [doughs set_pizzas set_toppings set_doughs]. rewrite HD'.
    unfold dough_stock_of at 1.
    cbn [doughs set_pizzas set_toppings set_doughs set_next_uuid]. rewrite HD.
    destruct (dough_stock_of db i); cbn; [f_equal; lia|done].
  - intros i. unfold topping_stock_of at 1.
    cbn [toppings set_pizzas set_toppings set_doughs]. rewrite HT'.
    unfold topping_stock_of at 1.
    cbn [toppings set_pizzas set_toppings set_doughs set_next_uuid]. rewrite HT.
    destruct (topping_stock_of db i); cbn; [f_equal; lia|done].
Qed.

Lemma add_then_delete_pizza_witness :
  ∃ db2,
    router.delete_pizza_from_order 100%N 1000%N
      (set_next_uuid (λ _, 1001%N)
         (set_pizzas (λ ps, ps ++ [mkPizza 1000%N (Some 100%N) (Some 40%N)])
            (set_toppings (λ _, {[ 20%N := mkTopping 50 0 ]})
               (set_doughs (λ _, {[ 10%N := mkDough 100 0 ]}) db_two_orders))))
      = Some (Return (Status 200), db2)
    ∧ pizzas db2 = pizzas db_two_orders
    ∧ (∀ i, dough_stock_of db2 i = dough_stock_of db_two_orders i)
    ∧ (∀ i, topping_stock_of db2 i = topping_stock_of db_two_orders i)
    ∧ beverages db2 = beverages db_two_orders ∧ orders db2 = orders db_two_orders
    ∧ order_beverages db2 = order_beverages db_two_orders.
Proof.
  apply (add_then_delete_pizza db_two_orders 100%N 40%N
           (mkPizza 1000%N (Some 100%N) (Some 40%N)) _ db_two_orders_ok).
  vm_compute. reflexivity.
Defined.

(** ** Moving ingredient stock back and forth *)

(** X11: for a pizza type whose dough and topping rows exist,
    [reduce_stock_of_ingredients] takes one unit of the dough and, of every
    topping, the sum of the quantities of the type's rows for it, without
    looking at what is in stock; [increase_stock_of_ingredients] run next
    puts every count back to where it was.  Neither touches another table. *)
Theorem reduce_then_increase_stock db pizza_type :
  is_Some (doughs db !! pizza_type_dough_id pizza_type) →
  toppings_resolve db (pizza_type_toppings pizza_type) →
  ∃ db1 db2,
    reduce_stock_of_ingredients pizza_type db = Some (Return tt, db1)
    ∧ increase_stock_of_ingredients pizza_type db1 = Some (Return tt, db2)
    ∧ (∀ i, dough_stock_of db1 i
            = (λ s, s - dough_needed pizza_type i) <$> dough_stock_of db i)
    ∧ (∀ i, topping_stock_of db1 i
            = (λ s, s - topping_needed pizza_type i) <$> topping_stock_of db i)
    ∧ (∀ i, dough_stock_of db2 i = dough_stock_of db i)
    ∧ (∀ i, topping_stock_of db2 i = topping_stock_of db i)
    ∧ beverages db2 = beverages db ∧ pizza_types db2 = pizza_types db
    ∧ orders db2 = orders db ∧ pizzas db2 = pizzas db
    ∧ order_beverages db2 = order_beverages db.
Proof.
  intros Hd Hres.
  destruct (reduce_stock_of_ingredients_run pizza_type db Hd Hres)
    as (D & T & Hrun & HD & HT).
  destruct (increase_stock_of_ingredients_run pizza_type
              (set_toppings (λ _, T) (set_doughs (λ _, D) db)))
    as (D' & T' & Hrun' & HD' & HT').
  { cbn [doughs set_toppings set_doughs].
    apply (stock_rows_kept dough_stock (doughs db) D _ _ (HD _) Hd). }
  { cbn [toppings set_toppings set_doughs]. unfold toppings_resolve in *.
    eapply Forall_impl; [exact Hres|]. intros tq Htq. cbn beta in *.
    apply (stock_rows_kept topping_stock (toppings db) T _ _ (HT _) Htq). }
  eexists _, _. split; [exact Hrun|]. split; [exact Hrun'|].
  split; [exact HD|]. split; [exact HT|].
  split; [|split; [|done]].
  - intros i. unfold dough_stock_of at 1. cbn [doughs set_toppings set_doughs].
    rewrite HD'. unfold dough_stock_of at 1. cbn [doughs set_toppings set_doughs].
    rewrite HD. destruct (dough_stock_of db i); cbn; [f_equal; lia|done].
  - intros i. unfold topping_stock_of at 1. cbn [toppings set_toppings set_doughs].
    rewrite HT'. unfold topping_stock_of at 1. cbn [toppings set_toppings set_doughs].
    rewrite HT. destruct (topping_stock_of db i); cbn; [f_equal; lia|done].
Qed.

Lemma reduce_then_increase_stock_witness :
  ∃ db1 db2,
    reduce_stock_of_ingredients margherita db_two_orders = Some (Return tt, db1)
    ∧ increase_stock_of_ingredients margherita db1 = Some (Return tt, db2)
    ∧ dough_stock_of db1 10%N = Some 0
    ∧ topping_stock_of db1 20%N = Some 0
    ∧ dough_stock_of db2 10%N = Some 1
    ∧ topping_stock_of db2 20%N = Some 2.
Proof.
  destruct (reduce_then_increase_stock db_two_orders margherita)
    as (db1 & db2 & Hrun & Hrun' & HD & HT & HD' & HT' & _).
  - by eexists.
  - repeat (apply Forall_cons; split; [by eexists|]). by apply Forall_nil.
  - exists db1, db2. split; [exact Hrun|]. split; [exact Hrun'|].
    split; [by rewrite HD|]. split; [by rewrite HT|].
    split; [by rewrite HD' | by rewrite HT'].
Defined.

(** ** Beverage lines *)

(** The ways [router.create_order_beverage] ends, in the order the handler
    tests for them. *)
Lemma create_order_beverage_cases db o b q :
  (find (λ x, bool_decide (order_id x = o)) (orders db) = None
   ∧ router.create_order_beverage o b q db = Some (Return (Status 404), db))
  ∨ (∃ order,
       find (λ x, bool_decide (order_id x = o)) (orders db) = Some order
       ∧ ((q ≤ 0 ∧ router.create_order_beverage o b q db = Some (Raise 422, db))
          ∨ (0 < q ∧ beverages db !! b = None
             ∧ router.create_order_beverage o b q db = Some (Raise 404, db))
          ∨ (∃ bev,
               0 < q ∧ beverages db !! b = Some bev
               ∧ ((is_Some (find (order_crud.is_line o b) (order_beverages db))
                   ∧ router.create_order_beverage o b q db
                     = Some (Return (RedirectResponse o 303), db))
                  ∨ (find (order_crud.is_line o b) (order_beverages db) = None
                     ∧ beverage_stock bev < q
                     ∧ router.create_order_beverage o b q db = Some (Raise 409, db))
                  ∨ (find (order_crud.is_line o b) (order_beverages db) = None
                     ∧ q ≤ beverage_stock bev
                     ∧ router.create_order_beverage o b q db
                       = Some (Return (Body (mkOrderBeverageQuantity o b q)),
                               set_order_beverages
                                 (λ ls, ls ++ [mkOrderBeverageQuantity o b q])
                                 (set_beverages
                                    <[b := mkBeverage (beverage_price bev)
                                                      (beverage_stock bev - q)]>
                                    db))))))).
Proof.
  unfold router.create_order_beverage, order_crud.get_order_by_id,
    order_crud.get_beverage_quantity_by_id, beverage_is_available,
    change_stock_of_beverage, order_crud.create_beverage_quantity.
  unfold_monad. cbn.
  destruct (find _ (orders db)) as [order|] eqn:Ho; cbn; [|by left].
  destruct (find_order_Some _ _ _ Ho) as [_ Hoid].
  right. exists order. split; [done|].
  destruct (Z.leb_spec q 0) as [Hq0|Hq]; cbn; [by left|]. right.
  destruct (beverages db !! b) as [bev|] eqn:Hb; cbn; [|by left].
  right. exists bev. split; [done|]. split; [done|].
  destruct (find _ (order_beverages db)) as [l|] eqn:Hl; cbn.
  { left. split; [done|]. destruct (find_line_Some _ _ _ _ Hl) as (_ & -> & _). done. }
  right. rewrite Hb. cbn.
  destruct (Z.leb_spec q (beverage_stock bev)) as [Hle|Hgt]; cbn; [|by left].
  right. rewrite Hb. cbn.
  assert ((beverage_stock bev + - q <? 0) = false) as -> by lia.
  split; [done|]. split; [done|]. rewrite Hoid.
  replace (beverage_stock bev + - q) with (beverage_stock bev - q) by lia. done.
Qed.

(** X12: [router.create_order_beverage] always answers, and changes the
    store only when it answers with a new line.  It answers 404 for an
    unknown order; raises 422 for a quantity below 1, before it even looks
    the beverage up; raises 404 for an unknown beverage; redirects (303) if
    the order has a line for the beverage already, whatever the stock;
    raises 409 if the stock is below the quantity; and otherwise stores the
    line last, which [get_beverage_quantity_by_id] then finds, and takes the
    quantity from the beverage's stock and from nothing else. *)
Theorem create_order_beverage_answers db o b q :
  ∃ r db',
    router.create_order_beverage o b q db = Some (r, db')
    ∧ match r with
      | Return (Body line) =>
          ∃ bev,
            beverages db !! b = Some bev ∧ 0 < q ≤ beverage_stock bev
            ∧ is_Some (find (λ x, bool_decide (order_id x = o)) (orders db))
            ∧ find (order_crud.is_line o b) (order_beverages db) = None
            ∧ line = mkOrderBeverageQuantity o b q
            ∧ order_beverages db' = order_beverages db ++ [line]
            ∧ order_crud.get_beverage_quantity_by_id o b db'
              = Some (Return (Some line), db')
            ∧ beverage_stock_of db' b = Some (beverage_stock bev - q)
            ∧ (∀ j, j ≠ b → beverages db' !! j = beverages db !! j)
            ∧ doughs db' = doughs db ∧ toppings db' = toppings db
            ∧ orders db' = orders db ∧ pizzas db' = pizzas db
      | Return (Status c) =>
          db' = db ∧ c = 404
          ∧ find (λ x, bool_decide (order_id x = o)) (orders db) = None
      | Return (RedirectResponse i c) =>
          db' = db ∧ i = o ∧ c = 303 ∧ 0 < q
          ∧ is_Some (find (order_crud.is_line o b) (order_beverages db))
      | Raise c =>
          db' = db
          ∧ is_Some (find (λ x, bool_decide (order_id x = o)) (orders db))
          ∧ ((c = 422 ∧ q ≤ 0)
             ∨ (c = 404 ∧ 0 < q ∧ beverages db !! b = None)
             ∨ (c = 409 ∧ 0 < q
                ∧ find (order_crud.is_line o b) (order_beverages db) = None
                ∧ ∃ bev, beverages db !! b = Some bev ∧ beverage_stock bev < q))
      end.
Proof.
  destruct (create_order_beverage_cases db o b q)
    as [[Ho Hr]|(order & Ho & [[Hq Hr]|[(Hq & Hb & Hr)|(bev & Hq & Hb &
          [[Hl Hr]|[(Hl & Hs & Hr)|(Hl & Hs & Hr)]])]])];
    rewrite Hr; eexists _, _; (split; [reflexivity|]); cbn beta iota.
  - done.
  - split; [done|]. split; [by eexists|]. by left.
  - split; [done|]. split; [by eexists|]. right. by left.
  - done.
  - split; [done|]. split; [by eexists|]. right. right. repeat split; try done.
    by exists bev.
  - exists bev. split; [done|]. split; [lia|]. split; [by eexists|].
    split; [done|]. split; [done|]. split; [done|]. split.
    + unfold order_crud.get_beverage_quantity_by_id, gets. do 3 f_equal.
      cbn [order_beverages set_order_beverages set_beverages].
      rewrite (find_app_None _ _ _ Hl). cbn [find]. unfold order_crud.is_line.
      cbn [obq_beverage_id obq_order_id].
      by rewrite (bool_decide_eq_true_2 _ (eq_refl b)), (bool_decide_eq_true_2 _ (eq_refl o)).
    + cbn [beverages set_order_beverages set_beverages]. unfold beverage_stock_of.
      cbn [beverages set_order_beverages set_beverages].
      split; [by rewrite lookup_insert_eq|].
      split; [|done]. intros j Hj. by rewrite lookup_insert_ne.
Qed.

Lemma find_is_line_None_filter o b (ls : list OrderBeverageQuantity) :
  find (order_crud.is_line o b) ls = None →
  filter (λ l, order_crud.is_line o b l = false) ls = ls.
Proof.
  intros Hnone. apply filter_all. intros l Hl. apply list_elem_of_In in Hl.
  apply (find_none _ _ Hnone l Hl).
Qed.

(** X13: a beverage line that [router.create_order_beverage] has just
    stored can be deleted again with [router.delete_beverage_from_order],
    and the deletion undoes the creation: the store is the one before the
    line was added. *)
Theorem create_then_delete_beverage_line db o b q line db1 :
  router.create_order_beverage o b q db = Some (Return (Body line), db1) →
  router.delete_beverage_from_order o b db1 = Some (Return (Status 204), db).
Proof.
  intros Hcreate.
  destruct (create_order_beverage_cases db o b q)
    as [[Ho Hr]|(order & Ho & [[Hq Hr]|[(Hq & Hb & Hr)|(bev & Hq & Hb &
          [[Hl Hr]|[(Hl & Hs & Hr)|(Hl & Hs & Hr)]])]])];
    rewrite Hr in Hcreate; try done.
  injection Hcreate as <- <-.
  unfold router.delete_beverage_from_order, order_crud.get_order_by_id,
    order_crud.get_beverage_quantity_by_id.
  rewrite bind_gets. cbn [orders set_order_beverages set_beverages]. rewrite Ho.
  rewrite bind_gets. cbn [order_beverages set_order_beverages set_beverages].
  assert (find (order_crud.is_line o b)
               (order_beverages db ++ [mkOrderBeverageQuantity o b q])
          = Some (mkOrderBeverageQuantity o b q)) as Hfind.
  { rewrite (find_app_None _ _ _ Hl). cbn [find]. unfold order_crud.is_line.
    cbn [obq_beverage_id obq_order_id].
    by rewrite (bool_decide_eq_true_2 _ (eq_refl b)), (bool_decide_eq_true_2 _ (eq_refl o)). }
  rewrite Hfind. cbn [obq_quantity].
  erewrite bind_return.
  2:{ erewrite change_stock_of_beverage_run.
      2:{ cbn [beverages set_order_beverages set_beverages]. apply lookup_insert_eq. }
      cbn [beverage_stock beverage_price].
      assert ((beverage_stock bev - q + q <? 0) = false) as -> by lia. reflexivity. }
  unfold order_crud.delete_beverage_from_order, order_crud.get_beverage_quantity_by_id.
  rewrite bind_bind, bind_gets.
  cbn [order_beverages set_order_beverages set_beverages]. rewrite Hfind.
  unfold_monad. do 2 f_equal. store_fields.
  - rewrite insert_insert_eq. replace (beverage_stock bev - q + q) with (beverage_stock bev) by lia.
    destruct bev. by apply insert_id.
  - rewrite filter_app, (find_is_line_None_filter _ _ _ Hl).
    rewrite filter_cons_False, filter_nil, app_nil_r; [done|].
    unfold order_crud.is_line. cbn [obq_beverage_id obq_order_id].
    by rewrite (bool_decide_eq_true_2 _ (eq_refl b)), (bool_decide_eq_true_2 _ (eq_refl o)).
Qed.

Lemma create_then_delete_beverage_line_witness :
  router.delete_beverage_from_order 100%N 30%N
    (set_order_beverages (λ ls, ls ++ [mkOrderBeverageQuantity 100%N 30%N 5])
       (set_beverages <[30%N := mkBeverage 350 5]> db_two_orders))
  = Some (Return (Status 204), db_two_orders).
Proof.
  apply (create_then_delete_beverage_line db_two_orders 100%N 30%N 5
           (mkOrderBeverageQuantity 100%N 30%N 5)).
  vm_compute. reflexivity.
Defined.

Lemma delete_beverage_from_order_run db o b order l :
  store_ok db →
  find (λ x, bool_decide (order_id x = o)) (orders db) = Some order →
  find (order_crud.is_line o b) (order_beverages db) = Some l →
  router.delete_beverage_from_order o b db
  = Some (Return (Status 204),
          set_order_beverages
            (λ _, filter (λ x, order_crud.is_line o b x = false) (order_beverages db))
            (set_beverages
               (λ _, match beverages db !! b with
                     | Some bev =>
                         <[b := mkBeverage (beverage_price bev)
                                           (beverage_stock bev + obq_quantity l)]>
                           (beverages db)
                     | None => beverages db
                     end) db)).
Proof.
  intros Hok Ho Hl.
  destruct (delete_beverage_from_order_outcome db o b Hok) as [[r Hr]|(l' & Hl' & Hr)].
  - exfalso. revert Hr.
    unfold router.delete_beverage_from_order, order_crud.get_order_by_id,
      order_crud.delete_beverage_from_order,
      order_crud.get_beverage_quantity_by_id, change_stock_of_beverage.
    unfold_monad. cbn. rewrite Ho. cbn. rewrite Hl. cbn.
    destruct (find_line_Some _ _ _ _ Hl) as (Hin & _ & _).
    pose proof (ok_quantities _ Hok l Hin) as Hq.
    assert (filter (λ x, order_crud.is_line o b x = false) (order_beverages db)
            ≠ order_beverages db) as Hne.
    { intros Heq. rewrite <- Heq in Hin.
      apply list_elem_of_filter in Hin as [Hno _].
      apply find_some in Hl as [_ Hyes]. congruence. }
    destruct (beverages db !! b) as [bev|] eqn:Hb; cbn.
    + pose proof (ok_beverage_stock _ Hok b bev Hb) as Hs.
      assert ((beverage_stock bev + obq_quantity l <? 0) = false) as -> by lia.
      cbn. rewrite Hl. intros [= _ Hdb]. apply Hne.
      by apply (f_equal order_beverages) in Hdb.
    + rewrite Hl. cbn. intros [= _ Hdb]. apply Hne.
      by apply (f_equal order_beverages) in Hdb.
  - rewrite Hl in Hl'. by injection Hl' as <-.
Qed.

(** X14: on a store that meets the data model's constraints,
    [router.delete_beverage_from_order] always answers: 404 (returned) for
    an unknown order and 404 (raised) if the order has no line for the
    beverage, both without touching the store; otherwise 204, after which
    the order has no line for the beverage, every other line is kept, and
    the line's quantity is back in the beverage's stock (if the beverage
    still exists), no other stock having moved. *)
Theorem delete_beverage_from_order_answers db o b :
  store_ok db →
  ∃ r db',
    router.delete_beverage_from_order o b db = Some (r, db')
    ∧ match find (λ x, bool_decide (order_id x = o)) (orders db),
            find (order_crud.is_line o b) (order_beverages db) with
      | None, _ => r = Return (Status 404) ∧ db' = db
      | Some _, None => r = Raise 404 ∧ db' = db
      | Some _, Some l =>
          r = Return (Status 204)
          ∧ order_crud.get_beverage_quantity_by_id o b db' = Some (Return None, db')
          ∧ (∀ x, x ∈ order_beverages db' ↔ x ∈ order_beverages db ∧ x ≠ l)
          ∧ (∀ bev, beverages db !! b = Some bev →
               beverage_stock_of db' b = Some (beverage_stock bev + obq_quantity l))
          ∧ (∀ j, j ≠ b → beverages db' !! j = beverages db !! j)
          ∧ doughs db' = doughs db ∧ toppings db' = toppings db
          ∧ orders db' = orders db ∧ pizzas db' = pizzas db
      end.
Proof.
  intros Hok.
  destruct (find (λ x, bool_decide (order_id x = o)) (orders db)) as [order|] eqn:Ho.
  2:{ unfold router.delete_beverage_from_order, order_crud.get_order_by_id.
      rewrite bind_gets, Ho. by eexists _, _. }
  destruct (find (order_crud.is_line o b) (order_beverages db)) as [l|] eqn:Hl.
  2:{ unfold router.delete_beverage_from_order, order_crud.get_order_by_id,
        order_crud.get_beverage_quantity_by_id.
      rewrite bind_gets, Ho, bind_gets, Hl. by eexists _, _. }
  rewrite (delete_beverage_from_order_run db o b order l Hok Ho Hl).
  eexists _, _. split; [reflexivity|]. split; [done|].
  cbn [order_beverages beverages set_order_beverages set_beverages].
  split; [|split; [|split; [|split; [|done]]]].
  - unfold order_crud.get_beverage_quantity_by_id, gets. do 2 f_equal.
    cbn [order_beverages set_order_beverages set_beverages].
    destruct (find _ (filter _ _)) as [x|] eqn:Hx; [|done].
    apply find_some in Hx as [Hin Hyes]. apply list_elem_of_In in Hin.
    apply list_elem_of_filter in Hin as [Hno _]. congruence.
  - intros x. rewrite list_elem_of_filter.
    destruct (find_line_Some _ _ _ _ Hl) as (Hin & Hlo & Hlb).
    split.
    + intros [Hno Hx]. split; [done|]. intros ->.
      apply find_some in Hl as [_ Hyes]. congruence.
    + intros [Hx Hne]. split; [|done].
      destruct (order_crud.is_line o b x) eqn:Hyes; [|done]. exfalso. apply Hne.
      apply is_line_spec in Hyes as [Hxo Hxb].
      apply (keyed_unique line_key (order_beverages db)); [apply Hok|done|done|].
      unfold line_key. congruence.
  - intros bev Hb. unfold beverage_stock_of.
    cbn [beverages set_order_beverages set_beverages]. rewrite Hb.
    by rewrite lookup_insert_eq.
  - intros j Hj. destruct (beverages db !! b); [|done]. by rewrite lookup_insert_ne.
Qed.

Lemma delete_beverage_from_order_answers_witness :
  ∃ r db',
    router.delete_beverage_from_order 101%N 30%N db_two_orders = Some (r, db')
    ∧ r = Return (Status 204)
    ∧ beverage_stock_of db' 30%N = Some 13.
Proof.
  destruct (delete_beverage_from_order_answers db_two_orders 101%N 30%N db_two_orders_ok)
    as (r & db' & Hrun & Hr & _ & _ & Hstock & _).
  exists r, db'. split; [exact Hrun|]. split; [exact Hr|].
  exact (Hstock (mkBeverage 350 10) eq_refl).
Defined.

(** ** Deleting an order *)

Lemma delete_order_run db o order :
  store_ok db →
  find (λ x, bool_decide (order_id x = o)) (orders db) = Some order →
  ∃ D T B,
    router.delete_order o db
    = Some (Return (Status 204),
            set_orders (λ _, filter (λ x, order_id x ≠ o) (orders db))
              (set_order_beverages
                 (λ _, filter (λ l, obq_order_id l ≠ o) (order_beverages db))
                 (set_beverages (λ _, B)
                    (set_next_uuid (λ _, next_uuid db)
                       (set_pizzas
                          (λ _, filter (λ p, pizza_order_id p ≠ Some o) (pizzas db))
                          (set_toppings (λ _, T) (set_doughs (λ _, D) db))))))).
Proof.
  intros Hok Ho.
  destruct (delete_order_outcome db o Hok)
    as [[r Hr]|(D & T & B & _ & _ & _ & _ & Hr)]; [|by exists D, T, B].
  exfalso. revert Hr. unfold router.delete_order, order_crud.get_order_by_id.
  rewrite bind_gets, Ho.
  destruct (find_order_Some _ _ _ Ho) as [Hin Hoid].
  destruct (for_each_restore_pizzas
              (filter (λ p, pizza_order_id p = Some o) (pizzas db)) db)
    as (D & T & Hloop1 & HD & HT).
  { intros p [_ Hp]%list_elem_of_filter. by apply Hok. }
  { apply Hok. }
  destruct (for_each_restore_beverages
              (filter (λ l, obq_order_id l = o) (order_beverages db))
              (set_toppings (λ _, T) (set_doughs (λ _, D) db)))
    as (B & Hloop2 & HB & HBnn).
  { intros l [_ Hl]%list_elem_of_filter. by apply Hok. }
  { apply Hok. }
  unfold router.pizzas_of, router.beverages_of. rewrite Hoid.
  rewrite bind_bind, bind_gets. cbv beta. rewrite (bind_return _ _ _ _ _ Hloop1).
  rewrite bind_bind, bind_gets. cbv beta.
  cbn [order_beverages set_toppings set_doughs].
  rewrite (bind_return _ _ _ _ _ Hloop2).
  unfold order_crud.delete_order_by_id, order_crud.get_order_by_id.
  rewrite bind_bind, bind_gets. cbv beta.
  cbn [orders set_toppings set_doughs set_beverages]. rewrite Ho.
  unfold order_crud.db_delete_order. unfold_monad. cbn. rewrite Hoid.
  intros [= _ Hdb]. apply (f_equal orders) in Hdb. cbn in Hdb.
  rewrite <- Hdb in Hin. apply list_elem_of_filter in Hin as [Hne _]. done.
Qed.

(** X15: on a store that meets the data model's constraints,
    [router.delete_order] answers 404 for an unknown order and changes
    nothing; for a known order it answers 204, after which the order, its
    pizzas and its beverage lines are gone, every other order, pizza and line
    is kept, the constraints still hold, and what the deleted pizzas and
    lines held is back on the shelf: for every dough, topping and beverage,
    stock plus what the remaining lines hold is what it was. *)
Theorem delete_order_answers db o :
  store_ok db →
  ∃ r db',
    router.delete_order o db = Some (Return r, db')
    ∧ match find (λ x, bool_decide (order_id x = o)) (orders db) with
      | None => r = Status 404 ∧ db' = db
      | Some _ =>
          r = Status 204
          ∧ router.get_order o db' = Some (Return (Status 404), db')
          ∧ (∀ x, x ∈ orders db' ↔ x ∈ orders db ∧ order_id x ≠ o)
          ∧ (∀ p, p ∈ pizzas db' ↔ p ∈ pizzas db ∧ pizza_order_id p ≠ Some o)
          ∧ (∀ l, l ∈ order_beverages db' ↔ l ∈ order_beverages db ∧ obq_order_id l ≠ o)
          ∧ store_ok db' ∧ balanced db db'
      end.
Proof.
  intros Hok.
  destruct (find (λ x, bool_decide (order_id x = o)) (orders db)) as [order|] eqn:Ho.
  2:{ unfold router.delete_order, order_crud.get_order_by_id.
      rewrite bind_gets, Ho. by eexists _, _. }
  destruct (delete_order_run db o order Hok Ho) as (D & T & B & Hrun).
  destruct (serve_delete_order db o Hok) as (db1 & Hserve & Hok1 & Hbal).
  unfold serve, handle in Hserve. rewrite (serve_of_run _ _ _ _ Hrun) in Hserve.
  injection Hserve as <-.
  eexists _, _. split; [exact Hrun|]. split; [done|].
  split; [|split; [|split; [|split; [|done]]]].
  - unfold router.get_order, order_crud.get_order_by_id. rewrite bind_gets.
    cbn [orders set_orders].
    destruct (find _ (filter _ _)) as [x|] eqn:Hx; [|done].
    apply find_some in Hx as [Hin Hyes]. apply list_elem_of_In in Hin.
    apply list_elem_of_filter in Hin as [Hne _].
    by apply bool_decide_eq_true in Hyes.
  - intros x. cbn [orders set_orders]. rewrite list_elem_of_filter. tauto.
  - intros p.
    cbn [pizzas set_orders set_order_beverages set_beverages set_next_uuid set_pizzas].
    rewrite list_elem_of_filter. tauto.
  - intros l. cbn [order_beverages set_orders set_order_beverages].
    rewrite list_elem_of_filter. tauto.
Qed.

Lemma delete_order_answers_witness :
  ∃ r db',
    router.delete_order 101%N db_two_orders = Some (Return r, db')
    ∧ r = Status 204
    ∧ store_ok db' ∧ balanced db_two_orders db'.
Proof.
  destruct (delete_order_answers db_two_orders 101%N db_two_orders_ok)
    as (r & db' & Hrun & Hr & _ & _ & _ & _ & Hok' & Hbal).
  exists r, db'. split; [exact Hrun|]. split; [exact Hr|]. split; [exact Hok'|exact Hbal].
Defined.

(** ** Sequences of requests *)

(** X16: every sequence of requests to the seven handlers that change
    orders, each served alone, pizzas being removed through their own order
    and no order copy being answered 409, runs to its end from a store that
    meets the data model's constraints (no handler fails on a missing row);
    the store it ends in meets the constraints again (in particular no
    beverage stock is negative and no order has two lines for one beverage),
    and for every dough, topping and beverage the stock plus what the pizzas
    and beverage lines in existence hold is what it was at the start. *)
Theorem scoped_requests_conserve_stock rs db :
  store_ok db → scoped rs db →
  ∃ db', serve_all rs db = Some db' ∧ store_ok db' ∧ balanced db db'.
Proof.
  revert db. induction rs as [|r rs IH]; intros db Hok Hscoped.
  - exists db. split; [done|]. split; [done | apply balanced_refl].
  - destruct Hscoped as [Hscope Hrest].
    destruct (serve_keeps_balance db r Hok Hscope) as (db1 & Hserve & Hok1 & Hbal1).
    destruct (IH db1 Hok1 (Hrest db1 Hserve)) as (db' & Hrun & Hok' & Hbal').
    exists db'. cbn [serve_all]. rewrite Hserve. cbn.
    split; [done|]. split; [done|]. by eapply balanced_trans.
Qed.

Lemma scoped_requests_conserve_stock_witness :
  ∃ db',
    serve_all [AddPizza 100%N 40%N; RemovePizza 100%N 1000%N;
               AddBeverageLine 100%N 30%N 5; DeleteOrder 101%N] db_two_orders
    = Some db'
    ∧ store_ok db' ∧ balanced db_two_orders db'.
Proof.
  apply (scoped_requests_conserve_stock
           [AddPizza 100%N 40%N; RemovePizza 100%N 1000%N;
            AddBeverageLine 100%N 30%N 5; DeleteOrder 101%N]
           db_two_orders db_two_orders_ok).
  split; [exact I|]. intros db1 H1. vm_compute in H1. injection H1 as <-.
  split.
  { intros row Hrow Hid.
    apply elem_of_cons in Hrow as [->|Hrow]; [by vm_compute in Hid|].
    apply list_elem_of_singleton in Hrow as ->. reflexivity. }
  intros db2 H2. vm_compute in H2. injection H2 as <-.
  split; [exact I|]. intros db3 H3.
  split; [exact I|]. intros db4 H4. exact I.
Defined.

(** ** The copy and the cross-order removal at concrete inputs *)

Lemma create_order_copy_returned_witness :
  ∃ db',
    router.create_order 1%N (Some 101%N) db_two_orders
      = Some (Return (mkOrder 1000%N 1%N TRANSMITTED), db')
    ∧ pizza_pizza_type_id <$> filter (λ p, pizza_order_id p = Some 1000%N) (pizzas db')
      = [Some 40%N]
    ∧ filter (λ l, obq_order_id l = 1000%N) (order_beverages db')
      = [mkOrderBeverageQuantity 1000%N 30%N 3]
    ∧ store_ok db' ∧ balanced db_two_orders db'.
Proof.
  eexists. split; [vm_compute; reflexivity|].
  refine (proj2 (create_order_copy_returned db_two_orders 1%N 101%N
                   (mkOrder 1000%N 1%N TRANSMITTED) _ db_two_orders_ok _)).
  vm_compute. reflexivity.
Defined.

Lemma delete_pizza_from_order_foreign_witness :
  ∃ pizza_type D T,
    (pizza_pizza_type_id (mkPizza 200%N (Some 101%N) (Some 40%N)) ≫= λ i,
       pizza_types db_two_orders !! i) = Some pizza_type
    ∧ (∀ i, dough_stock <$> D !! i
            = (λ s, s + dough_needed pizza_type i) <$> dough_stock_of db_two_orders i)
    ∧ (∀ i, topping_stock <$> T !! i
            = (λ s, s + topping_needed pizza_type i) <$> topping_stock_of db_two_orders i)
    ∧ router.delete_pizza_from_order 100%N 200%N db_two_orders
      = Some (Return (Status 404),
              set_toppings (λ _, T) (set_doughs (λ _, D) db_two_orders)).
Proof.
  apply (delete_pizza_from_order_foreign db_two_orders 100%N 200%N
           (mkOrder 100%N 1%N TRANSMITTED) (mkPizza 200%N (Some 101%N) (Some 40%N))
           db_two_orders_ok).
  - reflexivity.
  - cbn. apply list_elem_of_here.
  - reflexivity.
  - cbn. congruence.
Defined.

(** ** The price follows the lines *)

Lemma get_price_of_order_keyed db o :
  orders_keyed db → o ∈ orders db →
  order_crud.get_price_of_order (order_id o) db
  = Some (Return (priceOf_spec (order_id o) db), db).
Proof.
  intros Hkeys Ho. rewrite get_price_of_order_run. unfold priceOf_spec.
  by rewrite (beverage_price_rows_sum db o Hkeys Ho), (pizza_price_rows_sum db o Hkeys Ho).
Qed.

Lemma router_get_price_of_order_keyed db o :
  orders_keyed db → o ∈ orders db →
  router.get_price_of_order (order_id o) db
  = Some (Return (Body (priceOf_spec (order_id o) db)), db).
Proof.
  intros Hkeys Ho. unfold router.get_price_of_order, order_crud.get_order_by_id.
  rewrite bind_gets. destruct (get_order_by_id_found db o Ho) as [o' ->].
  by rewrite (bind_return _ _ _ _ _ (get_price_of_order_keyed db o Hkeys Ho)).
Qed.

(** X19: once [router.add_pizza_to_order] has added a pizza to an order
    (order ids being the primary key), [get_price_of_order] for that order
    is higher by the price of the pizza's type, and the price of every other
    order is what it was. *)
Theorem add_pizza_raises_price db o t pizza db' :
  store_ok db → orders_keyed db →
  router.add_pizza_to_order o t db = Some (Return (Body pizza), db') →
  ∃ pizza_type price,
    pizza_types db !! t = Some pizza_type
    ∧ router.get_price_of_order o db = Some (Return (Body price), db)
    ∧ router.get_price_of_order o db'
      = Some (Return (Body (price + pizza_type_price pizza_type)), db')
    ∧ ∀ other, other ∈ orders db → order_id other ≠ o →
        fst <$> router.get_price_of_order (order_id other) db'
        = fst <$> router.get_price_of_order (order_id other) db.
Proof.
  intros Hok Hkeys Hadd.
  destruct (add_pizza_to_order_cases db o t Hok)
    as [[Hr _]|[[Hr _]|(order & pizza_type & D & T & Ho & Ht & Hav & HD & HT & Hr)]];
    rewrite Hr in Hadd; [done|done|].
  injection Hadd as <- <-.
  destruct (find_order_Some _ _ _ Ho) as [Hin <-].
  exists pizza_type, (priceOf_spec (order_id order) db).
  split; [done|]. split; [by apply router_get_price_of_order_keyed|].
  assert (∀ x, x ∈ orders db →
            priceOf_spec (order_id x)
              (set_next_uuid (λ _, N.succ (next_uuid db))
                 (set_pizzas
                    (λ _, pizzas db ++ [mkPizza (next_uuid db) (Some (order_id order)) (Some t)])
                    (set_toppings (λ _, T) (set_doughs (λ _, D) db))))
            = priceOf_spec (order_id x) db
              + (if bool_decide (order_id x = order_id order)
                 then pizza_type_price pizza_type else 0)) as Hprice.
  { intros x _. unfold priceOf_spec.
    cbn [pizzas order_beverages set_next_uuid set_pizzas set_toppings set_doughs].
    rewrite filter_app, fmap_app, Zsum_app. rewrite <- !Z.add_assoc. f_equal. f_equal.
    case_bool_decide as Hx.
    - rewrite filter_cons_True by (cbn; congruence).
      rewrite filter_nil, fmap_cons, fmap_nil, Zsum_cons, Zsum_nil.
      unfold pizza_price. cbn. rewrite Ht. lia.
    - rewrite filter_cons_False by (cbn; congruence). done. }
  split.
  - rewrite router_get_price_of_order_keyed by done. rewrite Hprice by done.
    by rewrite (bool_decide_eq_true_2 _ (eq_refl (order_id order))).
  - intros other Hother Hne.
    rewrite !router_get_price_of_order_keyed by done. rewrite Hprice by done.
    rewrite (bool_decide_eq_false_2 _ Hne). cbn. do 3 f_equal. lia.
Qed.

Lemma add_pizza_raises_price_witness :
  ∃ pizza_type price,
    pizza_types db_two_orders !! 40%N = Some pizza_type
    ∧ router.get_price_of_order 101%N db_two_orders = Some (Return (Body price), db_two_orders)
    ∧ fst <$> router.get_price_of_order 101%N
                (set_next_uuid (λ _, 1001%N)
                   (set_pizzas (λ ps, ps ++ [mkPizza 1000%N (Some 101%N) (Some 40%N)])
                      (set_toppings (λ _, {[ 20%N := mkTopping 50 0 ]})
                         (set_doughs (λ _, {[ 10%N := mkDough 100 0 ]}) db_two_orders))))
      = Some (Return (Body (price + pizza_type_price pizza_type))).
Proof.
  destruct (add_pizza_raises_price db_two_orders 101%N 40%N
              (mkPizza 1000%N (Some 101%N) (Some 40%N))
              (set_next_uuid (λ _, 1001%N)
                 (set_pizzas (λ ps, ps ++ [mkPizza 1000%N (Some 101%N) (Some 40%N)])
                    (set_toppings (λ _, {[ 20%N := mkTopping 50 0 ]})
                       (set_doughs (λ _, {[ 10%N := mkDough 100 0 ]}) db_two_orders))))
              db_two_orders_ok)
    as (pizza_type & price & Ht & Hp & Hp' & _).
  - unfold orders_keyed. simpl. by apply (bool_decide_unpack _).
  - vm_compute. reflexivity.
  - exists pizza_type, price. split; [exact Ht|]. split; [exact Hp|]. by rewrite Hp'.
Defined.

(** A change of stock changes no price. *)
Lemma line_price_stock_changed db f b bev s l :
  beverages db !! b = Some bev →
  line_price (set_order_beverages f
                (set_beverages <[b := mkBeverage (beverage_price bev) s]> db)) l
  = line_price db l.
Proof.
  intros Hb. unfold line_price. cbn [beverages set_order_beverages set_beverages].
  destruct (decide (obq_beverage_id l = b)) as [->|Hne].
  - by rewrite lookup_insert_eq, Hb.
  - by rewrite lookup_insert_ne.
Qed.

(** X20: once [router.create_order_beverage] has stored a line for an order
    (order ids being the primary key), [get_price_of_order] for that order
    is higher by the beverage's price times the line's quantity, and the
    price of every other order is what it was, although the stock of the
    beverage has changed. *)
Theorem create_order_beverage_raises_price db o b q line db' :
  orders_keyed db →
  router.create_order_beverage o b q db = Some (Return (Body line), db') →
  ∃ bev price,
    beverages db !! b = Some bev
    ∧ router.get_price_of_order o db = Some (Return (Body price), db)
    ∧ router.get_price_of_order o db'
      = Some (Return (Body (price + beverage_price bev * q)), db')
    ∧ ∀ other, other ∈ orders db → order_id other ≠ o →
        fst <$> router.get_price_of_order (order_id other) db'
        = fst <$> router.get_price_of_order (order_id other) db.
Proof.
  intros Hkeys Hcreate.
  destruct (create_order_beverage_cases db o b q)
    as [[Ho Hr]|(order & Ho & [[Hq Hr]|[(Hq & Hb & Hr)|(bev & Hq & Hb &
          [[Hl Hr]|[(Hl & Hs & Hr)|(Hl & Hs & Hr)]])]])];
    rewrite Hr in Hcreate; try done.
  injection Hcreate as <- <-.
  destruct (find_order_Some _ _ _ Ho) as [Hin <-].
  exists bev, (priceOf_spec (order_id order) db).
  split; [done|]. split; [by apply router_get_price_of_order_keyed|].
  assert (∀ x,
            priceOf_spec (order_id x)
              (set_order_beverages
                 (λ ls, ls ++ [mkOrderBeverageQuantity (order_id order) b q])
                 (set_beverages
                    <[b := mkBeverage (beverage_price bev) (beverage_stock bev - q)]> db))
            = priceOf_spec (order_id x) db
              + (if bool_decide (order_id x = order_id order)
                 then beverage_price bev * q else 0)) as Hprice.
  { intros x. unfold priceOf_spec.
    cbn [pizzas order_beverages set_order_beverages set_beverages].
    rewrite filter_app, fmap_app, Zsum_app.
    rewrite (list_fmap_ext (line_price _) (line_price db)
               (filter _ (order_beverages db)) )
      by (intros _ l _; by apply line_price_stock_changed).
    assert (∀ p, pizza_price
                   (set_order_beverages
                      (λ ls, ls ++ [mkOrderBeverageQuantity (order_id order) b q])
                      (set_beverages
                         <[b := mkBeverage (beverage_price bev) (beverage_stock bev - q)]> db))
                   p = pizza_price db p) as Hpp by done.
    rewrite (list_fmap_ext (pizza_price _) (pizza_price db) _ (λ _ p _, Hpp p)).
    case_bool_decide as Hx.
    - rewrite filter_cons_True by (cbn; congruence).
      rewrite filter_nil, fmap_cons, fmap_nil, Zsum_cons, Zsum_nil.
      rewrite (line_price_stock_changed db _ b bev _ _ Hb).
      unfold line_price. cbn. rewrite Hb. cbn. lia.
    - rewrite filter_cons_False by (cbn; congruence).
      rewrite filter_nil, fmap_nil, Zsum_nil. lia. }
  split.
  - rewrite router_get_price_of_order_keyed by done. rewrite Hprice.
    by rewrite (bool_decide_eq_true_2 _ (eq_refl (order_id order))).
  - intros other Hother Hne.
    rewrite !router_get_price_of_order_keyed by done. rewrite Hprice.
    rewrite (bool_decide_eq_false_2 _ Hne). cbn. do 3 f_equal. lia.
Qed.

Lemma create_order_beverage_raises_price_witness :
  ∃ bev price,
    beverages db_two_orders !! 30%N = Some bev
    ∧ router.get_price_of_order 100%N db_two_orders = Some (Return (Body price), db_two_orders)
    ∧ fst <$> router.get_price_of_order 100%N
                (set_order_beverages (λ ls, ls ++ [mkOrderBeverageQuantity 100%N 30%N 5])
                   (set_beverages <[30%N := mkBeverage 350 5]> db_two_orders))
      = Some (Return (Body (price + beverage_price bev * 5))).
Proof.
  destruct (create_order_beverage_raises_price db_two_orders 100%N 30%N 5
              (mkOrderBeverageQuantity 100%N 30%N 5)
              (set_order_beverages (λ ls, ls ++ [mkOrderBeverageQuantity 100%N 30%N 5])
                 (set_beverages <[30%N := mkBeverage 350 5]> db_two_orders)))
    as (bev & price & Hb & Hp & Hp' & _).
  - unfold orders_keyed. simpl. by apply (bool_decide_unpack _).
  - vm_compute. reflexivity.
  - exists bev, price. split; [exact Hb|]. split; [exact Hp|]. by rewrite Hp'.
Defined.

(** ** The pizzas of an order *)

Lemma joined_pizza_rows db (ps : list Pizza) :
  (∀ p, p ∈ ps → is_Some (pizza_pizza_type_id p ≫= λ i, pizza_types db !! i)) →
  (ps ≫= λ p, option_list (pizza_pizza_type_id p ≫= λ i, pizza_types db !! i) ≫= λ t,
              [(pizza_id p, t)]).*1 = pizza_id <$> ps
  ∧ Zsum ((λ row, pizza_type_price row.2)
            <$> (ps ≫= λ p,
                   option_list (pizza_pizza_type_id p ≫= λ i, pizza_types db !! i) ≫= λ t,
                   [(pizza_id p, t)]))
    = Zsum (pizza_price db <$> ps).
Proof.
  induction ps as [|p ps IH]; [done|]. intros Hres.
  destruct IH as [IH1 IH2]; [intros x Hx; apply Hres; by right|].
  destruct (Hres p (list_elem_of_here _ _)) as [t Ht].
  rewrite bind_cons, !fmap_app, Zsum_app, IH1, IH2, !fmap_cons, Zsum_cons.
  unfold pizza_price at 2. rewrite Ht. cbn. split; [done|lia].
Qed.

Lemma joined_pizza_rows_elem db (ps : list Pizza) i t :
  (i, t) ∈ (ps ≫= λ p,
              option_list (pizza_pizza_type_id p ≫= λ i, pizza_types db !! i) ≫= λ t,
              [(pizza_id p, t)])
  ↔ ∃ p, p ∈ ps ∧ pizza_id p = i
         ∧ (pizza_pizza_type_id p ≫= λ i, pizza_types db !! i) = Some t.
Proof.
  rewrite list_elem_of_bind. split.
  - intros (p & Hrow & Hp). exists p. split; [done|].
    destruct (pizza_pizza_type_id p ≫= λ i, pizza_types db !! i) as [t'|]; cbn in Hrow.
    + apply list_elem_of_singleton in Hrow. by injection Hrow as <- <-.
    + by apply elem_of_nil in Hrow.
  - intros (p & Hp & <- & Ht). exists p. split; [|done]. rewrite Ht. cbn.
    apply list_elem_of_here.
Qed.

(** X21: [router.get_pizzas_from_order] answers 404 for an unknown order;
    for a known one, on a store that meets the data model's constraints, it
    returns one row per pizza of the order, in stored order, each with the
    pizza's id and the pizza type the pizza refers to, and no row of another
    order; the prices of these rows and the prices of the order's beverage
    lines add up to what [get_price_of_order] answers.  The store is not
    changed. *)
Theorem get_pizzas_from_order_rows db o :
  store_ok db → orders_keyed db →
  match find (λ x, bool_decide (order_id x = o)) (orders db) with
  | None => router.get_pizzas_from_order o db = Some (Return (Status 404), db)
  | Some _ =>
      ∃ rows,
        router.get_pizzas_from_order o db = Some (Return (Body rows), db)
        ∧ rows.*1 = pizza_id <$> filter (λ p, pizza_order_id p = Some o) (pizzas db)
        ∧ (∀ i t, (i, t) ∈ rows
                  ↔ ∃ p, p ∈ pizzas db ∧ pizza_order_id p = Some o ∧ pizza_id p = i
                         ∧ (pizza_pizza_type_id p ≫= λ k, pizza_types db !! k) = Some t)
        ∧ router.get_price_of_order o db
          = Some (Return
                    (Body (Zsum (line_price db
                                   <$> filter (λ l, obq_order_id l = o) (order_beverages db))
                           + Zsum ((λ row, pizza_type_price row.2) <$> rows))), db)
  end.
Proof.
  intros Hok Hkeys. unfold router.get_pizzas_from_order, order_crud.get_order_by_id.
  rewrite bind_gets.
  destruct (find _ (orders db)) as [order|] eqn:Ho; [|done].
  destruct (find_order_Some _ _ _ Ho) as [Hin <-].
  unfold order_crud.get_all_pizzas_of_order. rewrite bind_gets.
  eexists. split; [reflexivity|].
  destruct (joined_pizza_rows db
              (filter (λ p, pizza_order_id p = Some (order_id order)) (pizzas db)))
    as [Hids Hsum].
  { intros p [_ Hp]%list_elem_of_filter. by apply Hok. }
  split; [exact Hids|]. split.
  - intros i t. rewrite joined_pizza_rows_elem. split.
    + intros (p & [Hpo Hp]%list_elem_of_filter & Hid & Ht). by exists p.
    + intros (p & Hp & Hpo & Hid & Ht). exists p. split; [|done].
      by apply list_elem_of_filter.
  - rewrite Hsum. by apply router_get_price_of_order_keyed.
Qed.

Lemma get_pizzas_from_order_rows_witness :
  ∃ rows,
    router.get_pizzas_from_order 101%N db_two_orders
      = Some (Return (Body rows), db_two_orders)
    ∧ rows.*1 = [200%N]
    ∧ router.get_price_of_order 101%N db_two_orders
      = Some (Return (Body (1050 + Zsum ((λ row, pizza_type_price row.2) <$> rows))),
              db_two_orders).
Proof.
  destruct (get_pizzas_from_order_rows db_two_orders 101%N db_two_orders_ok)
    as (rows & Hrun & Hids & _ & Hprice).
  - unfold orders_keyed. simpl. by apply (bool_decide_unpack _).
  - exists rows. split; [exact Hrun|]. split; [exact Hids | exact Hprice].
Defined.

(** ** The topping rows of a pizza type *)

Lemma find_topping_row_None (i : uuid) (tqs : list PizzaTypeToppingQuantity) :
  find (λ tq, bool_decide (tq_topping_id tq = i)) tqs = None
  ↔ i ∉ tq_topping_id <$> tqs.
Proof.
  induction tqs as [|tq tqs IH]; cbn.
  - split; [intros _ H; by apply elem_of_nil in H | done].
  - case_bool_decide as Hi.
    + split; [done|]. intros Hnot. exfalso. apply Hnot. rewrite Hi. apply list_elem_of_here.
    + rewrite IH, not_elem_of_cons. split; [by intros ?; split; [congruence|]|by intros [_ ?]].
Qed.

Lemma create_pizza_type_topping_cases db k i q :
  (∀ k t, pizza_types db !! k = Some t → pizza_type_id t = k) →
  (pizza_types db !! k = None
   ∧ pizza_type_router.create_pizza_type_topping k i q db = Some (Raise 404, db))
  ∨ (∃ t,
       pizza_types db !! k = Some t
       ∧ ((toppings db !! i = None
           ∧ pizza_type_router.create_pizza_type_topping k i q db = Some (Raise 404, db))
          ∨ (is_Some (toppings db !! i)
             ∧ i ∈ tq_topping_id <$> pizza_type_toppings t
             ∧ pizza_type_router.create_pizza_type_topping k i q db
               = Some (Return (RedirectResponse k 303), db))
          ∨ (is_Some (toppings db !! i)
             ∧ (i ∉ tq_topping_id <$> pizza_type_toppings t)
             ∧ pizza_type_router.create_pizza_type_topping k i q db
               = Some (Return (Body (mkToppingQuantity i q)),
                       set_pizza_types
                         <[k := mkPizzaType (pizza_type_id t) (pizza_type_price t)
                                            (pizza_type_dough_id t)
                                            (pizza_type_toppings t
                                               ++ [mkToppingQuantity i q])]> db)))).
Proof.
  intros Hids.
  unfold pizza_type_router.create_pizza_type_topping,
    pizza_type_crud.get_pizza_type_by_id, pizza_type_crud.get_topping_quantity_by_id.
  rewrite bind_gets.
  destruct (pizza_types db !! k) as [t|] eqn:Ht; [|by left].
  right. exists t. split; [done|]. rewrite bind_gets.
  destruct (toppings db !! i) as [top|] eqn:Hi; [|by left].
  right. rewrite bind_gets, Ht. cbn [mbind option_bind].
  destruct (find _ (pizza_type_toppings t)) as [found|] eqn:Hfound.
  - left. split; [by eexists|]. split; [|done].
    apply find_some in Hfound as [Hin Hid]. apply bool_decide_eq_true in Hid.
    rewrite <- Hid. apply list_elem_of_fmap_2. by apply list_elem_of_In.
  - right. split; [by eexists|]. split; [by apply find_topping_row_None|].
    unfold pizza_type_crud.create_topping_quantity. unfold_monad.
    do 2 f_equal. store_fields. cbn [pizza_types set_pizza_types].
    rewrite (Hids _ _ Ht). apply map_eq. intros j.
    destruct (decide (k = j)) as [<-|Hne].
    + rewrite lookup_alter_eq, lookup_insert_eq, Ht. cbn. by rewrite (Hids _ _ Ht).
    + by rewrite lookup_alter_ne, lookup_insert_ne.
Qed.

(** X22: [pizza_type_router.create_pizza_type_topping] always answers:
    it raises 404 if the pizza type or the topping does not exist,
    redirects (303) if the pizza type has a row for the topping already, all
    three without touching the store; otherwise it appends the row, with the
    quantity as given, to the rows of that pizza type, where
    [get_topping_quantity_by_id] and [get_pizza_type_toppings] then show it,
    and changes no other pizza type, no stock and no order. *)
Theorem create_pizza_type_topping_answers db k i q :
  (∀ k t, pizza_types db !! k = Some t → pizza_type_id t = k) →
  ∃ r db',
    pizza_type_router.create_pizza_type_topping k i q db = Some (r, db')
    ∧ match r with
      | Raise c =>
          c = 404 ∧ db' = db ∧ (pizza_types db !! k = None ∨ toppings db !! i = None)
      | Return (RedirectResponse j c) =>
          j = k ∧ c = 303 ∧ db' = db
          ∧ ∃ t, pizza_types db !! k = Some t
                 ∧ i ∈ tq_topping_id <$> pizza_type_toppings t
      | Return (Body row) =>
          row = mkToppingQuantity i q
          ∧ is_Some (toppings db !! i)
          ∧ ∃ t, pizza_types db !! k = Some t
                 ∧ (i ∉ tq_topping_id <$> pizza_type_toppings t)
                 ∧ pizza_type_crud.get_topping_quantity_by_id k i db'
                   = Some (Return (Some row), db')
                 ∧ pizza_type_router.get_pizza_type_toppings k true db'
                   = Some (Return (Body (pizza_type_toppings t ++ [row])), db')
                 ∧ (∀ j, j ≠ k → pizza_types db' !! j = pizza_types db !! j)
                 ∧ doughs db' = doughs db ∧ toppings db' = toppings db
                 ∧ beverages db' = beverages db ∧ orders db' = orders db
                 ∧ pizzas db' = pizzas db ∧ order_beverages db' = order_beverages db
      | Return (Status _) => False
      end.
Proof.
  intros Hids.
  destruct (create_pizza_type_topping_cases db k i q Hids)
    as [[Ht Hr]|(t & Ht & [[Hi Hr]|[(Hi & Hrow & Hr)|(Hi & Hrow & Hr)]])];
    rewrite Hr; eexists _, _; (split; [reflexivity|]); cbn beta iota.
  - split; [done|]. split; [done|]. by left.
  - split; [done|]. split; [done|]. by right.
  - split; [done|]. split; [done|]. split; [done|]. by exists t.
  - split; [done|]. split; [done|]. exists t. split; [done|]. split; [done|].
    split; [|split; [|split; [|done]]].
    + unfold pizza_type_crud.get_topping_quantity_by_id, gets. do 3 f_equal.
      cbn [pizza_types set_pizza_types]. rewrite lookup_insert_eq.
      cbn [mbind option_bind pizza_type_toppings].
      apply find_topping_row_None in Hrow.
      rewrite (find_app_None _ _ _ Hrow). cbn [find tq_topping_id].
      by rewrite (bool_decide_eq_true_2 _ (eq_refl i)).
    + unfold pizza_type_router.get_pizza_type_toppings,
        pizza_type_crud.get_pizza_type_by_id,
        pizza_type_crud.get_joined_topping_quantities_by_pizza_type.
      rewrite bind_gets. cbn [pizza_types set_pizza_types].
      rewrite lookup_insert_eq. rewrite bind_gets.
      cbn [pizza_types set_pizza_types pizza_type_id]. rewrite (Hids _ _ Ht).
      by rewrite lookup_insert_eq.
    + intros j Hj. cbn [pizza_types set_pizza_types]. by rewrite lookup_insert_ne.
Qed.

Lemma create_pizza_type_topping_answers_witness :
  ∃ r db',
    pizza_type_router.create_pizza_type_topping 40%N 20%N 1 db_two_orders = Some (r, db')
    ∧ r = Return (RedirectResponse 40%N 303) ∧ db' = db_two_orders.
Proof.
  destruct (create_pizza_type_topping_answers db_two_orders 40%N 20%N 1)
    as (r & db' & Hrun & Hr).
  - intros k t. cbn. by intros [<- <-]%lookup_singleton_Some.
  - exists r, db'. split; [exact Hrun|].
    assert (pizza_type_router.create_pizza_type_topping 40%N 20%N 1 db_two_orders
            = Some (Return (RedirectResponse 40%N 303), db_two_orders)) as Hrun'
      by (vm_compute; reflexivity).
    rewrite Hrun' in Hrun. by injection Hrun as <- <-.
Defined.

(** X23: whatever [pizza_type_router.create_pizza_type_topping] answers, it
    keeps the topping rows of the pizza types well formed: every pizza type
    still has at most one row per topping, and every row still refers to a
    topping that exists. *)
Theorem create_pizza_type_topping_keeps_rows db k i q r db' :
  (∀ k t, pizza_types db !! k = Some t → pizza_type_id t = k) →
  topping_rows_keyed db →
  (∀ k t, pizza_types db !! k = Some t → toppings_resolve db (pizza_type_toppings t)) →
  pizza_type_router.create_pizza_type_topping k i q db = Some (r, db') →
  (∀ k t, pizza_types db' !! k = Some t → pizza_type_id t = k)
  ∧ topping_rows_keyed db'
  ∧ (∀ k t, pizza_types db' !! k = Some t → toppings_resolve db' (pizza_type_toppings t)).
Proof.
  intros Hids Hkeyed Hres Hrun.
  destruct (create_pizza_type_topping_cases db k i q Hids)
    as [[Ht Hr]|(t & Ht & [[Hi Hr]|[(Hi & Hrow & Hr)|(Hi & Hrow & Hr)]])];
    rewrite Hr in Hrun; injection Hrun as <- <-; [done|done|done|].
  unfold topping_rows_keyed, toppings_resolve.
  cbn [pizza_types toppings set_pizza_types].
  split; [|split]; intros j t'; (destruct (decide (k = j)) as [<-|Hne];
    [rewrite lookup_insert_eq; intros [= <-]; cbn
    |rewrite lookup_insert_ne by done; intros Ht']).
  - by apply Hids.
  - by apply Hids.
  - rewrite fmap_app. apply NoDup_app. split; [by apply (Hkeyed k)|].
    split; [|apply NoDup_singleton].
    intros x Hx Hx'%list_elem_of_singleton. cbn in Hx'. by subst x.
  - by apply (Hkeyed j).
  - apply Forall_app. split; [by apply (Hres k)|].
    apply Forall_cons. split; [done|]. by apply Forall_nil.
  - by apply (Hres j).
Qed.

Lemma create_pizza_type_topping_keeps_rows_witness :
  ∃ db',
    pizza_type_router.create_pizza_type_topping 40%N 20%N 2
      (set_pizza_types (λ _, {[ 40%N := plain_pizza_type ]}) db_two_orders)
    = Some (Return (Body (mkToppingQuantity 20%N 2)), db')
    ∧ pizza_types db' !! 40%N = Some margherita
    ∧ topping_rows_keyed db'.
Proof.
  eexists. split; [vm_compute; reflexivity|]. split; [vm_compute; reflexivity|].
  refine (proj1 (proj2 (create_pizza_type_topping_keeps_rows
                          (set_pizza_types (λ _, {[ 40%N := plain_pizza_type ]})
                             db_two_orders)
                          40%N 20%N 2 _ _ _ _ _ _))).
  - intros k t. cbn. by intros [<- <-]%lookup_singleton_Some.
  - unfold topping_rows_keyed. cbn.
    intros k t [_ <-]%lookup_singleton_Some. cbn. apply NoDup_nil_2.
  - intros k t. cbn. intros [_ <-]%lookup_singleton_Some. cbn. by apply Forall_nil.
  - vm_compute. reflexivity.
Defined.

(** ** Updating a beverage line twice *)

Lemma update_beverage_of_order_run db o b q order l bev :
  find (λ x, bool_decide (order_id x = o)) (orders db) = Some order →
  find (order_crud.is_line o b) (order_beverages db) = Some l →
  beverages db !! b = Some bev →
  0 < q →
  router.update_beverage_of_order o b q db
  = if beverage_stock bev + (obq_quantity l - q) <? 0
    then Some (Raise 409, db)
    else Some (Return (Body (Some (mkOrderBeverageQuantity (obq_order_id l)
                                                            (obq_beverage_id l) q))),
               set_order_beverages (order_crud.set_quantity_of_first o b q)
                 (set_beverages
                    <[b := mkBeverage (beverage_price bev)
                                      (beverage_stock bev + (obq_quantity l - q))]> db)).
Proof.
  intros Ho Hl Hb Hq.
  unfold router.update_beverage_of_order, order_crud.get_order_by_id,
    order_crud.update_beverage_quantity_of_order,
    order_crud.get_beverage_quantity_by_id, change_stock_of_beverage.
  unfold_monad. cbn. rewrite Ho. cbn.
  destruct (Z.leb_spec q 0) as [Hq0|_]; [lia|]. cbn. rewrite Hl. cbn. rewrite Hb. cbn.
  destruct (beverage_stock bev + (obq_quantity l - q) <? 0); cbn; [done|].
  by rewrite Hl.
Qed.

Lemma update_beverage_of_order_body db o b q r db' :
  router.update_beverage_of_order o b q db = Some (Return (Body r), db') →
  ∃ order l bev,
    find (λ x, bool_decide (order_id x = o)) (orders db) = Some order
    ∧ find (order_crud.is_line o b) (order_beverages db) = Some l
    ∧ beverages db !! b = Some bev
    ∧ 0 < q.
Proof.
  unfold router.update_beverage_of_order, order_crud.get_order_by_id,
    order_crud.update_beverage_quantity_of_order,
    order_crud.get_beverage_quantity_by_id, change_stock_of_beverage.
  unfold_monad. cbn.
  destruct (find _ (orders db)) as [order|] eqn:Ho; cbn; [|done].
  destruct (Z.leb_spec q 0) as [Hq0|Hq]; cbn; [done|].
  destruct (find _ (order_beverages db)) as [l|] eqn:Hl; cbn; [|done].
  destruct (beverages db !! b) as [bev|] eqn:Hb; cbn; [|done].
  intros _. by exists order, l, bev.
Qed.

Lemma set_quantity_of_first_twice o b q1 q2 (ls : list OrderBeverageQuantity) :
  order_crud.set_quantity_of_first o b q2 (order_crud.set_quantity_of_first o b q1 ls)
  = order_crud.set_quantity_of_first o b q2 ls.
Proof.
  induction ls as [|x ls IH]; [done|]. cbn.
  destruct (order_crud.is_line o b x) eqn:Hx; cbn.
  - assert (order_crud.is_line o b
              (mkOrderBeverageQuantity (obq_order_id x) (obq_beverage_id x) q1) = true) as ->;
      [|done].
    apply is_line_spec in Hx. by apply is_line_spec.
  - by rewrite Hx, IH.
Qed.

(** X24: an update of a beverage line that went through is forgotten by
    the next one that goes through: after [router.update_beverage_of_order]
    has set a line to one quantity, setting it to a second quantity succeeds
    exactly when setting the second quantity right away would have, and
    ends with the same answer in the same store, line and stock. *)
Theorem update_beverage_of_order_twice db o b q1 q2 r1 db1 r2 db2 :
  router.update_beverage_of_order o b q1 db = Some (Return (Body r1), db1) →
  router.update_beverage_of_order o b q2 db1 = Some (Return (Body r2), db2)
  ↔ router.update_beverage_of_order o b q2 db = Some (Return (Body r2), db2).
Proof.
  intros Hfirst.
  destruct (update_beverage_of_order_body _ _ _ _ _ _ Hfirst)
    as (order & l & bev & Ho & Hl & Hb & Hq1).
  rewrite (update_beverage_of_order_run db o b q1 order l bev Ho Hl Hb Hq1) in Hfirst.
  destruct (Z.ltb_spec (beverage_stock bev + (obq_quantity l - q1)) 0) as [|Hs1]; [done|].
  injection Hfirst as <- <-.
  destruct (Z.le_gt_cases q2 0) as [Hq2|Hq2].
  { split; intros H; apply update_beverage_of_order_body in H as (_ & _ & _ & _ & _ & _ & ?); lia. }
  rewrite (update_beverage_of_order_run db o b q2 order l bev Ho Hl Hb) by lia.
  erewrite (update_beverage_of_order_run _ o b q2 order); [|exact Ho| | |lia].
  2:{ cbn [order_beverages set_order_beverages set_beverages].
      by apply find_set_quantity_of_first. }
  2:{ cbn [beverages set_order_beverages set_beverages]. apply lookup_insert_eq. }
  cbn [beverage_stock beverage_price obq_quantity obq_order_id obq_beverage_id].
  replace (beverage_stock bev + (obq_quantity l - q1) + (q1 - q2))
    with (beverage_stock bev + (obq_quantity l - q2)) by lia.
  destruct (beverage_stock bev + (obq_quantity l - q2) <? 0).
  { split; intros [=]. }
  assert (set_order_beverages (order_crud.set_quantity_of_first o b q2)
            (set_beverages
               <[b := mkBeverage (beverage_price bev)
                                 (beverage_stock bev + (obq_quantity l - q2))]>
               (set_order_beverages (order_crud.set_quantity_of_first o b q1)
                  (set_beverages
                     <[b := mkBeverage (beverage_price bev)
                                       (beverage_stock bev + (obq_quantity l - q1))]> db)))
          = set_order_beverages (order_crud.set_quantity_of_first o b q2)
              (set_beverages
                 <[b := mkBeverage (beverage_price bev)
                                   (beverage_stock bev + (obq_quantity l - q2))]> db))
    as ->; [|done].
  store_fields.
  - apply insert_insert_eq.
  - apply set_quantity_of_first_twice.
Qed.

Lemma update_beverage_of_order_twice_witness :
  router.update_beverage_of_order 101%N 30%N 7
    (set_order_beverages (order_crud.set_quantity_of_first 101%N 30%N 5)
       (set_beverages <[30%N := mkBeverage 350 8]> db_two_orders))
  = Some (Return (Body (Some (mkOrderBeverageQuantity 101%N 30%N 7))),
          set_order_beverages (order_crud.set_quantity_of_first 101%N 30%N 7)
            (set_beverages <[30%N := mkBeverage 350 6]> db_two_orders)).
Proof.
  apply (update_beverage_of_order_twice db_two_orders 101%N 30%N 5 7
           (Some (mkOrderBeverageQuantity 101%N 30%N 5))).
  - vm_compute. reflexivity.
  - vm_compute. reflexivity.
Defined.

(** ** What no order request changes *)

Lemma same_catalog_refl db : same_catalog db db.
Proof. by repeat split. Qed.

Lemma same_catalog_trans db1 db2 db3 :
  same_catalog db1 db2 → same_catalog db2 db3 → same_catalog db1 db3.
Proof.
  intros (Hu & Ht & Hd & Hp & Hb) (Hu' & Ht' & Hd' & Hp' & Hb').
  repeat split; [congruence | congruence |..]; intros i;
    [by rewrite Hd' | by rewrite Hp' | by rewrite Hb'].
Qed.

Lemma keeps_ret {A} (a : A) : keeps_catalog (ret a).
Proof. intros db r db' [= <- <-]. apply same_catalog_refl. Qed.

Lemma keeps_gets {A} (f : DB → A) : keeps_catalog (gets f).
Proof. intros db r db' [= <- <-]. apply same_catalog_refl. Qed.

Lemma keeps_raise_http {A} c : keeps_catalog (@raise_http A c).
Proof. intros db r db' [= <- <-]. apply same_catalog_refl. Qed.

Lemma keeps_attribute_error {A} : keeps_catalog (@attribute_error A).
Proof. by intros db r db'. Qed.

Lemma keeps_modify (f : DB → DB) :
  (∀ db, same_catalog db (f db)) → keeps_catalog (modify f).
Proof. intros Hf db r db' [= <- <-]. apply Hf. Qed.

Lemma keeps_uuid4 : keeps_catalog uuid4.
Proof. intros db r db' [= <- <-]. by repeat split. Qed.

Lemma keeps_bind {A B} (m : M A) (k : A → M B) :
  keeps_catalog m → (∀ a, keeps_catalog (k a)) → keeps_catalog (bind m k).
Proof.
  intros Hm Hk db r db'. unfold bind.
  destruct (m db) as [[[a|c] db1]|] eqn:Hrun; [| |done].
  - intros Hrun'. eapply same_catalog_trans; [by eapply Hm | by eapply Hk].
  - intros [= <- <-]. by eapply Hm.
Qed.

Lemma keeps_for_each {A} (xs : list A) (body : A → M unit) :
  (∀ x, keeps_catalog (body x)) → keeps_catalog (for_each xs body).
Proof.
  intros Hbody. induction xs as [|x xs IH]; cbn [for_each].
  - apply keeps_ret.
  - apply keeps_bind; [apply Hbody | by intros _].
Qed.

(** A stock count written back with the row's own price. *)
Lemma price_kept_by_insert {V} (price : V → Z) (m : gmap N V) i v v' :
  m !! i = Some v → price v' = price v →
  ∀ j, price <$> <[i := v']> m !! j = price <$> m !! j.
Proof.
  intros Hi Hprice j. destruct (decide (i = j)) as [<-|Hne].
  - rewrite lookup_insert_eq, Hi. cbn. by rewrite Hprice.
  - by rewrite lookup_insert_ne.
Qed.

Lemma keeps_add_dough_stock i delta : keeps_catalog (add_dough_stock i delta).
Proof.
  intros db r db'. unfold add_dough_stock. rewrite bind_gets.
  destruct (doughs db !! i) as [d|] eqn:Hd; [|done]. intros [= <- <-].
  repeat split. cbn [doughs set_doughs]. by apply price_kept_by_insert with d.
Qed.

Lemma keeps_add_topping_stock i delta : keeps_catalog (add_topping_stock i delta).
Proof.
  intros db r db'. unfold add_topping_stock. rewrite bind_gets.
  destruct (toppings db !! i) as [t|] eqn:Ht; [|done]. intros [= <- <-].
  repeat split. cbn [toppings set_toppings]. by apply price_kept_by_insert with t.
Qed.

Lemma keeps_change_stock_of_beverage i delta :
  keeps_catalog (change_stock_of_beverage i delta).
Proof.
  intros db r db'. unfold change_stock_of_beverage. rewrite bind_gets.
  destruct (beverages db !! i) as [b|] eqn:Hb.
  2:{ intros [= <- <-]. apply same_catalog_refl. }
  destruct (beverage_stock b + delta <? 0).
  { intros [= <- <-]. apply same_catalog_refl. }
  unfold_monad. intros [= <- <-].
  repeat split. cbn [beverages set_beverages]. by apply price_kept_by_insert with b.
Qed.

Lemma keeps_toppings_are_available tqs : keeps_catalog (toppings_are_available tqs).
Proof.
  induction tqs as [|tq tqs IH]; cbn [toppings_are_available]; [apply keeps_ret|].
  apply keeps_bind.
  - unfold topping_of. apply keeps_bind; [apply keeps_gets|].
    intros [t|]; [apply keeps_ret | apply keeps_attribute_error].
  - intros t. destruct (topping_stock t <? tq_quantity tq); [apply keeps_ret | done].
Qed.

(** The tables these setters write are none of the catalog's. *)
Lemma same_catalog_set_orders f db : same_catalog db (set_orders f db).
Proof. by repeat split. Qed.
Lemma same_catalog_set_pizzas f db : same_catalog db (set_pizzas f db).
Proof. by repeat split. Qed.
Lemma same_catalog_set_order_beverages f db : same_catalog db (set_order_beverages f db).
Proof. by repeat split. Qed.

Create HintDb keeps.
#[local] Hint Resolve keeps_ret keeps_gets keeps_raise_http keeps_attribute_error
  keeps_uuid4 keeps_add_dough_stock keeps_add_topping_stock
  keeps_change_stock_of_beverage keeps_toppings_are_available
  same_catalog_set_orders same_catalog_set_pizzas same_catalog_set_order_beverages
  same_catalog_refl : keeps.

(** Walks down a computation written with [bind], [for_each], [match] and
    [if], leaving its primitive steps to the hints. *)
Ltac keeps :=
  repeat first
    [ solve [eauto 2 with keeps]
    | apply keeps_bind; [|intros ?]
    | apply keeps_for_each; intros ?
    | apply keeps_modify; intros ?
    | match goal with
      | |- keeps_catalog (match ?x with _ => _ end) => destruct x
      | |- same_catalog ?db (set_orders _ (set_pizzas _ (set_order_beverages _ ?db))) =>
          by repeat split
      end ].

Lemma keeps_ingredients_are_available t : keeps_catalog (ingredients_are_available t).
Proof. unfold ingredients_are_available, dough_of. keeps. Qed.

Lemma keeps_reduce_stock_of_ingredients t : keeps_catalog (reduce_stock_of_ingredients t).
Proof. unfold reduce_stock_of_ingredients. keeps. Qed.

Lemma keeps_increase_stock_of_ingredients t :
  keeps_catalog (increase_stock_of_ingredients t).
Proof. unfold increase_stock_of_ingredients. keeps. Qed.

Lemma keeps_delete_order_by_id i : keeps_catalog (order_crud.delete_order_by_id i).
Proof.
  unfold order_crud.delete_order_by_id, order_crud.get_order_by_id,
    order_crud.db_delete_order. keeps.
Qed.

Lemma keeps_crud_add_pizza_to_order order t :
  keeps_catalog (order_crud.add_pizza_to_order order t).
Proof. unfold order_crud.add_pizza_to_order, order_crud.create_pizza. keeps. Qed.

#[local] Hint Resolve keeps_ingredients_are_available keeps_reduce_stock_of_ingredients
  keeps_increase_stock_of_ingredients keeps_delete_order_by_id
  keeps_crud_add_pizza_to_order : keeps.

Lemma keeps_handle r : keeps_catalog (handle r).
Proof.
  destruct r; cbn [handle]; (apply keeps_bind; [|intros ?; apply keeps_ret]).
  - unfold router.add_pizza_to_order, order_crud.get_order_by_id. keeps.
  - unfold router.delete_pizza_from_order, order_crud.get_order_by_id,
      order_crud.get_pizza_by_id, router.pizza_type_of,
      order_crud.delete_pizza_from_order. keeps.
  - unfold router.create_order_beverage, order_crud.get_order_by_id,
      order_crud.get_beverage_quantity_by_id, beverage_is_available,
      order_crud.create_beverage_quantity. keeps.
  - unfold router.update_beverage_of_order, order_crud.get_order_by_id,
      order_crud.get_beverage_quantity_by_id,
      order_crud.update_beverage_quantity_of_order. keeps.
  - unfold router.delete_beverage_from_order, order_crud.get_order_by_id,
      order_crud.get_beverage_quantity_by_id,
      order_crud.delete_beverage_from_order. keeps.
  - unfold router.delete_order, order_crud.get_order_by_id, router.pizzas_of,
      router.beverages_of, router.pizza_type_of. keeps.
  - unfold router.create_order, router.user_is_none, order_crud.create_order,
      order_crud.get_order_by_id, router.pizzas_of, router.beverages_of,
      router.copy_pizza, router.copy_beverage, router.pizza_type_of,
      order_crud.create_beverage_quantity. keeps.
Qed.

(** X25: however a sequence of requests to the order handlers goes (any
    answers, any scoping), as long as it runs to its end it moves stock
    counts only: the users, the pizza types with their prices and topping
    rows, the sets of doughs, toppings and beverages and the price of each
    of them are at the end what they were at the start. *)
Theorem serve_all_keeps_catalog rs db db' :
  serve_all rs db = Some db' → same_catalog db db'.
Proof.
  revert db. induction rs as [|r rs IH]; intros db; cbn [serve_all].
  - intros [= <-]. apply same_catalog_refl.
  - unfold serve. destruct (handle r db) as [[res db1]|] eqn:Hrun; [|done]. cbn.
    intros Hrest. eapply same_catalog_trans; [|by apply IH].
    by apply (keeps_handle r db res db1).
Qed.

Lemma serve_all_keeps_catalog_witness :
  ∃ db',
    serve_all [AddPizza 100%N 40%N; RemovePizza 100%N 200%N;
               UpdateBeverageLine 101%N 30%N 9; CopyOrder 1%N 101%N] db_two_orders
    = Some db'
    ∧ same_catalog db_two_orders db'.
Proof.
  eexists. split; [vm_compute; reflexivity|].
  apply (serve_all_keeps_catalog
           [AddPizza 100%N 40%N; RemovePizza 100%N 200%N;
            UpdateBeverageLine 101%N 30%N 9; CopyOrder 1%N 101%N]).
  vm_compute. reflexivity.
Defined.

(** ** The price of a copy *)

Lemma pizza_price_same_types db (rows ps : list Pizza) :
  pizza_pizza_type_id <$> rows = pizza_pizza_type_id <$> ps →
  pizza_price db <$> rows = pizza_price db <$> ps.
Proof.
  intros Hty.
  change (pizza_price db)
    with ((λ o : option uuid, match o ≫= λ i, pizza_types db !! i with
                              | Some t => pizza_type_price t
                              | None => 0
                              end) ∘ pizza_pizza_type_id).
  by rewrite !list_fmap_compose, Hty.
Qed.

(** X26: an order copied from a template costs what the template costs:
    when [router.create_order] with the id of an existing order returns the
    new order, [get_price_of_order] answers for the new order, in the store
    after the copy, what it answered for the template before. *)
Theorem create_order_copy_same_price db u c template new db' :
  store_ok db → orders_keyed db →
  find (λ x, bool_decide (order_id x = c)) (orders db) = Some template →
  router.create_order u (Some c) db = Some (Return new, db') →
  ∃ price,
    router.get_price_of_order c db = Some (Return (Body price), db)
    ∧ router.get_price_of_order (order_id new) db' = Some (Return (Body price), db').
Proof.
  intros Hok Hkeys Htemplate Hrun.
  destruct (find_order_Some _ _ _ Htemplate) as [Hin <-].
  exists (priceOf_spec (order_id template) db).
  split; [by apply router_get_price_of_order_keyed|].
  assert (same_catalog db db') as (_ & Htypes & _ & _ & Hprices).
  { apply (keeps_handle (CopyOrder u (order_id template)) db (Return tt) db').
    cbn [handle]. by rewrite (bind_return _ _ _ _ _ Hrun). }
  destruct (create_order_outcome db u (order_id template) Hok)
    as [Hr|[Hr|[[db1 Hr]|(rows & D & T & B & n' & Hr & Hty & Hrows & _)]]];
    rewrite Hrun in Hr; try discriminate.
  injection Hr as -> ->.
  cbn [beverages pizza_types set_orders set_order_beverages set_beverages set_next_uuid
       set_pizzas set_toppings set_doughs] in Htypes, Hprices.
  rewrite (router_get_price_of_order_keyed _ (mkOrder (next_uuid db) u TRANSMITTED)).
  2:{ unfold orders_keyed. cbn [orders set_orders]. rewrite fmap_app.
      apply NoDup_app. split; [done|]. split; [|apply NoDup_singleton].
      intros i (o & -> & Ho)%list_elem_of_fmap Hi%list_elem_of_singleton.
      pose proof (ok_order_fresh _ Hok o Ho). cbn in Hi. lia. }
  2:{ cbn [orders set_orders]. apply elem_of_app. right. apply list_elem_of_here. }
  match goal with
  | |- Some (Return (Body ?x), _) = _ =>
      assert (x = priceOf_spec (order_id template) db) as ->; [|done]
  end.
  unfold priceOf_spec.
  cbn [order_id pizzas order_beverages set_orders set_order_beverages set_beverages
       set_next_uuid set_pizzas].
  f_equal.
  - rewrite filter_app,
      (filter_none (λ l, obq_order_id l = next_uuid db) (order_beverages db)),
      (filter_all (λ l, obq_order_id l = next_uuid db) (_ <$> _)), app_nil_l.
    + rewrite <- list_fmap_compose. apply (f_equal Zsum), list_fmap_ext. intros _ l _.
      unfold line_price, compose.
      cbn [beverages obq_beverage_id obq_quantity set_orders set_order_beverages
           set_beverages].
      specialize (Hprices (obq_beverage_id l)).
      destruct (B !! obq_beverage_id l), (beverages db !! obq_beverage_id l);
        cbn in Hprices; [|done|done|done].
      by injection Hprices as ->.
    + intros l (y & -> & _)%list_elem_of_fmap. done.
    + intros l Hl Hlo. pose proof (ok_line_orders _ Hok l Hl). lia.
  - rewrite filter_app,
      (filter_none (λ p, pizza_order_id p = Some (next_uuid db)) (pizzas db)),
      (filter_all _ rows), app_nil_l.
    + rewrite <- (pizza_price_same_types db rows _ Hty).
      apply (f_equal Zsum), list_fmap_ext. intros _ p _. done.
    + intros r Hr. by destruct (Hrows r Hr).
    + intros p Hp Hpo. pose proof (ok_pizza_orders _ Hok p _ Hp Hpo). lia.
Qed.

Lemma create_order_copy_same_price_witness :
  ∃ new db' price,
    router.create_order 1%N (Some 101%N) db_two_orders = Some (Return new, db')
    ∧ router.get_price_of_order 101%N db_two_orders
      = Some (Return (Body price), db_two_orders)
    ∧ router.get_price_of_order (order_id new) db' = Some (Return (Body price), db').
Proof.
  eexists _, _.
  assert (∀ (P : Prop) (Q : Z → Prop), P → (P → ∃ price, Q price) → ∃ price, P ∧ Q price)
    as Hsplit.
  { intros P Q HP HQ. destruct (HQ HP) as [price Hprice]. by exists price. }
  apply Hsplit; [vm_compute; reflexivity|]. intros Hrun.
  apply (create_order_copy_same_price db_two_orders 1%N 101%N
           (mkOrder 101%N 1%N PREPARING) _ _ db_two_orders_ok).
  - unfold orders_keyed. simpl. by apply (bool_decide_unpack _).
  - reflexivity.
  - exact Hrun.
Defined.

(** ** What a failed copy leaves behind *)

Lemma hoare_ret {A} (P : DB → Prop) (a : A) Q E :
  (∀ db, P db → Q a db) → hoare P (ret a) Q E.
Proof. intros HQ db r db' HP [= <- <-]. by apply HQ. Qed.

Lemma hoare_gets {A} (P : DB → Prop) (f : DB → A) Q E :
  (∀ db, P db → Q (f db) db) → hoare P (gets f) Q E.
Proof. intros HQ db r db' HP [= <- <-]. by apply HQ. Qed.

Lemma hoare_raise_http {A} (P : DB → Prop) c (Q : A → DB → Prop) E :
  (∀ db, P db → E c db) → hoare P (raise_http c) Q E.
Proof. intros HE db r db' HP [= <- <-]. by apply HE. Qed.

Lemma hoare_attribute_error {A} (P : DB → Prop) (Q : A → DB → Prop) E :
  hoare P attribute_error Q E.
Proof. by intros db r db' HP. Qed.

Lemma hoare_modify (P : DB → Prop) (f : DB → DB) Q E :
  (∀ db, P db → Q tt (f db)) → hoare P (modify f) Q E.
Proof. intros HQ db r db' HP [= <- <-]. by apply HQ. Qed.

Lemma hoare_weaken {A} (P P' : DB → Prop) (m : M A) Q E :
  (∀ db, P db → P' db) → hoare P' m Q E → hoare P m Q E.
Proof. intros HP Hm db r db' Hdb. apply Hm. by apply HP. Qed.

Lemma hoare_bind {A B} (P : DB → Prop) (R : A → DB → Prop) (m : M A) (k : A → M B) Q E :
  hoare P m R E → (∀ a, hoare (R a) (k a) Q E) → hoare P (bind m k) Q E.
Proof.
  intros Hm Hk db r db' HP. unfold bind.
  destruct (m db) as [[[a|c] db1]|] eqn:Hrun; [| |done].
  - intros Hrun'. apply (Hk a db1 r db'); [|done]. apply (Hm db (Return a) db1 HP Hrun).
  - intros [= <- <-]. apply (Hm db (Raise c) db1 HP Hrun).
Qed.

Lemma hoare_for_each {A} (I : DB → Prop) (xs : list A) (body : A → M unit) E :
  (∀ x, hoare I (body x) (λ _, I) E) → hoare I (for_each xs body) (λ _, I) E.
Proof.
  intros Hbody. induction xs as [|x xs IH]; cbn [for_each].
  - by apply hoare_ret.
  - apply hoare_bind with (λ _, I); [apply Hbody | intros a; apply IH].
Qed.

(** A predicate that looks at the rows of orders, pizzas and beverage lines
    and at the next identifier only. *)
Lemma copying_rows db0 n db db' :
  orders db' = orders db → pizzas db' = pizzas db →
  order_beverages db' = order_beverages db → next_uuid db' = next_uuid db →
  copying db0 n db → copying db0 n db'.
Proof. intros Ho Hp Hl Hn. unfold copying. by rewrite Ho, Hp, Hl, Hn. Qed.

Lemma hoare_add_dough_stock db0 n i delta E :
  hoare (copying db0 n) (add_dough_stock i delta) (λ _, copying db0 n) E.
Proof.
  unfold add_dough_stock.
  apply hoare_bind with (λ _, copying db0 n); [by apply hoare_gets|].
  intros [d|]; [|apply hoare_attribute_error].
  apply hoare_modify. intros db. by apply copying_rows.
Qed.

Lemma hoare_add_topping_stock db0 n i delta E :
  hoare (copying db0 n) (add_topping_stock i delta) (λ _, copying db0 n) E.
Proof.
  unfold add_topping_stock.
  apply hoare_bind with (λ _, copying db0 n); [by apply hoare_gets|].
  intros [t|]; [|apply hoare_attribute_error].
  apply hoare_modify. intros db. by apply copying_rows.
Qed.

Lemma hoare_reduce_stock_of_ingredients db0 n t E :
  hoare (copying db0 n) (reduce_stock_of_ingredients t) (λ _, copying db0 n) E.
Proof.
  unfold reduce_stock_of_ingredients.
  apply hoare_bind with (λ _, copying db0 n); [apply hoare_add_dough_stock|]. intros a.
  apply hoare_for_each. intros tq. apply hoare_add_topping_stock.
Qed.

Lemma hoare_change_stock_of_beverage db0 n i delta E :
  hoare (copying db0 n) (change_stock_of_beverage i delta) (λ _, copying db0 n) E.
Proof.
  unfold change_stock_of_beverage.
  apply hoare_bind with (λ _, copying db0 n); [by apply hoare_gets|].
  intros [b|]; [|by apply hoare_ret].
  destruct (beverage_stock b + delta <? 0); [by apply hoare_ret|].
  apply hoare_bind with (λ _, copying db0 n); [|intros a; by apply hoare_ret].
  apply hoare_modify. intros db. by apply copying_rows.
Qed.

(** The availability check reads. *)
Lemma hoare_ingredients_are_available (P : DB → Prop) t E :
  hoare P (ingredients_are_available t) (λ _, P) E.
Proof.
  unfold ingredients_are_available, dough_of.
  apply hoare_bind with (λ _, P).
  { apply hoare_bind with (λ _, P); [by apply hoare_gets|].
    intros [d|]; [by apply hoare_ret | apply hoare_attribute_error]. }
  intros d. destruct (dough_stock d =? 0); [by apply hoare_ret|].
  induction (pizza_type_toppings t) as [|tq tqs IH]; cbn [toppings_are_available].
  { by apply hoare_ret. }
  apply hoare_bind with (λ _, P).
  { unfold topping_of. apply hoare_bind with (λ _, P); [by apply hoare_gets|].
    intros [x|]; [by apply hoare_ret | apply hoare_attribute_error]. }
  intros x. destruct (topping_stock x <? tq_quantity tq); [by apply hoare_ret | done].
Qed.

(** The rollback of [create_order]: the new order goes, with the pizzas and
    lines copied so far. *)
Lemma hoare_delete_new_order {A} db0 n c (Q : A → DB → Prop) :
  hoare (copying db0 n) (order_crud.delete_order_by_id n ;; raise_http c)
        Q (λ _, same_rows db0).
Proof.
  apply hoare_bind with (λ _ : unit, same_rows db0); [|intros a; by apply hoare_raise_http].
  unfold order_crud.delete_order_by_id, order_crud.get_order_by_id.
  apply hoare_bind
    with (λ entity db, copying db0 n db
                       ∧ entity = find (λ o, bool_decide (order_id o = n)) (orders db)).
  { by apply hoare_gets. }
  intros entity db r db' [Hcopy ->].
  destruct Hcopy as ([o Ho] & Hos & Hps & Hls & _). rewrite Ho.
  destruct (find_order_Some _ _ _ Ho) as [_ ->].
  unfold order_crud.db_delete_order. intros [= <- <-]. by repeat split.
Qed.

Lemma hoare_crud_add_pizza_to_order db0 new t E :
  hoare (copying db0 (order_id new)) (order_crud.add_pizza_to_order new (Some t))
        (λ _, copying db0 (order_id new)) E.
Proof.
  intros db r db' (Ho & Hos & Hps & Hls & Hfresh) Hrun.
  rewrite (crud_add_pizza_to_order_run db new t Hfresh) in Hrun.
  injection Hrun as <- <-. unfold copying.
  cbn [orders pizzas order_beverages next_uuid set_next_uuid set_pizzas].
  split; [done|]. split; [done|]. split; [|split; [done|]].
  - rewrite filter_app, Hps, filter_cons_False, filter_nil, app_nil_r; [done|].
    cbn. by intros H.
  - intros p [Hp|Hp]%elem_of_app.
    + pose proof (Hfresh p Hp). lia.
    + apply list_elem_of_singleton in Hp as ->. cbn. lia.
Qed.

Lemma hoare_copy_pizza db0 new pizza :
  hoare (copying db0 (order_id new)) (router.copy_pizza new pizza)
        (λ _, copying db0 (order_id new)) (λ _, same_rows db0).
Proof.
  unfold router.copy_pizza, router.pizza_type_of.
  apply hoare_bind with (λ _, copying db0 (order_id new)); [by apply hoare_gets|].
  intros [t|]; [|apply hoare_attribute_error].
  apply hoare_bind with (λ _, copying db0 (order_id new));
    [apply hoare_ingredients_are_available|].
  intros available. destruct (negb available).
  - apply hoare_delete_new_order.
  - apply hoare_bind with (λ _, copying db0 (order_id new)).
    + apply hoare_crud_add_pizza_to_order.
    + intros a. apply hoare_reduce_stock_of_ingredients.
Qed.

Lemma hoare_copy_beverage db0 new line :
  hoare (copying db0 (order_id new)) (router.copy_beverage new line)
        (λ _, copying db0 (order_id new)) (λ _, same_rows db0).
Proof.
  unfold router.copy_beverage.
  apply hoare_bind with (λ _, copying db0 (order_id new));
    [apply hoare_change_stock_of_beverage|].
  intros changed. destruct (negb changed).
  - apply hoare_delete_new_order.
  - apply hoare_bind with (λ _, copying db0 (order_id new)); [|intros a; by apply hoare_ret].
    unfold order_crud.create_beverage_quantity.
    apply hoare_bind with (λ _, copying db0 (order_id new)); [|intros a; by apply hoare_ret].
    apply hoare_modify. intros db (Ho & Hos & Hps & Hls & Hfresh). unfold copying.
    cbn [orders pizzas order_beverages next_uuid set_order_beverages].
    split; [done|]. split; [done|]. split; [done|]. split; [|done].
    rewrite filter_app, Hls, filter_cons_False, filter_nil, app_nil_r; [done|].
    cbn. by intros H.
Qed.

(** The store right after [order_crud.create_order] is a copy in progress. *)
Lemma copying_start db u :
  store_ok db →
  copying db (next_uuid db)
    (set_orders (λ _, orders db ++ [mkOrder (next_uuid db) u TRANSMITTED])
       (set_next_uuid (λ _, N.succ (next_uuid db)) db)).
Proof.
  intros Hok. unfold copying.
  cbn [orders pizzas order_beverages next_uuid set_orders set_next_uuid].
  split; [|split; [|split; [|split]]].
  - rewrite (find_app_new (next_uuid db)); [by eexists|apply Hok|done].
  - rewrite filter_app, filter_cons_False, filter_nil, app_nil_r by (cbn; by intros H).
    apply filter_all. intros o Ho. pose proof (ok_order_fresh _ Hok o Ho). lia.
  - apply filter_all. intros p Hp Hpo. pose proof (ok_pizza_orders _ Hok p _ Hp Hpo). lia.
  - apply filter_all. intros l Hl. pose proof (ok_line_orders _ Hok l Hl). lia.
  - intros p Hp. pose proof (ok_pizza_fresh _ Hok p Hp). lia.
Qed.

Lemma hoare_create_order db0 u c :
  store_ok db0 →
  hoare (λ db, db = db0) (router.create_order u (Some c))
        (λ _ _, True) (λ _, same_rows db0).
Proof.
  intros Hok. unfold router.create_order, router.user_is_none.
  apply hoare_bind with (λ _ db, db = db0); [by apply hoare_gets|].
  intros no_user. destruct no_user.
  { apply hoare_raise_http. by intros db ->. }
  apply hoare_bind with (λ new db, order_id new = next_uuid db0
                                   ∧ copying db0 (next_uuid db0) db).
  { intros db r db' -> Hrun. rewrite crud_create_order_run in Hrun.
    injection Hrun as <- <-. split; [done|]. by apply copying_start. }
  intros new.
  apply hoare_bind with (λ _ db, order_id new = next_uuid db0
                                 ∧ copying db0 (next_uuid db0) db).
  { by apply hoare_gets. }
  intros [copy_order|].
  2:{ apply hoare_weaken with (copying db0 (order_id new));
        [by intros db [-> Hcopy] | apply hoare_delete_new_order]. }
  intros db r db' [Hnew Hcopy]. rewrite <- Hnew in Hcopy. revert db r db' Hcopy.
  change (hoare (copying db0 (order_id new))
            ((let* ps := router.pizzas_of copy_order in
              for_each ps (router.copy_pizza new)) ;;
             (let* ls := router.beverages_of copy_order in
              for_each ls (router.copy_beverage new)) ;;
             ret new)
            (λ _ _, True) (λ _, same_rows db0)).
  apply hoare_bind with (λ _, copying db0 (order_id new)).
  { apply hoare_bind with (λ _, copying db0 (order_id new)); [by apply hoare_gets|].
    intros ps. apply hoare_for_each. intros p. apply hoare_copy_pizza. }
  intros a. apply hoare_bind with (λ _, copying db0 (order_id new)).
  { apply hoare_bind with (λ _, copying db0 (order_id new)); [by apply hoare_gets|].
    intros ls. apply hoare_for_each. intros l. apply hoare_copy_beverage. }
  intros a'. by apply hoare_ret.
Qed.

(** X27: whenever [router.create_order] with a template raises an
    [HTTPException] (404 or 409) on a store that meets the data model's
    constraints, it leaves no row behind: the orders, the pizzas and the
    beverage lines are those from before the request, the new order and
    whatever had been copied into it being deleted again.  (What had been
    taken from the stock for the copies is another matter.) *)
Theorem create_order_failure_leaves_no_row db u c code db' :
  store_ok db →
  router.create_order u (Some c) db = Some (Raise code, db') →
  orders db' = orders db ∧ pizzas db' = pizzas db
  ∧ order_beverages db' = order_beverages db.
Proof.
  intros Hok Hrun.
  exact (hoare_create_order db u c Hok db (Raise code) db' eq_refl Hrun).
Qed.

Lemma create_order_failure_leaves_no_row_witness :
  ∃ db',
    router.create_order 1%N (Some 101%N) db_template = Some (Raise 409, db')
    ∧ orders db' = orders db_template ∧ pizzas db' = pizzas db_template
    ∧ order_beverages db' = order_beverages db_template
    ∧ dough_stock_of db' 10%N = Some 0 ∧ dough_stock_of db_template 10%N = Some 1.
Proof.
  eexists. split; [vm_compute; reflexivity|].
  assert (store_ok db_template) as Hok.
  { constructor; cbn.
    - by apply (bool_decide_unpack _).
    - intros p Hp. repeat (apply elem_of_cons in Hp as [->|Hp]; [cbn; lia|]).
      by apply elem_of_nil in Hp.
    - intros p Hp. repeat (apply elem_of_cons in Hp as [->|Hp]; [by eexists|]).
      by apply elem_of_nil in Hp.
    - intros k t [<- <-]%lookup_singleton_Some. done.
    - intros k t [<- <-]%lookup_singleton_Some. split; [by eexists|].
      apply Forall_cons. split; [by eexists|]. by apply Forall_nil.
    - intros o Ho. repeat (apply elem_of_cons in Ho as [->|Ho]; [cbn; lia|]).
      by apply elem_of_nil in Ho.
    - intros p o Hp Hpo.
      repeat (apply elem_of_cons in Hp as [->|Hp]; [injection Hpo as <-; lia|]).
      by apply elem_of_nil in Hp.
    - intros l Hl. by apply elem_of_nil in Hl.
    - unfold lines_keyed. cbn. apply NoDup_nil_2.
    - intros l Hl. by apply elem_of_nil in Hl.
    - intros i b [<- <-]%lookup_singleton_Some. cbn. lia. }
  split; [|split; [|split; [|split]]];
    [apply (create_order_failure_leaves_no_row db_template 1%N 101%N 409 _ Hok);
       vm_compute; reflexivity ..| |]; vm_compute; reflexivity.
Defined.
